(** * RefillRadar: the medication supply / reminder calculator

    A shallow embedding of [backend/database/calc_reminders.py] together
    with the part of Python's [datetime] and [math] modules that the
    calculator calls, and the properties of the calculator stated in the
    specification.

    Layout:
    - [Py]        exceptions and the result monad;
    - [calendar]  the proleptic Gregorian calendar of [datetime];
    - [PyFloat]   [int / int] (true division) and [math.ceil];
    - [datetime]  naive [datetime] values and [timedelta];
    - [isotext]   [isoformat] and [fromisoformat];
    - [models]    the [Medication] record;
    - [MedicationReminderCalculator], [deserialize_reminder_dates] and
      [process_medication_reminders]: the calculator itself;
    - [spec]      the vocabulary of the specification;
    - the properties, one section per topic. *)

From Stdlib Require Import ZArith Lia Bool Ascii String.
From stdpp Require Import base option list gmap strings.

Local Open Scope Z_scope.

(** ** Exceptions and results *)

Module Py.

(** The exceptions that the modelled code can raise.  [ValueError]
    carries its message, which is how the calculator identifies the
    offending parameter. *)
Inductive exn : Type :=
| ValueError (msg : string)
| ZeroDivisionError
| OverflowError
| KeyError (key : string)
| ReferenceError.

Inductive result (A : Type) : Type :=
| Ok (a : A)
| Raise (e : exn).
Arguments Ok {A} a.
Arguments Raise {A} e.

Definition bind {A B} (r : result A) (k : A -> result B) : result B :=
  match r with
  | Ok a => k a
  | Raise e => Raise e
  end.

Definition is_ValueError {A} (r : result A) : bool :=
  match r with
  | Raise (ValueError _) => true
  | _ => false
  end.

(** [mapM]: a list comprehension whose body may raise. *)
Fixpoint mapM {A B} (f : A -> result B) (l : list A) : result (list B) :=
  match l with
  | [] => Ok []
  | x :: l' =>
      bind (f x) (fun y => bind (mapM f l') (fun ys => Ok (y :: ys)))
  end.

End Py.
Import Py.

Declare Scope py_scope.
Delimit Scope py_scope with py.
Notation "x <- e ;; k" := (Py.bind e (fun x => k))
  (at level 100, e at next level, right associativity) : py_scope.
Local Open Scope py_scope.

(** ** The proleptic Gregorian calendar of [datetime] *)

Module calendar.

Definition _MAXORDINAL : Z := 3652059.
Definition MINYEAR : Z := 1.
Definition MAXYEAR : Z := 9999.

Definition _DAYS_IN_MONTH (month : Z) : Z :=
  match month with
  | 1 => 31 | 2 => 28 | 3 => 31 | 4 => 30 | 5 => 31 | 6 => 30
  | 7 => 31 | 8 => 31 | 9 => 30 | 10 => 31 | 11 => 30 | 12 => 31
  | _ => -1
  end.

Definition _DAYS_BEFORE_MONTH (month : Z) : Z :=
  match month with
  | 1 => 0 | 2 => 31 | 3 => 59 | 4 => 90 | 5 => 120 | 6 => 151
  | 7 => 181 | 8 => 212 | 9 => 243 | 10 => 273 | 11 => 304 | 12 => 334
  | _ => -1
  end.

Definition b2z (b : bool) : Z := if b then 1 else 0.

Definition _is_leap (year : Z) : bool :=
  (year mod 4 =? 0) && (negb (year mod 100 =? 0) || (year mod 400 =? 0)).

Definition _days_before_year (year : Z) : Z :=
  let y := year - 1 in
  y * 365 + y / 4 - y / 100 + y / 400.

Definition _days_in_month (year month : Z) : Z :=
  if (month =? 2) && _is_leap year then 29 else _DAYS_IN_MONTH month.

Definition _days_before_month (year month : Z) : Z :=
  _DAYS_BEFORE_MONTH month + b2z ((2 <? month) && _is_leap year).

Definition _ymd2ord (year month day : Z) : Z :=
  _days_before_year year + _days_before_month year month + day.

Definition _DI400Y : Z := Eval cbv in _days_before_year 401.
Definition _DI100Y : Z := Eval cbv in _days_before_year 101.
Definition _DI4Y : Z := Eval cbv in _days_before_year 5.

Definition _ord2ymd (n : Z) : Z * Z * Z :=
  let n := n - 1 in
  let n400 := n / _DI400Y in
  let n := n mod _DI400Y in
  let year := n400 * 400 + 1 in
  let n100 := n / _DI100Y in
  let n := n mod _DI100Y in
  let n4 := n / _DI4Y in
  let n := n mod _DI4Y in
  let n1 := n / 365 in
  let n := n mod 365 in
  let year := year + (n100 * 100 + n4 * 4 + n1) in
  if (n1 =? 4) || (n100 =? 4) then (year - 1, 12, 31)
  else
    let leapyear := (n1 =? 3) && (negb (n4 =? 24) || (n100 =? 3)) in
    let month := Z.shiftr (n + 50) 5 in
    let preceding := _DAYS_BEFORE_MONTH month + b2z ((2 <? month) && leapyear) in
    let '(month, preceding) :=
      if n <? preceding
      then (month - 1,
            preceding - (_DAYS_IN_MONTH (month - 1)
                         + b2z ((month - 1 =? 2) && leapyear)))
      else (month, preceding) in
    (year, month, n - preceding + 1).

(** A date of the calendar: what [_check_date_fields] accepts. *)
Definition valid_date (year month day : Z) : Prop :=
  MINYEAR <= year <= MAXYEAR /\ 1 <= month <= 12
  /\ 1 <= day <= _days_in_month year month.

End calendar.

(** ** [int / int] and [math.ceil]

    Python's true division of two integers yields the binary64 number
    nearest to the exact quotient (ties to even), whatever the size of the
    operands; [math.ceil] of a float is exact.  A finite float is kept as
    the dyadic rational [mant * 2 ^ exp]. *)

Module PyFloat.

Record float : Type := mkfloat { mant : Z; exp : Z }.

(** [n / d] rounded to the nearest integer, ties to even ([0 <= n], [0 < d]). *)
Definition div_round_half_even (n d : Z) : Z :=
  let q := n / d in
  let r := n mod d in
  if 2 * r <? d then q
  else if d <? 2 * r then q + 1
  else if Z.even q then q else q + 1.

(** [n / d < 2 ^ e], on rationals. *)
Definition quot_lt_pow2 (n d e : Z) : bool :=
  if 0 <=? e then n <? d * 2 ^ e else n * 2 ^ (- e) <? d.

(** [floor (log2 (n / d))] for [0 < n] and [0 < d]. *)
Definition ilog2_quot (n d : Z) : Z :=
  let e := Z.log2 n - Z.log2 d in
  if quot_lt_pow2 n d e then e - 1 else e.

(** [a / b] for Python integers. *)
Definition true_div (a b : Z) : result float :=
  if b =? 0 then Raise ZeroDivisionError
  else if a =? 0 then Ok (mkfloat 0 0)
  else
    let n := Z.abs a in
    let d := Z.abs b in
    let e := ilog2_quot n d in
    if 1024 <=? e then Raise OverflowError
    else
      let s := Z.max (e - 52) (-1074) in
      let m := if 0 <=? s
               then div_round_half_even n (d * 2 ^ s)
               else div_round_half_even (n * 2 ^ (- s)) d in
      if (m =? 2 ^ 53) && (s =? 971) then Raise OverflowError
      else Ok (mkfloat (Z.sgn a * Z.sgn b * m) s).

(** [math.ceil x]. *)
Definition ceil (x : float) : Z :=
  if 0 <=? exp x then mant x * 2 ^ exp x
  else - ((- mant x) / 2 ^ (- exp x)).

End PyFloat.

(** ** [datetime]: naive timestamps and durations *)

Module datetime.
Import calendar.

(** *** [timedelta] *)

Record timedelta : Type :=
  mktimedelta { td_days : Z; td_seconds : Z; td_microseconds : Z }.

(** [timedelta(days, seconds, microseconds)] on integers: the carry
    from microseconds to seconds to days and the range check. *)
Definition timedelta_new (days seconds microseconds : Z) : result timedelta :=
  let s := seconds + microseconds / 1000000 in
  let us := microseconds mod 1000000 in
  let d := days + s / 86400 in
  let s := s mod 86400 in
  if 999999999 <? Z.abs d then Raise OverflowError
  else Ok (mktimedelta d s us).

Definition timedelta_weeks (weeks : Z) : result timedelta :=
  timedelta_new (weeks * 7) 0 0.
Definition timedelta_days (days : Z) : result timedelta :=
  timedelta_new days 0 0.
Definition timedelta_hours (hours : Z) : result timedelta :=
  timedelta_new 0 (hours * 3600) 0.

(** [-td] *)
Definition timedelta_neg (td : timedelta) : result timedelta :=
  timedelta_new (- td_days td) (- td_seconds td) (- td_microseconds td).

(** *** [datetime] *)

Record datetime : Type :=
  mkdatetime {
      year : Z; month : Z; day : Z;
      hour : Z; minute : Z; second : Z; microsecond : Z
    }.

(** The class invariant: what the constructor checks. *)
Definition wf (d : datetime) : Prop :=
  valid_date (year d) (month d) (day d)
  /\ 0 <= hour d <= 23 /\ 0 <= minute d <= 59
  /\ 0 <= second d <= 59 /\ 0 <= microsecond d <= 999999.

Definition in_range (lo x hi : Z) : bool := (lo <=? x) && (x <=? hi).

(** [datetime(year, month, day, hour, minute, second, microsecond)]:
    [_check_date_fields] then [_check_time_fields]. *)
Definition datetime_new (y mo d h mi s us : Z) : result datetime :=
  if negb (in_range MINYEAR y MAXYEAR)
  then Raise (ValueError "year must be in 1..9999")
  else if negb (in_range 1 mo 12)
  then Raise (ValueError "month must be in 1..12")
  else if negb (in_range 1 d (_days_in_month y mo))
  then Raise (ValueError "day is out of range for month")
  else if negb (in_range 0 h 23)
  then Raise (ValueError "hour must be in 0..23")
  else if negb (in_range 0 mi 59)
  then Raise (ValueError "minute must be in 0..59")
  else if negb (in_range 0 s 59)
  then Raise (ValueError "second must be in 0..59")
  else if negb (in_range 0 us 999999)
  then Raise (ValueError "microsecond must be in 0..999999")
  else Ok (mkdatetime y mo d h mi s us).

(** [self.replace(hour=h, minute=mi, second=s, microsecond=us)] *)
Definition replace (self : datetime) (h mi s us : Z) : result datetime :=
  datetime_new (year self) (month self) (day self) h mi s us.

Definition toordinal (self : datetime) : Z :=
  _ymd2ord (year self) (month self) (day self).

(** [self + other] *)
Definition add (self : datetime) (other : timedelta) : result datetime :=
  delta <- timedelta_new (toordinal self)
             (hour self * 3600 + minute self * 60 + second self)
             (microsecond self) ;;
  delta <- timedelta_new (td_days delta + td_days other)
             (td_seconds delta + td_seconds other)
             (td_microseconds delta + td_microseconds other) ;;
  let h := td_seconds delta / 3600 in
  let rem := td_seconds delta mod 3600 in
  let mi := rem / 60 in
  let s := rem mod 60 in
  if (0 <? td_days delta) && (td_days delta <=? _MAXORDINAL)
  then
    let '(y, mo, d) := _ord2ymd (td_days delta) in
    Ok (mkdatetime y mo d h mi s (td_microseconds delta))
  else Raise OverflowError.

(** [self - other] is [self + -other]. *)
Definition sub (self : datetime) (other : timedelta) : result datetime :=
  neg <- timedelta_neg other ;;
  add self neg.

(** [_cmp]: the fields compared as a tuple. *)
Definition _getstate (d : datetime) : list Z :=
  [year d; month d; day d; hour d; minute d; second d; microsecond d].

Fixpoint _cmp (x y : list Z) : comparison :=
  match x, y with
  | [], [] => Eq
  | [], _ :: _ => Lt
  | _ :: _, [] => Gt
  | a :: x', b :: y' =>
      match a ?= b with
      | Eq => _cmp x' y'
      | c => c
      end
  end.

(** [x < y] *)
Definition lt (x y : datetime) : bool :=
  match _cmp (_getstate x) (_getstate y) with
  | Lt => true
  | _ => false
  end.

(** *** The time line

    Notions used to state how the operations above act: the order on
    dates as tuples, the instant of a timestamp and the length of a
    duration in microseconds, and the seconds and the ordinal that
    [self + other] arrives at before they are split into fields. *)

Definition date_lt (p q : Z * Z * Z) : Prop :=
  let '(y, m, d) := p in
  let '(y', m', d') := q in
  y < y' \/ (y = y' /\ (m < m' \/ (m = m' /\ d < d'))).

Definition total_microseconds (d : datetime) : Z :=
  (toordinal d * 86400 + hour d * 3600 + minute d * 60 + second d) * 1000000
  + microsecond d.

Definition td_total_microseconds (td : timedelta) : Z :=
  (td_days td * 86400 + td_seconds td) * 1000000 + td_microseconds td.

Definition add_seconds (d : datetime) (td : timedelta) : Z :=
  hour d * 3600 + minute d * 60 + second d + td_seconds td
  + (microsecond d + td_microseconds td) / 1000000.

Definition add_ordinal (d : datetime) (td : timedelta) : Z :=
  toordinal d + td_days td + add_seconds d td / 86400.

End datetime.

(** ** ISO 8601 text of naive timestamps *)

Module isotext.
Import datetime.

Definition digit_char (d : Z) : ascii :=
  ascii_of_nat (48 + Z.to_nat d).

(** ["%0<width>d" % n] for [0 <= n < 10 ^ width], the range of every
    field of a [datetime]; most significant digit first. *)
Fixpoint zfill (width : nat) (n : Z) : string :=
  match width with
  | O => EmptyString
  | S w => String (digit_char ((n / 10 ^ Z.of_nat w) mod 10)) (zfill w n)
  end.

(** The fraction is printed only when there is one. *)
Definition fraction_text (us : Z) : string :=
  if us =? 0 then "" else "." +:+ zfill 6 us.

(** [self.isoformat()]: separator ['T'], [timespec='auto']. *)
Definition isoformat (self : datetime) : string :=
  zfill 4 (year self) +:+ "-" +:+ zfill 2 (month self) +:+ "-"
  +:+ zfill 2 (day self) +:+ "T"
  +:+ zfill 2 (hour self) +:+ ":" +:+ zfill 2 (minute self) +:+ ":"
  +:+ zfill 2 (second self) +:+ fraction_text (microsecond self).

Definition digit_value (c : ascii) : option Z :=
  let n := Z.of_nat (nat_of_ascii c) in
  if (48 <=? n) && (n <=? 57) then Some (n - 48) else None.

(** Reads exactly [width] decimal digits; [acc] is the value so far. *)
Fixpoint parse_digits (width : nat) (acc : Z) (s : string)
  : option (Z * string) :=
  match width with
  | O => Some (acc, s)
  | S w =>
      match s with
      | EmptyString => None
      | String c s' =>
          match digit_value c with
          | Some v => parse_digits w (10 * acc + v) s'
          | None => None
          end
      end
  end.

Definition expect (c : ascii) (s : string) : option string :=
  match s with
  | String c' s' => if Ascii.eqb c c' then Some s' else None
  | EmptyString => None
  end.

(** [_parse_isoformat_date]: [YYYY-MM-DD]. *)
Definition parse_isoformat_date (s : string) : option (Z * Z * Z * string) :=
  '(y, s) ← parse_digits 4 0 s;
  s ← expect "-"%char s;
  '(mo, s) ← parse_digits 2 0 s;
  s ← expect "-"%char s;
  '(d, s) ← parse_digits 2 0 s;
  Some (y, mo, d, s).

(** The fraction of [_parse_hh_mm_ss_ff]: [.fff] or [.ffffff]. *)
Definition parse_fraction (s : string) : option Z :=
  match s with
  | EmptyString => Some 0
  | String c s' =>
      if Ascii.eqb c "."%char then
        match String.length s' with
        | 3%nat => '(v, _) ← parse_digits 3 0 s'; Some (v * 1000)
        | 6%nat => '(v, _) ← parse_digits 6 0 s'; Some v
        | _ => None
        end
      else None
  end.

(** [_parse_hh_mm_ss_ff]: [HH[:MM[:SS[.fff[fff]]]]]. *)
Definition parse_hh_mm_ss_ff (s : string) : option (Z * Z * Z * Z) :=
  '(h, s) ← parse_digits 2 0 s;
  match s with
  | EmptyString => Some (h, 0, 0, 0)
  | _ =>
      s ← expect ":"%char s;
      '(mi, s) ← parse_digits 2 0 s;
      match s with
      | EmptyString => Some (h, mi, 0, 0)
      | _ =>
          s ← expect ":"%char s;
          '(sec, s) ← parse_digits 2 0 s;
          us ← parse_fraction s;
          Some (h, mi, sec, us)
      end
  end.

Definition invalid_isoformat (s : string) : exn :=
  ValueError ("Invalid isoformat string: " +:+ s).

(** [datetime.fromisoformat(date_string)] on the grammar
    [YYYY-MM-DD[*HH[:MM[:SS[.fff[fff]]]]]] of naive timestamps.  Text
    outside this grammar is rejected with [ValueError]; that includes a
    trailing UTC offset, which would denote an aware timestamp. *)
Definition fromisoformat (date_string : string) : result datetime :=
  match parse_isoformat_date date_string with
  | None => Raise (invalid_isoformat date_string)
  | Some (y, mo, d, rest) =>
      match rest with
      | EmptyString => datetime_new y mo d 0 0 0 0
      | String _sep tstr =>
          match tstr with
          | EmptyString => datetime_new y mo d 0 0 0 0
          | _ =>
              match parse_hh_mm_ss_ff tstr with
              | None => Raise (invalid_isoformat date_string)
              | Some (h, mi, sec, us) => datetime_new y mo d h mi sec us
              end
          end
      end
  end.

End isotext.

(** ** [backend/database/models.py]: the medication record *)

Module models.
Import datetime.

(** The columns of [Medication], with the types they have when the
    record reaches the calculator. *)
Record Medication : Type :=
  mkMedication {
      id : option Z;
      user_id : Z;
      med_name : string;
      icon : Z;
      color : Z;
      details : option string;
      max_dosage : Z;
      dosage_interval : Z;
      dosage_frequency : string;
      total_supply : Z;
      start_date : datetime;
      start_time : option datetime;
      end_date : option datetime;
      duration_prior : Z;
      reminder_unit : string;
      repeat_reminders : Z;
      repeat_intervals : Z;
      repeat_unit : string;
      reminder_dates : option (list string);
      created_at : option datetime
    }.

(** [medication.end_date = v] *)
Definition set_end_date (m : Medication) (v : datetime) : Medication :=
  mkMedication (id m) (user_id m) (med_name m) (icon m) (color m)
    (details m) (max_dosage m) (dosage_interval m) (dosage_frequency m)
    (total_supply m) (start_date m) (start_time m) (Some v)
    (duration_prior m) (reminder_unit m) (repeat_reminders m)
    (repeat_intervals m) (repeat_unit m) (reminder_dates m) (created_at m).

(** [medication.reminder_dates = v] *)
Definition set_reminder_dates (m : Medication) (v : list string) : Medication :=
  mkMedication (id m) (user_id m) (med_name m) (icon m) (color m)
    (details m) (max_dosage m) (dosage_interval m) (dosage_frequency m)
    (total_supply m) (start_date m) (start_time m) (end_date m)
    (duration_prior m) (reminder_unit m) (repeat_reminders m)
    (repeat_intervals m) (repeat_unit m) (Some v) (created_at m).

(** Two records that agree on every column but [end_date] and
    [reminder_dates]. *)
Definition same_inputs (m m' : Medication) : Prop :=
  id m' = id m
  /\ user_id m' = user_id m
  /\ med_name m' = med_name m
  /\ icon m' = icon m
  /\ color m' = color m
  /\ details m' = details m
  /\ max_dosage m' = max_dosage m
  /\ dosage_interval m' = dosage_interval m
  /\ dosage_frequency m' = dosage_frequency m
  /\ total_supply m' = total_supply m
  /\ start_date m' = start_date m
  /\ start_time m' = start_time m
  /\ duration_prior m' = duration_prior m
  /\ reminder_unit m' = reminder_unit m
  /\ repeat_reminders m' = repeat_reminders m
  /\ repeat_intervals m' = repeat_intervals m
  /\ repeat_unit m' = repeat_unit m
  /\ created_at m' = created_at m.

End models.

(** ** [backend/database/calc_reminders.py] *)

Module MedicationReminderCalculator.
Import datetime isotext.

Definition calculate_end_date
  (start_date : datetime) (max_dosage : Z) (dosage_frequency : string)
  (total_supply : Z) (dosage_interval : Z) (start_time : option datetime)
  : result datetime :=
  let base_date :=
    match (dosage_frequency =? "HOUR(S)")%string, start_time with
    | true, Some t => t
    | _, _ => start_date
    end in
  q <- PyFloat.true_div total_supply max_dosage ;;
  let doses := PyFloat.ceil q in
  let additional_doses := if 0 <? doses then doses - 1 else 0 in
  if (dosage_frequency =? "HOUR(S)")%string then
    td <- timedelta_hours (additional_doses * dosage_interval) ;;
    add base_date td
  else if (dosage_frequency =? "DAY(S)")%string then
    td <- timedelta_days (additional_doses * dosage_interval) ;;
    add base_date td
  else if (dosage_frequency =? "WEEK(S)")%string then
    td <- timedelta_weeks (additional_doses * dosage_interval) ;;
    add base_date td
  else Raise (ValueError ("Invalid dosage frequency: " +:+ dosage_frequency)).

(** The number of doses beyond the first, as [calculate_end_date] computes
    it. *)
Definition additional_doses (total_supply max_dosage : Z) : result Z :=
  q <- PyFloat.true_div total_supply max_dosage ;;
  Ok (if 0 <? PyFloat.ceil q then PyFloat.ceil q - 1 else 0).

(** [d[key]] *)
Definition getitem (d : gmap string Z) (key : string) : result Z :=
  match d !! key with
  | Some v => Ok v
  | None => Raise (KeyError key)
  end.

Definition default_time : gmap string Z :=
  <["hour" := 8]> (<["minute" := 0]> ∅).

(** The body of the [for] loop: the reminder of index [i]. *)
Definition next_reminder
  (first_reminder : datetime) (repeat_intervals : Z) (repeat_unit : string)
  (i : Z) : result datetime :=
  if (repeat_unit =? "WEEK(S)")%string then
    td <- timedelta_weeks (i * repeat_intervals) ;;
    add first_reminder td
  else if (repeat_unit =? "DAY(S)")%string then
    td <- timedelta_days (i * repeat_intervals) ;;
    add first_reminder td
  else if (repeat_unit =? "HOUR(S)")%string then
    td <- timedelta_hours (i * repeat_intervals) ;;
    add first_reminder td
  else Raise (ValueError ("Invalid repeat unit: " +:+ repeat_unit)).

(** The [for] loop over the indices [range_], appending to
    [reminder_dates]. *)
Fixpoint repeat_loop
  (first_reminder : datetime) (repeat_intervals : Z) (repeat_unit : string)
  (range_ : list Z) (reminder_dates : list datetime)
  : result (list datetime) :=
  match range_ with
  | [] => Ok reminder_dates
  | i :: range_ =>
      nxt <- next_reminder first_reminder repeat_intervals repeat_unit i ;;
      repeat_loop first_reminder repeat_intervals repeat_unit range_
        (reminder_dates ++ [nxt])
  end.

Definition calculate_reminder_dates
  (end_date : datetime) (duration_prior : Z) (reminder_unit : string)
  (repeat_reminders : Z) (repeat_intervals : Z) (repeat_unit : string)
  (default_reminder_time : option (gmap string Z))
  : result (list datetime) :=
  let default_reminder_time :=
    match default_reminder_time with
    | None => default_time
    | Some d => d
    end in
  first_reminder <-
    (if (reminder_unit =? "WEEK(S)")%string then
       td <- timedelta_weeks duration_prior ;; sub end_date td
     else if (reminder_unit =? "DAY(S)")%string then
       td <- timedelta_days duration_prior ;; sub end_date td
     else if (reminder_unit =? "(HOUR(S))")%string then
       td <- timedelta_hours duration_prior ;; sub end_date td
     else Raise (ValueError ("Invalid reminder unit: " +:+ reminder_unit))) ;;
  h <- getitem default_reminder_time "hour" ;;
  mi <- getitem default_reminder_time "minute" ;;
  first_reminder <- replace first_reminder h mi 0 0 ;;
  repeat_loop first_reminder repeat_intervals repeat_unit
    (seqZ 1 repeat_reminders) [first_reminder].

Definition serialize_reminder_dates (reminder_dates : list datetime)
  : list string :=
  map isoformat reminder_dates.

End MedicationReminderCalculator.

Import datetime isotext.

Definition deserialize_reminder_dates (serialized_dates : list string)
  : result (list datetime) :=
  mapM fromisoformat serialized_dates.

(** *** [process_medication_reminders]

    The medication is an object shared with the caller: the function
    receives a reference to it and assigns to its attributes.  The heap
    maps references to records. *)

Definition ref : Type := positive.
Definition heap : Type := gmap ref models.Medication.

(** The returned dictionary, with its three keys. *)
Record processed : Type :=
  mkprocessed {
      medication : ref;
      end_date : datetime;
      reminder_dates : list datetime
    }.

Definition process_medication_reminders
  (medication : ref) (default_reminder_time : option (gmap string Z))
  (h : heap) : heap * result processed :=
  match h !! medication with
  | None => (h, Raise ReferenceError)
  | Some m =>
      match MedicationReminderCalculator.calculate_end_date
              (models.start_date m) (models.max_dosage m)
              (models.dosage_frequency m) (models.total_supply m)
              (models.dosage_interval m) (models.start_time m) with
      | Raise e => (h, Raise e)
      | Ok end_date =>
          let m := models.set_end_date m end_date in
          let h := <[medication := m]> h in
          match MedicationReminderCalculator.calculate_reminder_dates
                  end_date (models.duration_prior m) (models.reminder_unit m)
                  (models.repeat_reminders m) (models.repeat_intervals m)
                  (models.repeat_unit m) default_reminder_time with
          | Raise e => (h, Raise e)
          | Ok reminder_dates =>
              let serialized_reminder_dates :=
                MedicationReminderCalculator.serialize_reminder_dates
                  reminder_dates in
              let m := models.set_reminder_dates m serialized_reminder_dates in
              let h := <[medication := m]> h in
              (h, Ok (mkprocessed medication end_date reminder_dates))
          end
      end
  end.

(** *** The scenario of the specification

    Two doses a day from a supply of twenty, reminders from three days
    before the end. *)

Definition sample_medication : models.Medication :=
  models.mkMedication None 1 "Amoxicillin" 1 1 None 2 1 "DAY(S)" 20
    (mkdatetime 2025 1 1 0 0 0 0) None None 3 "DAY(S)" 2 1 "DAY(S)" None None.

Definition sample_processed : models.Medication :=
  models.set_reminder_dates
    (models.set_end_date sample_medication (mkdatetime 2025 1 10 0 0 0 0))
    ["2025-01-07T08:00:00"; "2025-01-08T08:00:00"; "2025-01-09T08:00:00"].

(** ** The vocabulary of the specification

    The quantities in which the specification states the behaviour of the
    calculator; they are compared with the code in the theorems. *)

Module spec.
Import datetime.

(** [ceil(a / b)] on the exact quotient, for [0 < b]. *)
Definition exact_ceil (a b : Z) : Z := - ((- a) / b).

(** The three unit tokens used for dosing and for repeats. *)
Definition is_unit (u : string) : bool :=
  (u =? "HOUR(S)")%string || (u =? "DAY(S)")%string || (u =? "WEEK(S)")%string.

(** The three tokens that [calculate_reminder_dates] accepts for
    [reminder_unit]. *)
Definition is_reminder_unit (u : string) : bool :=
  (u =? "WEEK(S)")%string || (u =? "DAY(S)")%string
  || (u =? "(HOUR(S))")%string.

(** The result is not the error raised for an unrecognized reminder unit. *)
Definition not_reminder_unit_error {A} (r : result A) : Prop :=
  forall msg, r = Raise (ValueError msg) ->
              String.prefix "Invalid reminder unit: " msg = false.

(** [k] hours, days or weeks of fixed length. *)
Definition duration (u : string) (k : Z) : result timedelta :=
  if (u =? "HOUR(S)")%string then timedelta_hours k
  else if (u =? "DAY(S)")%string then timedelta_days k
  else timedelta_weeks k.

(** The fixed length of a unit, in microseconds. *)
Definition unit_microseconds (u : string) : Z :=
  if (u =? "HOUR(S)")%string then 3600 * 1000000
  else if (u =? "DAY(S)")%string then 86400 * 1000000
  else 7 * 86400 * 1000000.

(** The anchor of the end date: [start_time] for hourly dosing when one was
    supplied, [start_date] otherwise. *)
Definition anchor (dosage_frequency : string) (start_date : datetime)
  (start_time : option datetime) : datetime :=
  match start_time with
  | Some t => if (dosage_frequency =? "HOUR(S)")%string then t else start_date
  | None => start_date
  end.

(** The reminder time in force: the caller's, or 08:00. *)
Definition reminder_time (default_reminder_time : option (gmap string Z))
  : gmap string Z :=
  match default_reminder_time with
  | Some d => d
  | None => <["hour" := 8]> (<["minute" := 0]> ∅)
  end.

End spec.

(** ** [backend/notifications.py]: scheduling the reminders

    The background scheduler is used through three calls only: a job is
    added with its run date, all jobs are removed, the scheduler is shut
    down.  Its state is the list of the run dates of the pending jobs, in
    the order in which they were added.  [datetime.now()] is read once per
    reminder examined: [clock n] is the [n]-th reading, and the number of
    readings taken so far is part of the state. *)

Module notifications.
Import datetime isotext.

Record scheduler : Type :=
  mkscheduler { jobs : list datetime; readings : nat }.

(** [x > y] *)
Definition gt (x y : datetime) : bool :=
  match _cmp (_getstate x) (_getstate y) with
  | Gt => true
  | _ => false
  end.

(** [self.scheduler.add_job(self._send_notification, 'date', run_date=d)] *)
Definition add_job (run_date : datetime) (s : scheduler) : scheduler :=
  mkscheduler (jobs s ++ [run_date]) (readings s).

(** [datetime.now()] *)
Definition now (clock : nat -> datetime) (s : scheduler)
  : datetime * scheduler :=
  (clock (readings s), mkscheduler (jobs s) (S (readings s))).

Fixpoint schedule_medication_reminders
  (clock : nat -> datetime) (reminder_dates : list string)
  (medication_name : option string) (s : scheduler)
  : scheduler * result unit :=
  match reminder_dates with
  | [] => (s, Ok tt)
  | date_str :: reminder_dates =>
      match fromisoformat date_str with
      | Raise e => (s, Raise e)
      | Ok reminder_date =>
          let '(t, s) := now clock s in
          let s := if gt reminder_date t then add_job reminder_date s else s in
          schedule_medication_reminders clock reminder_dates medication_name s
      end
  end.

Definition cancel_all_reminders (s : scheduler) : scheduler :=
  mkscheduler [] (readings s).

(** The entries of the dictionaries of [get_user_medications] that the
    scheduler reads: a name, and for the reminder dates [None], the list
    decoded from the stored text, or that text itself when it could not be
    decoded. *)
Inductive value : Type :=
| VNone
| VStr (s : string)
| VList (l : list string).

(** [bool(v)] *)
Definition truthy (v : value) : bool :=
  match v with
  | VNone => false
  | VStr EmptyString => false
  | VStr _ => true
  | VList [] => false
  | VList _ => true
  end.

Fixpoint characters (s : string) : list string :=
  match s with
  | EmptyString => []
  | String c s => String c EmptyString :: characters s
  end.

(** [for date_str in v]: the items of a list, the characters of a string. *)
Definition iterate (v : value) : list string :=
  match v with
  | VNone => []
  | VStr s => characters s
  | VList l => l
  end.

(** [med[key]] *)
Definition getitem (med : gmap string value) (key : string) : result value :=
  match med !! key with
  | Some v => Ok v
  | None => Raise (KeyError key)
  end.

Definition name_of (v : value) : option string :=
  match v with
  | VStr s => Some s
  | _ => None
  end.

(** The loop of [load_all_reminders] over the medications. *)
Fixpoint load_loop (clock : nat -> datetime)
  (user_medications : list (gmap string value)) (s : scheduler)
  : scheduler * result unit :=
  match user_medications with
  | [] => (s, Ok tt)
  | med :: user_medications =>
      match med !! "reminder_dates" with
      | Some v =>
          if truthy v then
            match getitem med "med_name" with
            | Raise e => (s, Raise e)
            | Ok name =>
                match schedule_medication_reminders clock (iterate v)
                        (name_of name) s with
                | (s, Raise e) => (s, Raise e)
                | (s, Ok _) => load_loop clock user_medications s
                end
            end
          else load_loop clock user_medications s
      | None => load_loop clock user_medications s
      end
  end.

(** [load_all_reminders]; [user_medications] is what
    [self.get_user_medications(user_id)] returned or raised. *)
Definition load_all_reminders (clock : nat -> datetime)
  (user_medications : result (list (gmap string value))) (s : scheduler)
  : scheduler * result unit :=
  match user_medications with
  | Raise e => (s, Raise e)
  | Ok user_medications =>
      load_loop clock user_medications (cancel_all_reminders s)
  end.

End notifications.

(** ** [frontend/screens/calendar_screen.py]: the month grid

    A widget of the grid is kept as what distinguishes it: an empty label,
    or the button of a day with its background (marked or not) and its
    outline (today or not). *)

Module calendar_screen.
Import calendar datetime.

(** [d.weekday()]: Monday is 0. *)
Definition weekday (d : datetime) : Z := (toordinal d + 6) mod 7.

(** [calendar.monthrange(year, month)] *)
Definition monthrange (year month : Z) : result (Z * Z) :=
  if negb (in_range 1 month 12) then Raise (ValueError "bad month number")
  else
    let y := if in_range MINYEAR year MAXYEAR then year
             else 2000 + year mod 400 in
    Ok ((_ymd2ord y month 1 + 6) mod 7, _days_in_month year month).

Inductive cell : Type :=
| EmptyLabel
| DayButton (day : Z) (marked : bool) (outlined : bool).

Definition meds_schedule : list Z := [3; 10; 15; 20; 25].

Definition member (x : Z) (l : list Z) : bool := existsb (Z.eqb x) l.

Record screen : Type :=
  mkscreen { current_date : datetime; calendar_grid : list cell }.

(** The button of [day] in the month shown. *)
Definition day_button (today : datetime) (year month day : Z) : cell :=
  DayButton day (member day meds_schedule)
    ((day =? datetime.day today) && (month =? datetime.month today)
     && (year =? datetime.year today)).

Definition populate_calendar (today : datetime) (s : screen)
  : screen * result unit :=
  let year := year (current_date s) in
  let month := month (current_date s) in
  match datetime_new year month 1 0 0 0 0 with
  | Raise e => (s, Raise e)
  | Ok first_day_of_month =>
      match monthrange year month with
      | Raise e => (s, Raise e)
      | Ok (_, num_days) =>
          let grid := [] in
          let grid :=
            grid ++ map (fun _ => EmptyLabel)
                        (seqZ 0 (weekday first_day_of_month)) in
          let grid :=
            grid ++ map (day_button today year month) (seqZ 1 num_days) in
          let total_cells := 7 * 6 in
          let used_cells := weekday first_day_of_month + num_days in
          let grid :=
            grid ++ map (fun _ => EmptyLabel)
                        (seqZ 0 (total_cells - used_cells)) in
          (mkscreen (current_date s) grid, Ok tt)
      end
  end.

Definition change_month (today : datetime) (direction : Z) (s : screen)
  : screen * result unit :=
  let month := month (current_date s) + direction in
  let year := year (current_date s) in
  let '(month, year) :=
    if month <? 1 then (12, year - 1)
    else if 12 <? month then (1, year + 1)
    else (month, year) in
  match datetime_new year month 1 0 0 0 0 with
  | Raise e => (s, Raise e)
  | Ok d => populate_calendar today (mkscreen d (calendar_grid s))
  end.

End calendar_screen.

(** ** The clock of the forms: twelve hours and a period

    [add_prescription] turns the hour and the period chosen in the form
    into an hour of the day; [load_medication_data] turns the hour of a
    stored start time back into what the form shows. *)

Module clock12.

Definition upper_char (c : ascii) : ascii :=
  let n := nat_of_ascii c in
  if (97 <=? n)%nat && (n <=? 122)%nat then ascii_of_nat (n - 32) else c.

(** [s.upper()], on ASCII text. *)
Fixpoint upper (s : string) : string :=
  match s with
  | EmptyString => EmptyString
  | String c s => String (upper_char c) (upper s)
  end.

(** [add_prescription]: the hour of the day. *)
Definition hour_of_day (ampm_text : string) (hour : Z) : Z :=
  if (upper ampm_text =? "PM")%string && negb (hour =? 12) then hour + 12
  else if (upper ampm_text =? "AM")%string && (hour =? 12) then 0
  else hour.

(** [load_medication_data]: the period and the hour shown. *)
Definition period (hour : Z) : string := if hour <? 12 then "AM" else "PM".

Definition hour_12 (hour : Z) : Z :=
  if hour mod 12 =? 0 then 12 else hour mod 12.

End clock12.

(** ** Quantities of the statements

    An instant is a number of microseconds, counted as
    [total_microseconds] counts them. *)

Section Quantities.
Import calendar datetime isotext spec MedicationReminderCalculator.
Import notifications.

(** The instants of the calendar: from 0001-01-01 to the end of
    9999-12-31. *)
Definition in_calendar (t : Z) : Prop :=
  86400000000 <= t < (_MAXORDINAL + 1) * 86400000000.

(** The date [duration_prior] units before the end date, as
    [calculate_reminder_dates] computes it first. *)
Definition prior_date (end_date : datetime) (duration_prior : Z)
  (reminder_unit : string) : result datetime :=
  if (reminder_unit =? "WEEK(S)")%string then
    td <- timedelta_weeks duration_prior ;; sub end_date td
  else if (reminder_unit =? "DAY(S)")%string then
    td <- timedelta_days duration_prior ;; sub end_date td
  else if (reminder_unit =? "(HOUR(S))")%string then
    td <- timedelta_hours duration_prior ;; sub end_date td
  else Raise (ValueError ("Invalid reminder unit: " +:+ reminder_unit)).

(** The fixed length of a reminder unit, in microseconds. *)
Definition reminder_unit_microseconds (u : string) : Z :=
  if (u =? "WEEK(S)")%string then 7 * 86400 * 1000000
  else if (u =? "DAY(S)")%string then 86400 * 1000000
  else 3600 * 1000000.

(** Midnight of the day of an instant. *)
Definition midnight (t : Z) : Z := t / 86400000000 * 86400000000.

(** The medications that the add-prescription form can submit: the ranges
    of its menus and buttons. *)
Definition form_input (m : models.Medication) : Prop :=
  1 <= models.max_dosage m <= 10
  /\ 1 <= models.dosage_interval m <= 24
  /\ is_unit (models.dosage_frequency m) = true
  /\ (models.total_supply m = 30 \/ models.total_supply m = 60
      \/ models.total_supply m = 90 \/ models.total_supply m = 100)
  /\ wf (models.start_date m)
  /\ 2025 <= year (models.start_date m) <= 2039
  /\ match models.start_time m with
     | None => True
     | Some t => wf t /\ 2025 <= year t <= 2039
     end
  /\ 1 <= models.duration_prior m <= 10
  /\ is_unit (models.reminder_unit m) = true
  /\ 1 <= models.repeat_reminders m <= 4
  /\ 1 <= models.repeat_intervals m <= 12
  /\ is_unit (models.repeat_unit m) = true.


(** Every job of [added] is later than one of the readings [n .. n'-1]. *)
Definition all_future (clock : nat -> datetime) (n n' : nat)
  (added : list datetime) : Prop :=
  Forall (fun d => exists k, (n <= k < n')%nat /\ gt d (clock k) = true) added.
End Quantities.

(** * Properties *)

Ltac dlia := Z.div_mod_to_equations; lia.

(** ** The calendar: ordinals and dates correspond *)

Section CalendarFacts.
Import calendar datetime.

(** [_ord2ymd] yields a date of the calendar, and [_ymd2ord] maps it
    back to the ordinal. *)
Lemma ord2ymd_ymd2ord n :
  1 <= n <= _MAXORDINAL ->
  let '(y, m, d) := _ord2ymd n in
  valid_date y m d /\ _ymd2ord y m d = n.
Proof.
  intros Hn. unfold _MAXORDINAL in Hn.
  unfold _ord2ymd.
  cbv zeta.
  unfold _DI400Y, _DI100Y, _DI4Y.
  set (n0 := n - 1).
  assert (Hn0: 0 <= n0 <= 3652058) by lia.
  assert (Hnn : n = n0 + 1) by lia.
  clearbody n0. subst n.
  pose proof (Z.div_mod n0 146097 ltac:(lia)) as E1.
  pose proof (Z.mod_pos_bound n0 146097 ltac:(lia)) as B1.
  set (n400 := n0 / 146097) in *. set (r1 := n0 mod 146097) in *.
  pose proof (Z.div_mod r1 36524 ltac:(lia)) as E2.
  pose proof (Z.mod_pos_bound r1 36524 ltac:(lia)) as B2.
  set (n100 := r1 / 36524) in *. set (r2 := r1 mod 36524) in *.
  pose proof (Z.div_mod r2 1461 ltac:(lia)) as E3.
  pose proof (Z.mod_pos_bound r2 1461 ltac:(lia)) as B3.
  set (n4 := r2 / 1461) in *. set (r3 := r2 mod 1461) in *.
  pose proof (Z.div_mod r3 365 ltac:(lia)) as E4.
  pose proof (Z.mod_pos_bound r3 365 ltac:(lia)) as B4.
  set (n1 := r3 / 365) in *. set (r4 := r3 mod 365) in *.
  clearbody n400 r1 n100 r2 n4 r3 n1 r4.
  assert (0 <= n400 <= 24) by lia.
  assert (0 <= n100 <= 4) by lia.
  assert (0 <= n4 <= 24) by lia.
  assert (0 <= n1 <= 4) by lia.
  destruct (Z.eqb_spec n1 4) as [e1|e1];
    [|destruct (Z.eqb_spec n100 4) as [e2|e2]]; simpl orb; cbv iota.
  - unfold valid_date, _ymd2ord, _days_before_year, _days_before_month,
      _days_in_month, _is_leap, MINYEAR, MAXYEAR.
    assert (r4 = 0) by lia.
    assert (n4 <= 23) by lia.
    assert (n100 <= 3) by lia.
    set (Y := n400 * 400 + 1 + (n100 * 100 + n4 * 4 + n1) - 1).
    assert (HY : Y = 400 * n400 + 100 * n100 + 4 * n4 + 4) by lia.
    clearbody Y.
    assert (Y mod 4 = 0) by dlia.
    assert (Y mod 100 <> 0) by dlia.
    rewrite (proj2 (Z.eqb_eq (Y mod 4) 0)) by assumption.
    rewrite (proj2 (Z.eqb_neq (Y mod 100) 0)) by assumption.
    simpl.
    assert ((Y - 1) / 4 = 100 * n400 + 25 * n100 + n4) by dlia.
    assert ((Y - 1) / 100 = 4 * n400 + n100) by dlia.
    assert ((Y - 1) / 400 = n400) by dlia.
    lia.
  - unfold valid_date, _ymd2ord, _days_before_year, _days_before_month,
      _days_in_month, _is_leap, MINYEAR, MAXYEAR.
    assert (r4 = 0 /\ n4 = 0 /\ n1 = 0) as (? & ? & ?) by lia.
    set (Y := n400 * 400 + 1 + (n100 * 100 + n4 * 4 + n1) - 1).
    assert (HY : Y = 400 * n400 + 400) by lia.
    clearbody Y.
    assert (Y mod 4 = 0) by dlia.
    assert (Y mod 400 = 0) by dlia.
    rewrite (proj2 (Z.eqb_eq (Y mod 4) 0)) by assumption.
    rewrite (proj2 (Z.eqb_eq (Y mod 400) 0)) by assumption.
    rewrite orb_true_r. simpl.
    assert ((Y - 1) / 4 = 100 * n400 + 99) by dlia.
    assert ((Y - 1) / 100 = 4 * n400 + 3) by dlia.
    assert ((Y - 1) / 400 = n400) by dlia.
    lia.
  - assert (n100 <= 3) by lia. assert (n1 <= 3) by lia.
    set (Y := n400 * 400 + 1 + (n100 * 100 + n4 * 4 + n1)).
    assert (HY : Y = 400 * n400 + 100 * n100 + 4 * n4 + n1 + 1) by lia.
    clearbody Y.
    set (leapyear := (n1 =? 3) && (negb (n4 =? 24) || (n100 =? 3))).
    assert (Hleap : _is_leap Y = leapyear).
    { unfold _is_leap, leapyear.
      destruct (Z.eqb_spec n1 3), (Z.eqb_spec n4 24), (Z.eqb_spec n100 3); simpl;
        repeat match goal with
        | |- context [?a mod ?b =? 0] => destruct (Z.eqb_spec (a mod b) 0)
        end; simpl; try reflexivity; exfalso; dlia. }
    assert (Hr4 : r4 < 365 + b2z leapyear).
    { unfold leapyear, b2z.
      destruct (Z.eqb_spec n1 3), (Z.eqb_spec n4 24), (Z.eqb_spec n100 3); simpl; lia. }
    assert (Hdby : _days_before_year Y = n0 - r4).
    { unfold _days_before_year. cbv zeta.
      assert ((Y - 1) / 4 = 100 * n400 + 25 * n100 + n4) as -> by dlia.
      assert ((Y - 1) / 100 = 4 * n400 + n100) as -> by dlia.
      assert ((Y - 1) / 400 = n400) as -> by dlia.
      lia. }
    assert (HYr : 1 <= Y <= 9999) by lia.
    clearbody leapyear.
    rewrite Z.shiftr_div_pow2 by lia. change (2 ^ 5) with 32.
    assert (Hm : 1 <= (r4 + 50) / 32 <= 12) by dlia.
    set (month := (r4 + 50) / 32) in *.
    assert (Hmb : 32 * month <= r4 + 50 < 32 * month + 32) by (unfold month; dlia).
    clearbody month.
    assert (month = 1 \/ month = 2 \/ month = 3 \/ month = 4 \/ month = 5 \/ month = 6 \/
            month = 7 \/ month = 8 \/ month = 9 \/ month = 10 \/ month = 11 \/ month = 12)
      as Hc by lia.
    destruct leapyear; unfold b2z in *;
      repeat (destruct Hc as [-> | Hc]); try subst month;
      cbn [_DAYS_BEFORE_MONTH _DAYS_IN_MONTH Z.ltb Z.eqb Z.compare Pos.compare
             Pos.compare_cont Pos.eqb andb Z.add Z.sub Z.opp Z.pos_sub Pos.add
             Pos.succ Z.succ_double Z.pred_double Z.double Pos.pred_double];
      match goal with
      | |- context [?a <? ?b] => destruct (Z.ltb_spec a b)
      end;
      unfold valid_date, _ymd2ord, _days_before_month, _days_in_month, MINYEAR, MAXYEAR;
      rewrite Hdby, Hleap; simpl; lia.
Qed.
Lemma is_leap_cases y :
  (_is_leap y = true /\ y mod 4 = 0 /\ (y mod 100 <> 0 \/ y mod 400 = 0))
  \/ (_is_leap y = false /\ (y mod 4 <> 0 \/ (y mod 100 = 0 /\ y mod 400 <> 0))).
Proof.
  unfold _is_leap.
  destruct (Z.eqb_spec (y mod 4) 0), (Z.eqb_spec (y mod 100) 0),
    (Z.eqb_spec (y mod 400) 0); simpl; intuition lia.
Qed.

Lemma days_before_year_succ y :
  _days_before_year (y + 1) = _days_before_year y + 365 + b2z (_is_leap y).
Proof.
  unfold _days_before_year. cbv zeta.
  replace (y + 1 - 1) with y by lia.
  destruct (is_leap_cases y) as [(-> & H)|(-> & H)]; unfold b2z; dlia.
Qed.

Lemma days_before_year_mono a b :
  a <= b -> _days_before_year a <= _days_before_year b.
Proof. intros Hab. unfold _days_before_year. cbv zeta. dlia. Qed.

Lemma month_cases m :
  1 <= m <= 12 ->
  m = 1 \/ m = 2 \/ m = 3 \/ m = 4 \/ m = 5 \/ m = 6 \/
  m = 7 \/ m = 8 \/ m = 9 \/ m = 10 \/ m = 11 \/ m = 12.
Proof. lia. Qed.

(** Day of the year of a date of the calendar. *)
Lemma day_of_year_bounds y m d :
  valid_date y m d ->
  1 <= _days_before_month y m + d <= 365 + b2z (_is_leap y).
Proof.
  intros (_ & Hm & Hd). revert Hd.
  unfold _days_before_month, _days_in_month.
  destruct (_is_leap y); unfold b2z;
    destruct (month_cases m Hm) as [->|[->|[->|[->|[->|[->|[->|[->|[->|[->|[->| ->]]]]]]]]]]];
    simpl; lia.
Qed.

Lemma day_of_year_mono y m d m' d' :
  valid_date y m d -> valid_date y m' d' ->
  m < m' ->
  _days_before_month y m + d < _days_before_month y m' + d'.
Proof.
  intros (_ & Hm & Hd) (_ & Hm' & Hd') Hlt. revert Hd Hd'.
  unfold _days_before_month, _days_in_month.
  destruct (_is_leap y); unfold b2z;
    destruct (month_cases m Hm) as [->|[->|[->|[->|[->|[->|[->|[->|[->|[->|[->| ->]]]]]]]]]]];
    destruct (month_cases m' Hm') as [->|[->|[->|[->|[->|[->|[->|[->|[->|[->|[->| ->]]]]]]]]]]];
    try lia; simpl; lia.
Qed.

(** [_ymd2ord] is increasing for the order on dates. *)
Lemma ymd2ord_lt y m d y' m' d' :
  valid_date y m d -> valid_date y' m' d' ->
  date_lt (y, m, d) (y', m', d') ->
  _ymd2ord y m d < _ymd2ord y' m' d'.
Proof.
  intros Hv Hv' Hlt. unfold _ymd2ord.
  pose proof (day_of_year_bounds _ _ _ Hv).
  pose proof (day_of_year_bounds _ _ _ Hv').
  destruct Hlt as [Hy|(<- & [Hm|(<- & Hd)])].
  - pose proof (days_before_year_succ y).
    pose proof (days_before_year_mono (y + 1) y' ltac:(lia)). lia.
  - pose proof (day_of_year_mono _ _ _ _ _ Hv Hv' Hm). lia.
  - lia.
Qed.

Lemma ymd2ord_range y m d :
  valid_date y m d -> 1 <= _ymd2ord y m d <= _MAXORDINAL.
Proof.
  intros Hv. pose proof (day_of_year_bounds _ _ _ Hv) as Hb.
  destruct Hv as ((Hy1 & Hy2) & _). unfold MINYEAR, MAXYEAR in *.
  unfold _ymd2ord, _MAXORDINAL.
  pose proof (days_before_year_mono 1 y ltac:(lia)) as H1.
  pose proof (days_before_year_mono (y + 1) 10000 ltac:(lia)) as H2.
  rewrite days_before_year_succ in H2.
  change (_days_before_year 1) with 0 in H1.
  change (_days_before_year 10000) with 3652059 in H2.
  lia.
Qed.

Lemma date_trichotomy (p q : Z * Z * Z) : date_lt p q \/ p = q \/ date_lt q p.
Proof.
  destruct p as [[y m] d], q as [[y' m'] d']. unfold date_lt.
  destruct (Z.lt_trichotomy y y') as [?|[->|?]]; [lia| |lia].
  destruct (Z.lt_trichotomy m m') as [?|[->|?]]; [lia| |lia].
  destruct (Z.lt_trichotomy d d') as [?|[->|?]]; [lia| |lia].
  right; left; reflexivity.
Qed.

Lemma ymd2ord_inj y m d y' m' d' :
  valid_date y m d -> valid_date y' m' d' ->
  _ymd2ord y m d = _ymd2ord y' m' d' -> (y, m, d) = (y', m', d').
Proof.
  intros Hv Hv' Heq.
  destruct (date_trichotomy (y, m, d) (y', m', d')) as [Hlt|[?|Hlt]];
    [|assumption|];
    apply ymd2ord_lt in Hlt; try assumption; lia.
Qed.

Lemma ord2ymd_of_ymd2ord y m d :
  valid_date y m d -> _ord2ymd (_ymd2ord y m d) = (y, m, d).
Proof.
  intros Hv. pose proof (ymd2ord_range _ _ _ Hv) as Hr.
  pose proof (ord2ymd_ymd2ord _ Hr) as Hl.
  destruct (_ord2ymd (_ymd2ord y m d)) as [[y' m'] d'].
  destruct Hl as (Hv' & Heq).
  apply ymd2ord_inj; assumption.
Qed.

End CalendarFacts.

(** ** [timedelta] and [datetime] arithmetic *)

Section DatetimeFacts.
Import calendar datetime.

Lemma timedelta_new_Ok days seconds microseconds td :
  timedelta_new days seconds microseconds = Ok td ->
  td = mktimedelta
         (days + (seconds + microseconds / 1000000) / 86400)
         ((seconds + microseconds / 1000000) mod 86400)
         (microseconds mod 1000000)
  /\ Z.abs (td_days td) <= 999999999.
Proof.
  unfold timedelta_new. cbv zeta.
  destruct (Z.ltb_spec 999999999
              (Z.abs (days + (seconds + microseconds / 1000000) / 86400)));
    [discriminate|].
  intros [= <-]. split; [reflexivity|assumption].
Qed.

Lemma timedelta_new_small days seconds microseconds :
  Z.abs days <= 999999999 -> 0 <= seconds < 86400 ->
  0 <= microseconds < 1000000 ->
  timedelta_new days seconds microseconds
  = Ok (mktimedelta days seconds microseconds).
Proof.
  intros Hd Hs Hus. unfold timedelta_new. cbv zeta.
  rewrite (Z.div_small microseconds), (Z.mod_small microseconds) by lia.
  rewrite Z.add_0_r, (Z.div_small seconds), (Z.mod_small seconds) by lia.
  rewrite Z.add_0_r.
  destruct (Z.ltb_spec 999999999 (Z.abs days)); [lia|reflexivity].
Qed.

Lemma wf_time_seconds d :
  wf d -> 0 <= hour d * 3600 + minute d * 60 + second d < 86400.
Proof. intros (_ & ? & ? & ? & ?). lia. Qed.

Lemma wf_toordinal d : wf d -> 1 <= toordinal d <= _MAXORDINAL.
Proof. intros (Hv & _). apply ymd2ord_range, Hv. Qed.

Lemma add_Ok_inv d td d' :
  wf d -> add d td = Ok d' ->
  1 <= add_ordinal d td <= _MAXORDINAL
  /\ (year d', month d', day d') = _ord2ymd (add_ordinal d td)
  /\ hour d' = (add_seconds d td mod 86400) / 3600
  /\ minute d' = (add_seconds d td mod 86400) mod 3600 / 60
  /\ second d' = (add_seconds d td mod 86400) mod 3600 mod 60
  /\ microsecond d' = (microsecond d + td_microseconds td) mod 1000000.
Proof.
  intros Hwf. unfold add.
  pose proof (wf_time_seconds d Hwf) as Hs.
  pose proof (wf_toordinal d Hwf) as Ho. unfold _MAXORDINAL in Ho.
  assert (Hus : 0 <= microsecond d < 1000000)
    by (destruct Hwf as (_ & _ & _ & _ & ?); lia).
  rewrite timedelta_new_small by lia.
  cbn [bind td_days td_seconds td_microseconds].
  destruct (timedelta_new _ _ _) as [delta|e] eqn:Hdelta; [|discriminate].
  apply timedelta_new_Ok in Hdelta as [-> _].
  cbn [bind td_days td_seconds td_microseconds].
  fold (add_seconds d td). fold (add_ordinal d td).
  destruct (Z.ltb_spec 0 (add_ordinal d td)); [|discriminate].
  destruct (Z.leb_spec (add_ordinal d td) _MAXORDINAL); [|discriminate].
  cbn [andb].
  destruct (_ord2ymd (add_ordinal d td)) as [[y mo] dd].
  intros [= <-]. cbn. repeat split; try reflexivity; lia.
Qed.

Lemma add_wf d td d' : wf d -> add d td = Ok d' -> wf d'.
Proof.
  intros Hwf Hadd.
  destruct (add_Ok_inv _ _ _ Hwf Hadd) as (Hr & Hymd & Hh & Hmi & Hs & Hus).
  pose proof (ord2ymd_ymd2ord _ Hr) as Hv. rewrite <- Hymd in Hv.
  destruct Hv as [Hv _].
  split; [exact Hv|].
  rewrite Hh, Hmi, Hs, Hus. dlia.
Qed.

Lemma add_toordinal d td d' :
  wf d -> add d td = Ok d' -> toordinal d' = add_ordinal d td.
Proof.
  intros Hwf Hadd.
  destruct (add_Ok_inv _ _ _ Hwf Hadd) as (Hr & Hymd & _).
  pose proof (ord2ymd_ymd2ord _ Hr) as Hv. rewrite <- Hymd in Hv.
  destruct Hv as [_ Hv]. exact Hv.
Qed.

Lemma add_total_microseconds d td d' :
  wf d -> add d td = Ok d' ->
  total_microseconds d' = total_microseconds d + td_total_microseconds td.
Proof.
  intros Hwf Hadd.
  pose proof (add_toordinal _ _ _ Hwf Hadd) as Ho.
  destruct (add_Ok_inv _ _ _ Hwf Hadd) as (_ & _ & Hh & Hmi & Hs & Hus).
  unfold total_microseconds, td_total_microseconds.
  rewrite Ho, Hh, Hmi, Hs, Hus. unfold add_ordinal.
  set (S := add_seconds d td).
  assert (HS : S = hour d * 3600 + minute d * 60 + second d + td_seconds td
               + (microsecond d + td_microseconds td) / 1000000) by reflexivity.
  clearbody S. dlia.
Qed.

Lemma cmp_date_lt x y tx ty :
  date_lt (year x, month x, day x) (year y, month y, day y) ->
  _cmp (year x :: month x :: day x :: tx) (year y :: month y :: day y :: ty) = Lt.
Proof.
  intros [Hy|(Hy & [Hm|(Hm & Hd)])]; cbn [_cmp].
  - rewrite (proj2 (Z.compare_lt_iff _ _) Hy). reflexivity.
  - rewrite Hy, Z.compare_refl, (proj2 (Z.compare_lt_iff _ _) Hm). reflexivity.
  - rewrite Hy, Hm, !Z.compare_refl, (proj2 (Z.compare_lt_iff _ _) Hd).
    reflexivity.
Qed.

Lemma lt_total_microseconds x y :
  wf x -> wf y ->
  total_microseconds x < total_microseconds y -> lt x y = true.
Proof.
  intros Hx Hy Hlt. unfold lt, _getstate.
  destruct (date_trichotomy (year x, month x, day x) (year y, month y, day y))
    as [Hd|[Hd|Hd]].
  - rewrite cmp_date_lt by assumption. reflexivity.
  - inversion Hd as [[Hyy Hmm Hdd]].
    unfold total_microseconds, toordinal in Hlt. rewrite Hyy, Hmm, Hdd in Hlt.
    destruct Hx as (_ & ? & ? & ? & ?), Hy as (_ & ? & ? & ? & ?).
    cbn [_cmp]. rewrite !Z.compare_refl.
    destruct (Z.compare_spec (hour x) (hour y)); [|reflexivity|exfalso; lia].
    destruct (Z.compare_spec (minute x) (minute y)); [|reflexivity|exfalso; lia].
    destruct (Z.compare_spec (second x) (second y)); [|reflexivity|exfalso; lia].
    destruct (Z.compare_spec (microsecond x) (microsecond y));
      [exfalso; lia|reflexivity|exfalso; lia].
  - exfalso.
    apply ymd2ord_lt in Hd; [|apply Hy|apply Hx].
    unfold total_microseconds, toordinal in Hlt.
    destruct Hx as (_ & ? & ? & ? & ?), Hy as (_ & ? & ? & ? & ?). lia.
Qed.

Lemma timedelta_days_Ok k td :
  timedelta_days k = Ok td -> td = mktimedelta k 0 0.
Proof.
  intros H. apply timedelta_new_Ok in H as [-> _].
  f_equal. change ((0 + 0 / 1000000) / 86400) with 0. lia.
Qed.

Lemma timedelta_weeks_Ok k td :
  timedelta_weeks k = Ok td -> td = mktimedelta (k * 7) 0 0.
Proof.
  intros H. apply timedelta_new_Ok in H as [-> _].
  f_equal. change ((0 + 0 / 1000000) / 86400) with 0. lia.
Qed.

Lemma timedelta_hours_Ok k td :
  timedelta_hours k = Ok td ->
  td = mktimedelta (k / 24) (k mod 24 * 3600) 0.
Proof.
  intros H. apply timedelta_new_Ok in H as [-> _].
  change (0 / 1000000) with 0. rewrite Z.add_0_r.
  f_equal; dlia.
Qed.

(** Adding whole days leaves the time of day alone. *)
Lemma add_days_time d td d' :
  wf d -> td_seconds td = 0 -> td_microseconds td = 0 ->
  add d td = Ok d' ->
  hour d' = hour d /\ minute d' = minute d /\ second d' = second d
  /\ microsecond d' = microsecond d.
Proof.
  intros Hwf Hs Hus Hadd.
  destruct (add_Ok_inv _ _ _ Hwf Hadd) as (_ & _ & -> & -> & -> & ->).
  unfold add_seconds. rewrite Hs, Hus.
  destruct Hwf as (_ & ? & ? & ? & ?). dlia.
Qed.

(** Adding whole hours moves the hour and nothing below it. *)
Lemma add_hours_time d k td d' :
  wf d -> timedelta_hours k = Ok td -> add d td = Ok d' ->
  hour d' = (hour d + k) mod 24 /\ minute d' = minute d
  /\ second d' = second d /\ microsecond d' = microsecond d.
Proof.
  intros Hwf Htd Hadd. apply timedelta_hours_Ok in Htd. subst td.
  destruct (add_Ok_inv _ _ _ Hwf Hadd) as (_ & _ & -> & -> & -> & ->).
  unfold add_seconds. cbn [td_seconds td_microseconds].
  destruct Hwf as (_ & ? & ? & ? & ?). dlia.
Qed.
End DatetimeFacts.

(** ** ISO text: parsing what was printed *)

Section IsoTextFacts.
Import calendar datetime isotext.

Lemma digit_value_char d : 0 <= d <= 9 -> digit_value (digit_char d) = Some d.
Proof.
  intros Hd. unfold digit_value, digit_char.
  rewrite nat_ascii_embedding by lia.
  rewrite Nat2Z.inj_add, Z2Nat.id by lia.
  replace ((48 <=? Z.of_nat 48 + d) && (Z.of_nat 48 + d <=? 57)) with true
    by (symmetry; apply andb_true_intro; split; apply Z.leb_le; lia).
  f_equal. lia.
Qed.

Lemma append_String c (s r : string) : String c s +:+ r = String c (s +:+ r).
Proof. reflexivity. Qed.

Lemma append_EmptyString (r : string) : "" +:+ r = r.
Proof. reflexivity. Qed.

Lemma parse_digits_zfill w : forall acc n rest,
  0 <= n ->
  parse_digits w acc (zfill w n +:+ rest)
  = Some (acc * 10 ^ Z.of_nat w + n mod 10 ^ Z.of_nat w, rest).
Proof.
  induction w as [|w IH]; intros acc n rest Hn.
  - cbn [zfill parse_digits]. rewrite append_EmptyString, Z.mod_1_r.
    do 2 f_equal. simpl. lia.
  - cbn [zfill parse_digits]. rewrite append_String.
    rewrite digit_value_char
      by (pose proof (Z.mod_pos_bound (n / 10 ^ Z.of_nat w) 10); lia).
    rewrite IH by assumption. do 2 f_equal.
    rewrite Nat2Z.inj_succ, Z.pow_succ_r by lia.
    rewrite (Z.mul_comm 10 (10 ^ Z.of_nat w)).
    rewrite Z.rem_mul_r by lia. lia.
Qed.

Lemma parse_digits_zfill_exact w n rest :
  0 <= n < 10 ^ Z.of_nat w ->
  parse_digits w 0 (zfill w n +:+ rest) = Some (n, rest).
Proof.
  intros Hn. rewrite parse_digits_zfill by lia.
  rewrite Z.mod_small by lia. reflexivity.
Qed.

Lemma length_zfill w n : String.length (zfill w n) = w.
Proof. induction w; simpl; congruence. Qed.

Lemma append_empty_r (s : string) : s +:+ "" = s.
Proof. induction s; [reflexivity | rewrite append_String; congruence]. Qed.

Lemma datetime_new_wf d :
  wf d ->
  datetime_new (year d) (month d) (day d) (hour d) (minute d) (second d)
    (microsecond d) = Ok d.
Proof.
  destruct d as [y mo dd h mi s us].
  unfold wf, valid_date; simpl.
  intros (((Hy1 & Hy2) & (Hm1 & Hm2) & Hd1 & Hd2)
          & (? & ?) & (? & ?) & (? & ?) & ? & ?).
  unfold datetime_new, in_range.
  repeat match goal with
  | |- context [?a <=? ?b] =>
      rewrite (proj2 (Z.leb_le a b)) by assumption
  end.
  reflexivity.
Qed.

Lemma expect_String c (s : string) : expect c (String c s) = Some s.
Proof. unfold expect. rewrite Ascii.eqb_refl. reflexivity. Qed.

Ltac norm_append := rewrite ?append_String, ?append_EmptyString.

Lemma parse_isoformat_date_zfill y mo d rest :
  0 <= y <= 9999 -> 0 <= mo <= 99 -> 0 <= d <= 99 ->
  parse_isoformat_date
    (zfill 4 y +:+ "-" +:+ zfill 2 mo +:+ "-" +:+ zfill 2 d +:+ rest)
  = Some (y, mo, d, rest).
Proof.
  intros Hy Hmo Hd. unfold parse_isoformat_date.
  rewrite parse_digits_zfill_exact by (simpl; lia).
  cbn [mbind option_bind]. norm_append. rewrite expect_String.
  cbn [mbind option_bind].
  rewrite parse_digits_zfill_exact by (simpl; lia).
  cbn [mbind option_bind]. norm_append. rewrite expect_String.
  cbn [mbind option_bind].
  rewrite parse_digits_zfill_exact by (simpl; lia).
  reflexivity.
Qed.

Lemma parse_fraction_text us :
  0 <= us <= 999999 -> parse_fraction (fraction_text us) = Some us.
Proof.
  intros Hus. unfold fraction_text.
  destruct (Z.eqb_spec us 0) as [->|Hne]; [reflexivity|].
  norm_append. unfold parse_fraction.
  change (Ascii.eqb "." ".") with true. cbv iota.
  rewrite length_zfill.
  rewrite <- (append_empty_r (zfill 6 us)).
  rewrite parse_digits_zfill_exact by (simpl; lia).
  reflexivity.
Qed.

Lemma parse_hh_mm_ss_ff_zfill h mi s us :
  0 <= h <= 99 -> 0 <= mi <= 99 -> 0 <= s <= 99 -> 0 <= us <= 999999 ->
  parse_hh_mm_ss_ff
    (zfill 2 h +:+ ":" +:+ zfill 2 mi +:+ ":" +:+ zfill 2 s
     +:+ fraction_text us)
  = Some (h, mi, s, us).
Proof.
  intros Hh Hmi Hs Hus. unfold parse_hh_mm_ss_ff.
  rewrite parse_digits_zfill_exact by (simpl; lia).
  cbn [mbind option_bind]. norm_append. rewrite expect_String.
  cbn [mbind option_bind].
  rewrite parse_digits_zfill_exact by (simpl; lia).
  cbn [mbind option_bind]. norm_append. rewrite expect_String.
  cbn [mbind option_bind].
  rewrite parse_digits_zfill_exact by (simpl; lia).
  cbn [mbind option_bind].
  rewrite parse_fraction_text by assumption.
  reflexivity.
Qed.

Lemma zfill_S w n :
  zfill (S w) n = String (digit_char ((n / 10 ^ Z.of_nat w) mod 10)) (zfill w n).
Proof. reflexivity. Qed.

Lemma days_in_month_le_31 y mo : _days_in_month y mo <= 31.
Proof.
  unfold _days_in_month.
  destruct ((mo =? 2) && _is_leap y); [lia|].
  unfold _DAYS_IN_MONTH.
  repeat match goal with |- context [match ?x with _ => _ end] => destruct x end;
    lia.
Qed.

Lemma fromisoformat_parts ds y mo d sep c t h mi sec us :
  parse_isoformat_date ds = Some (y, mo, d, String sep (String c t)) ->
  parse_hh_mm_ss_ff (String c t) = Some (h, mi, sec, us) ->
  fromisoformat ds = datetime_new y mo d h mi sec us.
Proof. intros Hd Ht. unfold fromisoformat. rewrite Hd, Ht. reflexivity. Qed.

Lemma fromisoformat_isoformat d : wf d -> fromisoformat (isoformat d) = Ok d.
Proof.
  intros Hwf. pose proof (datetime_new_wf d Hwf) as Hnew.
  destruct d as [y mo dd h mi s us].
  destruct Hwf as (((Hy1 & Hy2) & (Hm1 & Hm2) & Hd1 & Hd2) & (? & ?) & (? & ?) & (? & ?) & ? & ?).
  simpl in *.
  pose proof (days_in_month_le_31 y mo) as Hdd.
  unfold MINYEAR, MAXYEAR in *.
  rewrite <- Hnew.
  eapply fromisoformat_parts.
  - unfold isoformat.
    cbn [year month day hour minute second microsecond].
    rewrite parse_isoformat_date_zfill by lia. reflexivity.
  - cbn [year month day hour minute second microsecond].
    fold (fraction_text us).
    rewrite <- (parse_hh_mm_ss_ff_zfill h mi s us) by lia.
    reflexivity.
Qed.
End IsoTextFacts.

(** ** True division: exact below [2 ^ 53] *)

Section FloatFacts.
Import PyFloat spec.

Lemma log2_bounds a : 0 < a < 2 ^ 53 -> 0 <= Z.log2 a <= 52.
Proof.
  intros Ha. split; [apply Z.log2_nonneg|].
  assert (Z.log2 a < 53) by (apply Z.log2_lt_pow2; lia). lia.
Qed.

Lemma ilog2_quot_bounds a b :
  0 < a < 2 ^ 53 -> 0 < b < 2 ^ 53 -> -53 <= ilog2_quot a b <= 52.
Proof.
  intros Ha Hb. pose proof (log2_bounds a Ha). pose proof (log2_bounds b Hb).
  unfold ilog2_quot. cbv zeta. destruct (quot_lt_pow2 _ _ _); lia.
Qed.

Lemma ilog2_quot_lower a b :
  0 < a < 2 ^ 53 -> 0 < b < 2 ^ 53 ->
  b * 2 ^ 52 <= a * 2 ^ (52 - ilog2_quot a b).
Proof.
  intros Ha Hb. pose proof (log2_bounds a Ha) as Hla.
  pose proof (log2_bounds b Hb) as Hlb.
  destruct (Z.log2_spec a ltac:(lia)) as [Ha1 Ha2].
  destruct (Z.log2_spec b ltac:(lia)) as [Hb1 Hb2].
  unfold ilog2_quot, quot_lt_pow2. cbv zeta.
  set (la := Z.log2 a) in *. set (lb := Z.log2 b) in *.
  destruct (Z.leb_spec 0 (la - lb)) as [He|He];
    match goal with |- context [?x <? ?y] => destruct (Z.ltb_spec x y) as [Ht|Ht] end.
  - replace (52 - (la - lb - 1)) with (53 - la + lb) by lia.
    rewrite Z.pow_add_r by lia.
    rewrite Z.pow_succ_r in Hb2 by lia.
    assert (2 ^ la * 2 ^ (53 - la) = 2 ^ 53) by (rewrite <- Z.pow_add_r by lia; f_equal; lia).
    assert (0 < 2 ^ (53 - la)) by (apply Z.pow_pos_nonneg; lia).
    assert (0 < 2 ^ lb) by (apply Z.pow_pos_nonneg; lia).
    assert (2 ^ 53 <= a * 2 ^ (53 - la)) by nia.
    assert (2 ^ 53 * 2 ^ lb <= a * 2 ^ (53 - la) * 2 ^ lb) by nia.
    change (2 ^ 52) with 4503599627370496 in *.
    change (2 ^ 53) with 9007199254740992 in *.
    nia.
  - replace (52 - (la - lb)) with (52 - la + lb) by lia.
    assert (2 ^ 52 = 2 ^ (la - lb) * 2 ^ (52 - la + lb)) as ->
      by (rewrite <- Z.pow_add_r by lia; f_equal; lia).
    assert (0 < 2 ^ (52 - la + lb)) by (apply Z.pow_pos_nonneg; lia).
    nia.
  - replace (52 - (la - lb - 1)) with ((53 - la) + lb) by lia.
    rewrite Z.pow_add_r by lia.
    rewrite Z.pow_succ_r in Hb2 by lia.
    assert (2 ^ la * 2 ^ (53 - la) = 2 ^ 53) by (rewrite <- Z.pow_add_r by lia; f_equal; lia).
    assert (0 < 2 ^ (53 - la)) by (apply Z.pow_pos_nonneg; lia).
    assert (0 < 2 ^ lb) by (apply Z.pow_pos_nonneg; lia).
    assert (2 ^ 53 <= a * 2 ^ (53 - la)) by nia.
    assert (2 ^ 53 * 2 ^ lb <= a * 2 ^ (53 - la) * 2 ^ lb) by nia.
    change (2 ^ 52) with 4503599627370496 in *.
    change (2 ^ 53) with 9007199254740992 in *.
    nia.
  - replace (52 - (la - lb)) with (52 + - (la - lb)) by lia.
    rewrite Z.pow_add_r by lia. nia.
Qed.

Lemma rne_ceil a b T :
  0 < a -> 0 < b -> 0 < T -> b < 2 * T ->
  - ((- div_round_half_even (a * T) b) / T) = exact_ceil a b.
Proof.
  intros Ha Hb HT HbT. unfold exact_ceil.
  set (k := - (- a / b)).
  assert (Hk : (k - 1) * b < a <= k * b) by (unfold k; dlia).
  clearbody k.
  set (m := div_round_half_even (a * T) b).
  assert (Hm : (k - 1) * T < m <= k * T).
  { unfold m, div_round_half_even. cbv zeta.
    pose proof (Z.div_mod (a * T) b ltac:(lia)) as E.
    pose proof (Z.mod_pos_bound (a * T) b ltac:(lia)) as B.
    set (q := a * T / b) in *. set (r := (a * T) mod b) in *.
    clearbody q r.
    assert (Hq1 : q <= k * T) by nia.
    assert (Hq2 : (k - 1) * T <= q) by nia.
    assert (Hr : q = (k - 1) * T -> T <= r) by nia.
    assert (Hr' : q = k * T -> r = 0) by nia.
    destruct (Z.ltb_spec (2 * r) b); [lia|].
    destruct (Z.ltb_spec b (2 * r)); [lia|].
    destruct (Z.even q); lia. }
  clearbody m.
  assert (- m / T = - k) as ->; [|lia].
  symmetry. apply (Z.div_unique_pos (- m) T (- k) (k * T - m)); lia.
Qed.

Lemma true_div_ceil_exact a b :
  0 < a < 2 ^ 53 -> 0 < b < 2 ^ 53 ->
  exists x, true_div a b = Ok x /\ ceil x = exact_ceil a b.
Proof.
  intros Ha Hb.
  pose proof (ilog2_quot_bounds a b Ha Hb) as He.
  pose proof (ilog2_quot_lower a b Ha Hb) as Hl.
  unfold true_div. cbv zeta.
  destruct (Z.eqb_spec b 0); [lia|]. destruct (Z.eqb_spec a 0); [lia|].
  rewrite (Z.abs_eq a), (Z.abs_eq b) by lia.
  rewrite (Z.sgn_pos a), (Z.sgn_pos b) by lia.
  set (e := ilog2_quot a b) in *. clearbody e.
  destruct (Z.leb_spec 1024 e); [lia|].
  rewrite Z.max_l by lia.
  set (T := 2 ^ (52 - e)) in *.
  assert (HT : 0 < T) by (apply Z.pow_pos_nonneg; lia).
  assert (HbT : b < 2 * T).
  { change (2 ^ 52) with 4503599627370496 in *.
    change (2 ^ 53) with 9007199254740992 in *. nia. }
  destruct (Z.eqb_spec (e - 52) 971); [lia|]. rewrite andb_false_r.
  eexists; split; [reflexivity|].
  unfold ceil. cbn [mant exp].
  destruct (Z.leb_spec 0 (e - 52)).
  - assert (e = 52) as -> by lia. change (2 ^ (52 - 52)) with 1 in *.
    subst T. change (2 ^ (52 - 52)) with 1. rewrite !Z.mul_1_r, !Z.mul_1_l.
    rewrite <- (rne_ceil a b 1) by lia.
    rewrite Z.mul_1_r, Z.div_1_r. lia.
  - replace (- (e - 52)) with (52 - e) by lia. fold T.
    rewrite !Z.mul_1_l. apply rne_ceil; lia.
Qed.
End FloatFacts.

(** ** The end date *)

Section EndDate.
Import calendar datetime PyFloat spec MedicationReminderCalculator.

Lemma is_unit_cases u :
  is_unit u = true -> u = "HOUR(S)" \/ u = "DAY(S)" \/ u = "WEEK(S)".
Proof.
  unfold is_unit.
  destruct (String.eqb_spec u "HOUR(S)"); [auto|].
  destruct (String.eqb_spec u "DAY(S)"); [auto|].
  destruct (String.eqb_spec u "WEEK(S)"); [auto|discriminate].
Qed.

Lemma calculate_end_date_unfold sd md f ts di st :
  is_unit f = true ->
  calculate_end_date sd md f ts di st
  = (n <- additional_doses ts md ;;
     td <- duration f (n * di) ;;
     add (anchor f sd st) td).
Proof.
  intros Hf. unfold calculate_end_date, additional_doses, anchor, duration.
  destruct (true_div ts md) as [q|e]; [|reflexivity]. cbn [bind].
  destruct (is_unit_cases f Hf) as [->|[->| ->]]; destruct st; reflexivity.
Qed.

Lemma add_zero d : wf d -> add d (mktimedelta 0 0 0) = Ok d.
Proof.
  intros Hwf. unfold add.
  pose proof (wf_time_seconds d Hwf) as Hs.
  pose proof (wf_toordinal d Hwf) as Ho. unfold _MAXORDINAL in Ho.
  assert (Hus : 0 <= microsecond d < 1000000)
    by (destruct Hwf as (_ & _ & _ & _ & ?); lia).
  rewrite timedelta_new_small by lia.
  cbn [bind td_days td_seconds td_microseconds]. rewrite !Z.add_0_r.
  rewrite timedelta_new_small by lia.
  cbn [bind td_days td_seconds td_microseconds].
  destruct (Z.ltb_spec 0 (toordinal d)); [|lia].
  destruct (Z.leb_spec (toordinal d) _MAXORDINAL); [|unfold _MAXORDINAL in *; lia].
  cbn [andb]. unfold toordinal.
  rewrite ord2ymd_of_ymd2ord by apply Hwf.
  destruct d as [y mo dd h mi s us]; cbn in *.
  destruct Hwf as (_ & ? & ? & ? & ?); cbn in *.
  f_equal. f_equal; dlia.
Qed.

Lemma add_duration_zero u d :
  wf d -> (td <- duration u 0 ;; add d td) = Ok d.
Proof.
  intros Hwf. unfold duration.
  destruct (u =? "HOUR(S)")%string; [|destruct (u =? "DAY(S)")%string];
    cbn; apply (add_zero d Hwf).
Qed.

Lemma exact_ceil_pos a b : 0 < a -> 0 < b -> 1 <= exact_ceil a b.
Proof. intros Ha Hb. unfold exact_ceil. Z.div_mod_to_equations. nia. Qed.

Lemma exact_ceil_one a b : 0 < a <= b -> exact_ceil a b = 1.
Proof. intros Ha. unfold exact_ceil. Z.div_mod_to_equations. nia. Qed.

(** Below [2 ^ 53] the float quotient is accurate enough: the end date is
    the anchor plus [(ceil (total_supply / max_dosage) - 1) * dosage_interval]
    units. *)
Lemma calculate_end_date_exact sd md f ts di st :
  is_unit f = true -> 0 < md < 2 ^ 53 -> 0 < ts < 2 ^ 53 ->
  calculate_end_date sd md f ts di st
  = (td <- duration f ((exact_ceil ts md - 1) * di) ;;
     add (anchor f sd st) td).
Proof.
  intros Hf Hmd Hts. rewrite calculate_end_date_unfold by assumption.
  unfold additional_doses.
  destruct (true_div_ceil_exact ts md Hts Hmd) as (x & -> & Hx).
  cbn [bind]. rewrite Hx.
  pose proof (exact_ceil_pos ts md ltac:(lia) ltac:(lia)).
  destruct (Z.ltb_spec 0 (exact_ceil ts md)); [reflexivity|lia].
Qed.

Lemma div_round_half_even_nonneg n d :
  0 <= n -> 0 < d -> 0 <= div_round_half_even n d.
Proof.
  intros Hn Hd. unfold div_round_half_even. cbv zeta.
  assert (0 <= n / d) by (apply Z.div_pos; lia).
  repeat match goal with |- context [if ?c then _ else _] => destruct c end; lia.
Qed.

Lemma true_div_is_ValueError a b : is_ValueError (true_div a b) = false.
Proof.
  unfold true_div. cbv zeta.
  repeat match goal with |- context [if ?c then _ else _] => destruct c end;
    reflexivity.
Qed.

Lemma true_div_nonpos a b x :
  a * b <= 0 -> true_div a b = Ok x -> ceil x <= 0.
Proof.
  intros Hab. unfold true_div. cbv zeta.
  destruct (Z.eqb_spec b 0); [discriminate|].
  destruct (Z.eqb_spec a 0); [intros [= <-]; reflexivity|].
  destruct (1024 <=? _); [discriminate|].
  set (s := Z.max _ _).
  set (m := if 0 <=? s then _ else _).
  assert (Hm : 0 <= m).
  { unfold m. destruct (Z.leb_spec 0 s); apply div_round_half_even_nonneg.
    - lia.
    - apply Z.mul_pos_pos; [lia|apply Z.pow_pos_nonneg; lia].
    - apply Z.mul_nonneg_nonneg; [lia|apply Z.pow_nonneg; lia].
    - lia. }
  clearbody m.
  destruct ((m =? 2 ^ 53) && (s =? 971)); [discriminate|].
  intros [= <-]. unfold ceil. cbn [mant exp].
  assert (Z.sgn a * Z.sgn b = -1) as -> by
    (destruct a, b; cbn in *; lia).
  destruct (Z.leb_spec 0 s).
  - assert (0 <= 2 ^ s) by (apply Z.pow_nonneg; lia). nia.
  - replace (- (-1 * m)) with m by lia.
    assert (0 <= m / 2 ^ (- s)); [|lia].
    apply Z.div_pos; [lia|apply Z.pow_pos_nonneg; lia].
Qed.

Lemma ilog2_quot_le_0 a b : 0 < a <= b -> ilog2_quot a b <= 0.
Proof.
  intros Hab. unfold ilog2_quot, quot_lt_pow2. cbv zeta.
  pose proof (Z.log2_le_mono a b ltac:(lia)) as Hl.
  destruct (Z.leb_spec 0 (Z.log2 a - Z.log2 b));
    match goal with |- context [?x <? ?y] => destruct (Z.ltb_spec x y) end; lia.
Qed.

Lemma div_round_half_even_le n d k :
  0 <= n -> 0 < d -> n <= k * d -> div_round_half_even n d <= k.
Proof.
  intros Hn Hd Hk. unfold div_round_half_even. cbv zeta.
  pose proof (Z.div_mod n d ltac:(lia)) as E.
  pose proof (Z.mod_pos_bound n d ltac:(lia)) as B.
  set (q := n / d) in *. set (r := n mod d) in *. clearbody q r.
  assert (q <= k) by nia.
  assert (q = k -> r = 0) by nia.
  destruct (Z.ltb_spec (2 * r) d); [lia|].
  destruct (Z.ltb_spec d (2 * r)); [lia|].
  destruct (Z.even q); lia.
Qed.

(** A quotient of at most one is a float of at most one, whatever the size
    of the operands. *)
Lemma true_div_le_one a b :
  0 < a <= b -> exists x, true_div a b = Ok x /\ 0 <= ceil x <= 1.
Proof.
  intros Hab. pose proof (ilog2_quot_le_0 a b Hab) as He.
  unfold true_div. cbv zeta.
  destruct (Z.eqb_spec b 0); [lia|]. destruct (Z.eqb_spec a 0); [lia|].
  rewrite (Z.abs_eq a), (Z.abs_eq b) by lia.
  rewrite (Z.sgn_pos a), (Z.sgn_pos b) by lia.
  set (e := ilog2_quot a b) in *. clearbody e.
  destruct (Z.leb_spec 1024 e); [lia|].
  set (s := Z.max (e - 52) (-1074)).
  assert (Hs : -1074 <= s <= -52) by (unfold s; lia). clearbody s.
  destruct (Z.leb_spec 0 s); [lia|].
  destruct (Z.eqb_spec s 971); [lia|]. rewrite andb_false_r.
  eexists; split; [reflexivity|].
  unfold ceil. cbn [mant exp]. destruct (Z.leb_spec 0 s); [lia|].
  rewrite !Z.mul_1_l.
  set (T := 2 ^ (- s)).
  assert (HT : 0 < T) by (apply Z.pow_pos_nonneg; lia).
  pose proof (div_round_half_even_nonneg (a * T) b ltac:(nia) ltac:(lia)).
  pose proof (div_round_half_even_le (a * T) b T ltac:(nia) ltac:(lia)
                ltac:(nia)).
  set (m := div_round_half_even (a * T) b) in *. clearbody m.
  Z.div_mod_to_equations. nia.
Qed.

(** When one dose suffices the end date is the anchor, for integers of any
    size. *)
Lemma calculate_end_date_single_dose sd md f ts di st :
  is_unit f = true -> 0 < ts <= md -> wf (anchor f sd st) ->
  calculate_end_date sd md f ts di st = Ok (anchor f sd st).
Proof.
  intros Hf Hts Hwf. rewrite calculate_end_date_unfold by assumption.
  unfold additional_doses.
  destruct (true_div_le_one ts md Hts) as (x & -> & Hx). cbn [bind].
  assert ((if 0 <? ceil x then ceil x - 1 else 0) = 0) as ->
    by (destruct (Z.ltb_spec 0 (ceil x)); lia).
  change (0 * di) with 0. apply add_duration_zero, Hwf.
Qed.

Lemma timedelta_new_is_ValueError d s us :
  is_ValueError (timedelta_new d s us) = false.
Proof. unfold timedelta_new. cbv zeta. destruct (_ <? _); reflexivity. Qed.

Lemma duration_is_ValueError u k : is_ValueError (duration u k) = false.
Proof.
  unfold duration, timedelta_hours, timedelta_days, timedelta_weeks.
  repeat match goal with |- context [if ?c then _ else _] => destruct c end;
    apply timedelta_new_is_ValueError.
Qed.

Lemma bind_is_ValueError {A B} (r : result A) (k : A -> result B) :
  is_ValueError r = false -> (forall a, is_ValueError (k a) = false) ->
  is_ValueError (x <- r ;; k x) = false.
Proof. intros Hr Hk. destruct r as [a|e]; [apply Hk|exact Hr]. Qed.

Lemma add_is_ValueError d td : is_ValueError (add d td) = false.
Proof.
  unfold add.
  apply bind_is_ValueError; [apply timedelta_new_is_ValueError|intros delta].
  apply bind_is_ValueError; [apply timedelta_new_is_ValueError|intros delta'].
  destruct (_ && _); [|reflexivity].
  destruct (_ord2ymd _) as [[? ?] ?]. reflexivity.
Qed.

(** C1, at the input where the claim and the code part ways: the quotient
    [(10 ^ 17 + 1) / 10 ^ 17] is rounded to the float [1.0] before
    [math.ceil] sees it, so the code counts one dose and returns the start
    date, while [ceil] of the exact quotient is 2 and the end date of the
    claim is one day later. *)
Theorem calculate_end_date_rounds_before_ceil :
  let start := mkdatetime 2025 1 1 0 0 0 0 in
  calculate_end_date start (10 ^ 17) "DAY(S)" (10 ^ 17 + 1) 1 None = Ok start
  /\ exact_ceil (10 ^ 17 + 1) (10 ^ 17) = 2
  /\ (td <- duration "DAY(S)" ((exact_ceil (10 ^ 17 + 1) (10 ^ 17) - 1) * 1) ;;
      add (anchor "DAY(S)" start None) td)
     = Ok (mkdatetime 2025 1 2 0 0 0 0).
Proof. vm_compute. repeat split; reflexivity. Qed.

(** C2, as stated, fails: a non-positive [total_supply] or [max_dosage] is
    not rejected with [ValueError]; the call returns the start date, or the
    division itself fails. *)
Lemma calculate_end_date_accepts_nonpositive :
  let start := mkdatetime 2025 1 1 0 0 0 0 in
  calculate_end_date start 2 "DAY(S)" (-20) 1 None = Ok start
  /\ calculate_end_date start (-2) "DAY(S)" 20 1 None = Ok start
  /\ calculate_end_date start 0 "DAY(S)" 20 1 None = Raise ZeroDivisionError.
Proof. vm_compute. repeat split; reflexivity. Qed.

(** C2, amended: with a recognized frequency and [max_dosage <= 0] or
    [total_supply <= 0] no call fails with [ValueError]: nothing guards the
    division.  With [max_dosage = 0] the division itself fails, with
    [ZeroDivisionError]; with a non-positive quotient the dose count is not
    positive and the result is the anchor (or [OverflowError], when the
    quotient is beyond the floats). *)
Theorem calculate_end_date_no_guard sd md f ts di st :
  is_unit f = true -> md <= 0 \/ ts <= 0 ->
  let r := calculate_end_date sd md f ts di st in
  is_ValueError r = false
  /\ (md = 0 -> r = Raise ZeroDivisionError)
  /\ (md <> 0 -> ts * md <= 0 -> wf (anchor f sd st) ->
      r = Ok (anchor f sd st) \/ r = Raise OverflowError).
Proof.
  intros Hf _ r. subst r. rewrite calculate_end_date_unfold by assumption.
  unfold additional_doses. split; [|split].
  - apply bind_is_ValueError; [|intros n].
    { apply bind_is_ValueError; [apply true_div_is_ValueError|reflexivity]. }
    apply bind_is_ValueError; [apply duration_is_ValueError|intros td].
    apply add_is_ValueError.
  - intros ->. unfold true_div. reflexivity.
  - intros Hmd Hq Hwf.
    destruct (true_div ts md) as [x|e] eqn:Hdiv.
    + left. cbn [bind].
      pose proof (true_div_nonpos _ _ _ Hq Hdiv).
      destruct (Z.ltb_spec 0 (ceil x)); [lia|].
      change (0 * di) with 0. apply add_duration_zero, Hwf.
    + right. cbn [bind]. f_equal.
      revert Hdiv. unfold true_div. cbv zeta.
      repeat match goal with |- context [if ?c then _ else _] => destruct c eqn:? end;
        try discriminate; try (intros [= <-]; reflexivity).
      lia.
Qed.

Lemma calculate_end_date_no_guard_witness :
  let start := mkdatetime 2025 1 1 0 0 0 0 in
  is_unit "DAY(S)" = true /\ (2 <= 0 \/ -20 <= 0)
  /\ is_ValueError (calculate_end_date start 2 "DAY(S)" (-20) 1 None) = false
  /\ calculate_end_date start 0 "DAY(S)" 20 1 None = Raise ZeroDivisionError.
Proof.
  split; [reflexivity|]. split; [right; lia|]. split.
  - apply (calculate_end_date_no_guard (mkdatetime 2025 1 1 0 0 0 0)
             2 "DAY(S)" (-20) 1 None); [reflexivity|right; lia].
  - apply (calculate_end_date_no_guard (mkdatetime 2025 1 1 0 0 0 0)
             0 "DAY(S)" 20 1 None); [reflexivity|left; lia|reflexivity].
Defined.

(** C6: the end date depends on [start_date] and [start_time] only through
    the anchor, which is [start_time] for hourly dosing with a [start_time]
    supplied and [start_date] in every other case; and the result is that
    anchor plus a duration in the unit of the frequency. *)
Theorem calculate_end_date_anchor sd md f ts di st :
  calculate_end_date sd md f ts di st
  = calculate_end_date (anchor f sd st) md f ts di None
  /\ (forall r, calculate_end_date sd md f ts di st = Ok r ->
      exists k td, duration f k = Ok td /\ add (anchor f sd st) td = Ok r).
Proof.
  split.
  - unfold calculate_end_date, anchor.
    destruct st as [t|]; [|reflexivity].
    destruct (f =? "HOUR(S)")%string; reflexivity.
  - intros r. unfold calculate_end_date.
    destruct (true_div ts md) as [q|e]; [|discriminate]. cbn [bind].
    set (n := (if 0 <? ceil q then ceil q - 1 else 0) * di). clearbody n.
    unfold anchor, duration.
    destruct (String.eqb_spec f "HOUR(S)") as [->|Hh].
    { destruct (timedelta_hours n) as [td|e] eqn:Htd; [|discriminate].
      cbn [bind]. intros Hr. exists n, td. rewrite Htd.
      destruct st; auto. }
    destruct (String.eqb_spec f "DAY(S)") as [->|Hd].
    { destruct (timedelta_days n) as [td|e] eqn:Htd; [|discriminate].
      cbn [bind]. intros Hr. exists n, td. rewrite Htd.
      destruct st; auto. }
    destruct (String.eqb_spec f "WEEK(S)") as [->|Hw]; [|discriminate].
    destruct (timedelta_weeks n) as [td|e] eqn:Htd; [|discriminate].
    cbn [bind]. intros Hr. exists n, td. rewrite Htd.
    destruct st; auto.
Qed.

Lemma calculate_end_date_anchor_witness :
  calculate_end_date (mkdatetime 2025 1 1 0 0 0 0) 2 "HOUR(S)" 20 4
    (Some (mkdatetime 2025 1 1 9 30 0 0))
  = Ok (mkdatetime 2025 1 2 21 30 0 0)
  /\ exists k td,
      duration "HOUR(S)" k = Ok td
      /\ add (mkdatetime 2025 1 1 9 30 0 0) td
         = Ok (mkdatetime 2025 1 2 21 30 0 0).
Proof.
  assert (H : calculate_end_date (mkdatetime 2025 1 1 0 0 0 0) 2 "HOUR(S)"
                20 4 (Some (mkdatetime 2025 1 1 9 30 0 0))
              = Ok (mkdatetime 2025 1 2 21 30 0 0))
    by (vm_compute; reflexivity).
  split; [exact H|].
  exact (proj2 (calculate_end_date_anchor (mkdatetime 2025 1 1 0 0 0 0) 2
                  "HOUR(S)" 20 4 (Some (mkdatetime 2025 1 1 9 30 0 0))) _ H).
Defined.
End EndDate.

(** ** The reminder schedule *)

Section Reminders.
Import calendar datetime isotext spec MedicationReminderCalculator.

Lemma datetime_new_Ok y mo dd h mi s us d :
  datetime_new y mo dd h mi s us = Ok d ->
  d = mkdatetime y mo dd h mi s us /\ wf d.
Proof.
  unfold datetime_new, in_range.
  repeat match goal with
  | |- context [negb (?a && ?b)] =>
      destruct a eqn:?; cbn [andb negb]; [destruct b eqn:?; cbn [negb]|];
      try discriminate
  end.
  intros [= <-]. split; [reflexivity|].
  unfold wf, valid_date; cbn. lia.
Qed.

Lemma replace_Ok self h mi s us d :
  replace self h mi s us = Ok d ->
  wf d /\ hour d = h /\ minute d = mi /\ second d = s /\ microsecond d = us.
Proof.
  intros H. apply datetime_new_Ok in H as [-> Hwf].
  split; [exact Hwf|]. cbn. repeat split.
Qed.

Lemma getitem_Ok m k v : getitem m k = Ok v -> m !! k = Some v.
Proof. unfold getitem. destruct (m !! k); [intros [= ->]; reflexivity|discriminate]. Qed.

Lemma next_reminder_Ok first ri rpu i d :
  next_reminder first ri rpu i = Ok d ->
  is_unit rpu = true /\ (td <- duration rpu (i * ri) ;; add first td) = Ok d.
Proof.
  unfold next_reminder, is_unit, duration.
  destruct (String.eqb_spec rpu "WEEK(S)") as [->|Hw]; [intros H; split; [reflexivity|exact H]|].
  destruct (String.eqb_spec rpu "DAY(S)") as [->|Hd]; [intros H; split; [reflexivity|exact H]|].
  destruct (String.eqb_spec rpu "HOUR(S)") as [->|Hh]; [intros H; split; [reflexivity|exact H]|].
  discriminate.
Qed.

Lemma repeat_loop_Ok first ri rpu range_ : forall acc l,
  repeat_loop first ri rpu range_ acc = Ok l ->
  exists ds, l = acc ++ ds
    /\ Forall2 (fun i d => next_reminder first ri rpu i = Ok d) range_ ds.
Proof.
  induction range_ as [|i range_ IH]; intros acc l; cbn [repeat_loop].
  - intros [= <-]. exists []. split; [symmetry; apply app_nil_r|constructor].
  - destruct (next_reminder first ri rpu i) as [nxt|e] eqn:Hn; [|discriminate].
    cbn [bind]. intros H. apply IH in H as (ds & -> & Hds).
    exists (nxt :: ds). split; [rewrite <- app_assoc; reflexivity|].
    constructor; assumption.
Qed.

(** What a successful call computed: the normalized first reminder, then
    one reminder per index of the loop. *)
Lemma calculate_reminder_dates_Ok ed dp ru rr ri rpu drt l :
  calculate_reminder_dates ed dp ru rr ri rpu drt = Ok l ->
  exists first,
    wf first
    /\ reminder_time drt !! "hour" = Some (hour first)
    /\ reminder_time drt !! "minute" = Some (minute first)
    /\ second first = 0 /\ microsecond first = 0
    /\ l !! 0%nat = Some first
    /\ length l = S (Z.to_nat rr)
    /\ forall (i : nat) d, l !! S i = Some d ->
         next_reminder first ri rpu (Z.of_nat (S i)) = Ok d.
Proof.
  unfold calculate_reminder_dates.
  fold (reminder_time drt). fold default_time.
  change (match drt with Some d => d | None => default_time end)
    with (reminder_time drt).
  destruct (if (ru =? "WEEK(S)")%string then _ else _) as [fr0|e]; [|discriminate].
  cbn [bind].
  destruct (getitem (reminder_time drt) "hour") as [h|e] eqn:Hh; [|discriminate].
  destruct (getitem (reminder_time drt) "minute") as [mi|e] eqn:Hmi; [|discriminate].
  cbn [bind].
  destruct (replace fr0 h mi 0 0) as [first|e] eqn:Hr; [|discriminate].
  cbn [bind]. intros Hloop.
  apply replace_Ok in Hr as (Hwf & <- & <- & Hs & Hus).
  apply getitem_Ok in Hh, Hmi.
  apply repeat_loop_Ok in Hloop as (ds & -> & Hds).
  exists first.
  do 5 (split; [assumption|]). split; [reflexivity|]. split.
  - pose proof (Forall2_length _ _ _ Hds) as Hlen.
    rewrite length_seqZ in Hlen. cbn [app length]. congruence.
  - intros i d. cbn [app]. cbn [lookup list_lookup]. intros Hd.
    destruct (Forall2_lookup_r _ _ _ _ _ Hds Hd) as (j & Hj & Hn).
    apply lookup_seqZ in Hj as [-> _].
    replace (Z.of_nat (S i)) with (1 + Z.of_nat i) by lia. exact Hn.
Qed.

(** Adding [k] units to a timestamp: where the result lies, and what
    happens to its time of day. *)
Lemma add_duration first u k d :
  wf first -> is_unit u = true ->
  (td <- duration u k ;; add first td) = Ok d ->
  wf d
  /\ total_microseconds d = total_microseconds first + k * unit_microseconds u
  /\ minute d = minute first /\ second d = second first
  /\ microsecond d = microsecond first
  /\ (u <> "HOUR(S)" -> hour d = hour first)
  /\ (u = "HOUR(S)" -> hour d = (hour first + k) mod 24).
Proof.
  intros Hwf Hu.
  destruct (duration u k) as [td|e] eqn:Htd; [|discriminate].
  cbn [bind]. intros Hadd.
  split; [eapply add_wf; eassumption|].
  rewrite (add_total_microseconds _ _ _ Hwf Hadd).
  destruct (is_unit_cases u Hu) as [->|[->| ->]].
  1: change (timedelta_hours k = Ok td) in Htd;
     change (unit_microseconds "HOUR(S)") with 3600000000.
  2: change (timedelta_days k = Ok td) in Htd;
     change (unit_microseconds "DAY(S)") with 86400000000.
  3: change (timedelta_weeks k = Ok td) in Htd;
     change (unit_microseconds "WEEK(S)") with 604800000000.
  - pose proof (add_hours_time _ _ _ _ Hwf Htd Hadd) as (Hh & Hmi & Hs & Hus).
    apply timedelta_hours_Ok in Htd. subst td.
    unfold td_total_microseconds. cbn [td_days td_seconds td_microseconds].
    repeat split; try assumption; try congruence. dlia.
  - apply timedelta_days_Ok in Htd. subst td.
    pose proof (add_days_time first (mktimedelta _ 0 0) d Hwf eq_refl eq_refl
                  Hadd) as (Hh & Hmi & Hs & Hus).
    unfold td_total_microseconds. cbn [td_days td_seconds td_microseconds].
    repeat split; try assumption; try discriminate; try (intros _; assumption).
    lia.
  - apply timedelta_weeks_Ok in Htd. subst td.
    pose proof (add_days_time first (mktimedelta _ 0 0) d Hwf eq_refl eq_refl
                  Hadd) as (Hh & Hmi & Hs & Hus).
    unfold td_total_microseconds. cbn [td_days td_seconds td_microseconds].
    repeat split; try assumption; try discriminate; try (intros _; assumption).
    lia.
Qed.

(** Every element of a schedule, by its index. *)
Lemma schedule_element ed dp ru rr ri rpu drt l first (i : nat) d :
  calculate_reminder_dates ed dp ru rr ri rpu drt = Ok l ->
  l !! 0%nat = Some first -> l !! i = Some d ->
  wf d
  /\ total_microseconds d
     = total_microseconds first + Z.of_nat i * ri * unit_microseconds rpu
  /\ minute d = minute first /\ second d = 0 /\ microsecond d = 0
  /\ (rpu <> "HOUR(S)" -> hour d = hour first)
  /\ (rpu = "HOUR(S)" -> hour d = (hour first + Z.of_nat i * ri) mod 24).
Proof.
  intros Hcalc H0 Hi.
  destruct (calculate_reminder_dates_Ok _ _ _ _ _ _ _ _ Hcalc)
    as (first' & Hwf & _ & _ & Hs & Hus & H0' & _ & Hnext).
  assert (first' = first) as -> by congruence.
  destruct i as [|i].
  - assert (d = first) as -> by congruence.
    split; [exact Hwf|].
    repeat split; try assumption; try reflexivity; try lia.
    intros _. change (Z.of_nat 0) with 0.
    rewrite Z.mul_0_l, Z.add_0_r, Z.mod_small; [reflexivity|].
    destruct Hwf as (_ & ? & _). lia.
  - apply Hnext in Hi. apply next_reminder_Ok in Hi as (Hu & Hadd).
    destruct (add_duration _ _ _ _ Hwf Hu Hadd)
      as (Hwfd & Ht & Hmi & Hsd & Husd & Hh1 & Hh2).
    split; [exact Hwfd|].
    repeat split; try assumption; try congruence.
Qed.

(** C5: a successful call with [repeat_reminders >= 0] returns exactly
    [repeat_reminders + 1] timestamps; with [repeat_reminders = 0] the
    schedule is the first reminder alone. *)
Theorem calculate_reminder_dates_length ed dp ru rr ri rpu drt l :
  0 <= rr ->
  calculate_reminder_dates ed dp ru rr ri rpu drt = Ok l ->
  Z.of_nat (length l) = rr + 1
  /\ (rr = 0 -> exists first, l = [first]).
Proof.
  intros Hrr Hcalc.
  destruct (calculate_reminder_dates_Ok _ _ _ _ _ _ _ _ Hcalc)
    as (first & _ & _ & _ & _ & _ & H0 & Hlen & _).
  split; [rewrite Hlen; lia|].
  intros ->. exists first. change (Z.to_nat 0) with 0%nat in Hlen.
  destruct l as [|x [|y l]]; [discriminate| |discriminate].
  injection H0 as ->. reflexivity.
Qed.

Lemma calculate_reminder_dates_length_witness :
  let s := [mkdatetime 2025 1 7 8 0 0 0; mkdatetime 2025 1 8 8 0 0 0;
            mkdatetime 2025 1 9 8 0 0 0] in
  0 <= 2
  /\ calculate_reminder_dates (mkdatetime 2025 1 10 0 0 0 0)
       3 "DAY(S)" 2 1 "DAY(S)" None = Ok s
  /\ Z.of_nat (length s) = 2 + 1.
Proof.
  assert (H : calculate_reminder_dates (mkdatetime 2025 1 10 0 0 0 0)
                3 "DAY(S)" 2 1 "DAY(S)" None
              = Ok [mkdatetime 2025 1 7 8 0 0 0; mkdatetime 2025 1 8 8 0 0 0;
                    mkdatetime 2025 1 9 8 0 0 0])
    by (vm_compute; reflexivity).
  split; [lia|]. split; [exact H|].
  exact (proj1 (calculate_reminder_dates_length
                  (mkdatetime 2025 1 10 0 0 0 0) 3 "DAY(S)" 2 1 "DAY(S)" None
                  _ ltac:(lia) H)).
Defined.

(** C10: in a schedule every timestamp has zero seconds and microseconds,
    and the minute of the reminder time in force (0 when the caller gave
    none), also when reminders repeat by the hour. *)
Theorem calculate_reminder_dates_minute ed dp ru rr ri rpu drt l d :
  calculate_reminder_dates ed dp ru rr ri rpu drt = Ok l ->
  d ∈ l ->
  second d = 0 /\ microsecond d = 0
  /\ reminder_time drt !! "minute" = Some (minute d)
  /\ (drt = None -> minute d = 0).
Proof.
  intros Hcalc Hd.
  destruct (calculate_reminder_dates_Ok _ _ _ _ _ _ _ _ Hcalc)
    as (first & _ & _ & Hmi & _ & _ & H0 & _ & _).
  apply list_elem_of_lookup in Hd as [i Hi].
  destruct (schedule_element _ _ _ _ _ _ _ _ _ _ _ Hcalc H0 Hi)
    as (_ & _ & Hm & Hs & Hus & _).
  rewrite Hm. repeat split; try assumption.
  intros ->.
  assert (Hdef : reminder_time None !! "minute" = Some 0)
    by (vm_compute; reflexivity).
  rewrite Hdef in Hmi. injection Hmi as <-. reflexivity.
Qed.

Lemma calculate_reminder_dates_minute_witness :
  let s := [mkdatetime 2025 1 7 8 0 0 0; mkdatetime 2025 1 7 9 0 0 0;
            mkdatetime 2025 1 7 10 0 0 0] in
  let d := mkdatetime 2025 1 7 10 0 0 0 in
  calculate_reminder_dates (mkdatetime 2025 1 10 0 0 0 0)
    3 "DAY(S)" 2 1 "HOUR(S)" None = Ok s
  /\ d ∈ s
  /\ second d = 0 /\ microsecond d = 0
  /\ reminder_time None !! "minute" = Some (minute d)
  /\ (@None (gmap string Z) = None -> minute d = 0).
Proof.
  assert (H : calculate_reminder_dates (mkdatetime 2025 1 10 0 0 0 0)
                3 "DAY(S)" 2 1 "HOUR(S)" None
              = Ok [mkdatetime 2025 1 7 8 0 0 0; mkdatetime 2025 1 7 9 0 0 0;
                    mkdatetime 2025 1 7 10 0 0 0])
    by (vm_compute; reflexivity).
  assert (Hd : mkdatetime 2025 1 7 10 0 0 0
               ∈ [mkdatetime 2025 1 7 8 0 0 0; mkdatetime 2025 1 7 9 0 0 0;
                  mkdatetime 2025 1 7 10 0 0 0])
    by (do 2 apply list_elem_of_further; apply list_elem_of_here).
  split; [exact H|]. split; [exact Hd|].
  exact (calculate_reminder_dates_minute _ _ _ _ _ _ _ _ _ H Hd).
Defined.

(** C3, as stated, fails: with reminders repeating by the hour the hour of
    day advances from one reminder to the next. *)
Lemma calculate_reminder_dates_hourly_repeats :
  calculate_reminder_dates (mkdatetime 2025 1 10 0 0 0 0)
    3 "DAY(S)" 2 1 "HOUR(S)" None
  = Ok [mkdatetime 2025 1 7 8 0 0 0; mkdatetime 2025 1 7 9 0 0 0;
        mkdatetime 2025 1 7 10 0 0 0].
Proof. vm_compute. reflexivity. Qed.

(** C3, amended: in a schedule every timestamp has the minute of the
    reminder time in force; it has its hour too when the repeat unit is not
    the hour unit, whereas with the hour unit the timestamp of index [i]
    has the hour [(hour + i * repeat_intervals) mod 24]. *)
Theorem calculate_reminder_dates_time_of_day ed dp ru rr ri rpu drt l
  (i : nat) d :
  calculate_reminder_dates ed dp ru rr ri rpu drt = Ok l ->
  l !! i = Some d ->
  exists h,
    reminder_time drt !! "hour" = Some h
    /\ reminder_time drt !! "minute" = Some (minute d)
    /\ (rpu <> "HOUR(S)" -> hour d = h)
    /\ (rpu = "HOUR(S)" -> hour d = (h + Z.of_nat i * ri) mod 24).
Proof.
  intros Hcalc Hi.
  destruct (calculate_reminder_dates_Ok _ _ _ _ _ _ _ _ Hcalc)
    as (first & _ & Hh & Hmi & _ & _ & H0 & _ & _).
  destruct (schedule_element _ _ _ _ _ _ _ _ _ _ _ Hcalc H0 Hi)
    as (_ & _ & Hm & _ & _ & Hh1 & Hh2).
  exists (hour first). rewrite Hm. auto.
Qed.

Lemma calculate_reminder_dates_time_of_day_witness :
  let s := [mkdatetime 2025 1 7 8 0 0 0; mkdatetime 2025 1 7 9 0 0 0;
            mkdatetime 2025 1 7 10 0 0 0] in
  let d := mkdatetime 2025 1 7 10 0 0 0 in
  calculate_reminder_dates (mkdatetime 2025 1 10 0 0 0 0)
    3 "DAY(S)" 2 1 "HOUR(S)" None = Ok s
  /\ s !! 2%nat = Some d
  /\ exists h,
      reminder_time None !! "hour" = Some h
      /\ reminder_time None !! "minute" = Some (minute d)
      /\ ("HOUR(S)" <> "HOUR(S)" -> hour d = h)
      /\ ("HOUR(S)" = "HOUR(S)" -> hour d = (h + Z.of_nat 2 * 1) mod 24).
Proof.
  assert (H : calculate_reminder_dates (mkdatetime 2025 1 10 0 0 0 0)
                3 "DAY(S)" 2 1 "HOUR(S)" None
              = Ok [mkdatetime 2025 1 7 8 0 0 0; mkdatetime 2025 1 7 9 0 0 0;
                    mkdatetime 2025 1 7 10 0 0 0])
    by (vm_compute; reflexivity).
  split; [exact H|]. split; [reflexivity|].
  exact (calculate_reminder_dates_time_of_day _ _ _ _ _ _ _ _ 2%nat _ H
           eq_refl).
Defined.

(** C7: with [repeat_intervals > 0] a schedule is strictly increasing, and
    its element of index [i] is the first reminder, whose time of day was
    already normalized, plus [i * repeat_intervals] units of
    [repeat_unit]. *)
Theorem calculate_reminder_dates_increasing ed dp ru rr ri rpu drt l :
  0 < ri -> 0 <= rr ->
  calculate_reminder_dates ed dp ru rr ri rpu drt = Ok l ->
  (forall (i j : nat) x y,
      (i < j)%nat -> l !! i = Some x -> l !! j = Some y -> lt x y = true)
  /\ exists first,
      l !! 0%nat = Some first
      /\ reminder_time drt !! "hour" = Some (hour first)
      /\ reminder_time drt !! "minute" = Some (minute first)
      /\ second first = 0 /\ microsecond first = 0
      /\ forall (i : nat) d, l !! i = Some d ->
           (td <- duration rpu (Z.of_nat i * ri) ;; add first td) = Ok d.
Proof.
  intros Hri Hrr Hcalc.
  destruct (calculate_reminder_dates_Ok _ _ _ _ _ _ _ _ Hcalc)
    as (first & Hwf & Hh & Hmi & Hs & Hus & H0 & _ & Hnext).
  split.
  - intros i j x y Hij Hx Hy.
    destruct (schedule_element _ _ _ _ _ _ _ _ _ _ _ Hcalc H0 Hx)
      as (Hwx & Htx & _).
    destruct (schedule_element _ _ _ _ _ _ _ _ _ _ _ Hcalc H0 Hy)
      as (Hwy & Hty & _).
    apply lt_total_microseconds; try assumption.
    rewrite Htx, Hty.
    assert (0 < unit_microseconds rpu).
    { unfold unit_microseconds.
      destruct (rpu =? "HOUR(S)")%string; [|destruct (rpu =? "DAY(S)")%string]; lia. }
    assert (0 < ri * unit_microseconds rpu) by (apply Z.mul_pos_pos; lia).
    rewrite <- !Z.mul_assoc. apply Z.add_lt_mono_l.
    apply Z.mul_lt_mono_pos_r; lia.
  - exists first. do 5 (split; [assumption|]).
    intros [|i] d Hd.
    + assert (d = first) as -> by congruence.
      change (Z.of_nat 0 * ri) with 0. apply add_duration_zero, Hwf.
    + apply Hnext in Hd. apply next_reminder_Ok in Hd as [_ Hd]. exact Hd.
Qed.

Lemma calculate_reminder_dates_increasing_witness :
  let s := [mkdatetime 2025 1 7 8 0 0 0; mkdatetime 2025 1 8 8 0 0 0;
            mkdatetime 2025 1 9 8 0 0 0] in
  0 < 1 /\ 0 <= 2
  /\ calculate_reminder_dates (mkdatetime 2025 1 10 0 0 0 0)
       3 "DAY(S)" 2 1 "DAY(S)" None = Ok s
  /\ lt (mkdatetime 2025 1 7 8 0 0 0) (mkdatetime 2025 1 9 8 0 0 0) = true.
Proof.
  assert (H : calculate_reminder_dates (mkdatetime 2025 1 10 0 0 0 0)
                3 "DAY(S)" 2 1 "DAY(S)" None
              = Ok [mkdatetime 2025 1 7 8 0 0 0; mkdatetime 2025 1 8 8 0 0 0;
                    mkdatetime 2025 1 9 8 0 0 0])
    by (vm_compute; reflexivity).
  split; [lia|]. split; [lia|]. split; [exact H|].
  exact (proj1 (calculate_reminder_dates_increasing
                  (mkdatetime 2025 1 10 0 0 0 0) 3 "DAY(S)" 2 1 "DAY(S)" None
                  _ ltac:(lia) ltac:(lia) H)
           0%nat 2%nat _ _ ltac:(lia) eq_refl eq_refl).
Defined.
End Reminders.

(** ** Text and back *)

Section RoundTrip.
Import calendar datetime isotext spec MedicationReminderCalculator.

Lemma mapM_fromisoformat_isoformat s :
  Forall wf s -> mapM fromisoformat (map isoformat s) = Ok s.
Proof.
  induction 1 as [|d s Hd _ IH]; [reflexivity|].
  cbn [map mapM]. rewrite fromisoformat_isoformat by assumption.
  cbn [bind]. rewrite IH. reflexivity.
Qed.

Lemma calculate_reminder_dates_wf ed dp ru rr ri rpu drt l :
  calculate_reminder_dates ed dp ru rr ri rpu drt = Ok l -> Forall wf l.
Proof.
  intros Hcalc.
  destruct (calculate_reminder_dates_Ok _ _ _ _ _ _ _ _ Hcalc)
    as (first & _ & _ & _ & _ & _ & H0 & _ & _).
  apply Forall_lookup. intros i d Hi.
  apply (schedule_element _ _ _ _ _ _ _ _ _ _ _ Hcalc H0 Hi).
Qed.

(** C4: text and back is lossless, for every list of naive timestamps (the
    empty list and one-element lists among them), and thus for every
    schedule that [calculate_reminder_dates] returns. *)
Theorem deserialize_serialize_reminder_dates :
  (forall s : list datetime,
      Forall wf s ->
      deserialize_reminder_dates (serialize_reminder_dates s) = Ok s)
  /\ (forall ed dp ru rr ri rpu drt s,
         calculate_reminder_dates ed dp ru rr ri rpu drt = Ok s ->
         deserialize_reminder_dates (serialize_reminder_dates s) = Ok s).
Proof.
  split.
  - intros s Hs. apply mapM_fromisoformat_isoformat, Hs.
  - intros ed dp ru rr ri rpu drt s Hcalc.
    apply mapM_fromisoformat_isoformat.
    eapply calculate_reminder_dates_wf, Hcalc.
Qed.

Lemma deserialize_serialize_reminder_dates_witness :
  Forall wf [mkdatetime 2024 2 29 23 59 59 999999]
  /\ deserialize_reminder_dates
       (serialize_reminder_dates [mkdatetime 2024 2 29 23 59 59 999999])
     = Ok [mkdatetime 2024 2 29 23 59 59 999999].
Proof.
  assert (H : Forall wf [mkdatetime 2024 2 29 23 59 59 999999]).
  { repeat constructor; vm_compute; congruence. }
  split; [exact H|].
  apply (proj1 deserialize_serialize_reminder_dates _ H).
Defined.
End RoundTrip.

(** ** The orchestration step *)

Section Process.
Import calendar datetime isotext spec MedicationReminderCalculator.

(** C9: a call that returns has assigned [end_date] and [reminder_dates] of
    the record it was given and nothing else, in that record and in the
    rest of the heap; the dictionary returned refers to that same record,
    its end date is the one stored and the text of its schedule is the one
    stored. *)
Theorem process_medication_reminders_frame l drt (h h' : heap) m r :
  h !! l = Some m ->
  process_medication_reminders l drt h = (h', Ok r) ->
  exists m',
    h' = <[l := m']> h
    /\ models.same_inputs m m'
    /\ calculate_end_date (models.start_date m) (models.max_dosage m)
         (models.dosage_frequency m) (models.total_supply m)
         (models.dosage_interval m) (models.start_time m) = Ok (end_date r)
    /\ models.end_date m' = Some (end_date r)
    /\ models.reminder_dates m'
       = Some (serialize_reminder_dates (reminder_dates r))
    /\ medication r = l.
Proof.
  intros Hm. unfold process_medication_reminders. rewrite Hm.
  destruct (calculate_end_date _ _ _ _ _ _) as [e|err]; [|intros [= ]].
  destruct (calculate_reminder_dates _ _ _ _ _ _ _) as [rd|err];
    [|intros [= ]].
  intros [= <- <-].
  eexists. split; [apply insert_insert_eq|].
  split; [repeat split|].
  repeat split.
Qed.

Lemma process_medication_reminders_frame_witness :
  let r := mkprocessed 1%positive (mkdatetime 2025 1 10 0 0 0 0)
             [mkdatetime 2025 1 7 8 0 0 0; mkdatetime 2025 1 8 8 0 0 0;
              mkdatetime 2025 1 9 8 0 0 0] in
  ({[1%positive := sample_medication]} : heap) !! 1%positive
  = Some sample_medication
  /\ process_medication_reminders 1%positive None
       {[1%positive := sample_medication]}
     = ({[1%positive := sample_processed]}, Ok r)
  /\ exists m',
      ({[1%positive := sample_processed]} : heap)
      = <[1%positive := m']> {[1%positive := sample_medication]}
      /\ models.same_inputs sample_medication m'
      /\ calculate_end_date (mkdatetime 2025 1 1 0 0 0 0) 2 "DAY(S)" 20 1 None
         = Ok (mkdatetime 2025 1 10 0 0 0 0)
      /\ models.end_date m' = Some (mkdatetime 2025 1 10 0 0 0 0)
      /\ models.reminder_dates m'
         = Some ["2025-01-07T08:00:00"; "2025-01-08T08:00:00";
                 "2025-01-09T08:00:00"]
      /\ 1%positive = 1%positive.
Proof.
  assert (H : process_medication_reminders 1%positive None
                {[1%positive := sample_medication]}
              = ({[1%positive := sample_processed]},
                 Ok (mkprocessed 1%positive (mkdatetime 2025 1 10 0 0 0 0)
                       [mkdatetime 2025 1 7 8 0 0 0;
                        mkdatetime 2025 1 8 8 0 0 0;
                        mkdatetime 2025 1 9 8 0 0 0])))
    by (vm_compute; reflexivity).
  split; [apply lookup_singleton_eq|]. split; [exact H|].
  exact (process_medication_reminders_frame 1%positive None _ _
           sample_medication _ (lookup_singleton_eq _ _) H).
Defined.
End Process.

(** ** Unit tokens *)

Section Units.
Import calendar datetime isotext PyFloat spec MedicationReminderCalculator.

Lemma not_reminder_unit_error_other {A} (r : result A) :
  is_ValueError r = false -> not_reminder_unit_error r.
Proof. intros H msg ->. discriminate. Qed.

Lemma not_reminder_unit_error_bind {A B} (r : result A) (k : A -> result B) :
  not_reminder_unit_error r -> (forall a, not_reminder_unit_error (k a)) ->
  not_reminder_unit_error (x <- r ;; k x).
Proof.
  intros Hr Hk. destruct r as [a|e]; [apply Hk|].
  intros msg [= ->]. apply Hr. reflexivity.
Qed.

Lemma sub_is_ValueError d td : is_ValueError (sub d td) = false.
Proof.
  unfold sub, timedelta_neg.
  apply bind_is_ValueError; [apply timedelta_new_is_ValueError|intros neg].
  apply add_is_ValueError.
Qed.

Lemma getitem_is_ValueError m k : is_ValueError (getitem m k) = false.
Proof. unfold getitem. destruct (m !! k); reflexivity. Qed.

Lemma datetime_new_error y mo dd h mi s us :
  not_reminder_unit_error (datetime_new y mo dd h mi s us).
Proof.
  unfold datetime_new.
  repeat match goal with
  | |- context [if negb ?c then _ else _] => destruct c; cbn [negb]
  end; intros msg; try discriminate; intros [= <-]; reflexivity.
Qed.

Lemma next_reminder_error first ri rpu i :
  not_reminder_unit_error (next_reminder first ri rpu i).
Proof.
  unfold next_reminder.
  repeat match goal with
  | |- context [if ?c then _ else _] => destruct c
  end;
    try (apply not_reminder_unit_error_other;
         apply bind_is_ValueError;
         [apply timedelta_new_is_ValueError|intros; apply add_is_ValueError]).
  intros msg [= <-]. reflexivity.
Qed.

Lemma repeat_loop_error first ri rpu range_ : forall acc,
  not_reminder_unit_error (repeat_loop first ri rpu range_ acc).
Proof.
  induction range_ as [|i range_ IH]; intros acc; cbn [repeat_loop].
  - intros msg; discriminate.
  - apply not_reminder_unit_error_bind; [apply next_reminder_error|].
    intros nxt. apply IH.
Qed.

Lemma is_reminder_unit_cases u :
  is_reminder_unit u = true ->
  u = "WEEK(S)" \/ u = "DAY(S)" \/ u = "(HOUR(S))".
Proof.
  unfold is_reminder_unit.
  destruct (String.eqb_spec u "WEEK(S)"); [auto|].
  destruct (String.eqb_spec u "DAY(S)"); [auto|].
  destruct (String.eqb_spec u "(HOUR(S))"); [auto|discriminate].
Qed.

Lemma calculate_reminder_dates_recognized ed dp ru rr ri rpu drt :
  is_reminder_unit ru = true ->
  not_reminder_unit_error (calculate_reminder_dates ed dp ru rr ri rpu drt).
Proof.
  intros Hru. unfold calculate_reminder_dates.
  apply not_reminder_unit_error_bind.
  { apply not_reminder_unit_error_other.
    destruct (is_reminder_unit_cases ru Hru) as [->|[->| ->]];
      (apply bind_is_ValueError;
       [apply timedelta_new_is_ValueError|intros; apply sub_is_ValueError]). }
  intros fr0.
  apply not_reminder_unit_error_bind;
    [apply not_reminder_unit_error_other, getitem_is_ValueError|intros h].
  apply not_reminder_unit_error_bind;
    [apply not_reminder_unit_error_other, getitem_is_ValueError|intros mi].
  apply not_reminder_unit_error_bind; [apply datetime_new_error|intros first].
  apply repeat_loop_error.
Qed.

Lemma calculate_reminder_dates_unrecognized ed dp ru rr ri rpu drt :
  is_reminder_unit ru = false ->
  calculate_reminder_dates ed dp ru rr ri rpu drt
  = Raise (ValueError ("Invalid reminder unit: " +:+ ru)).
Proof.
  unfold is_reminder_unit, calculate_reminder_dates.
  destruct (ru =? "WEEK(S)")%string; [discriminate|].
  destruct (ru =? "DAY(S)")%string; [discriminate|].
  destruct (ru =? "(HOUR(S))")%string; [discriminate|]. reflexivity.
Qed.

Lemma calculate_reminder_dates_repeat_unit ed dp ru rr ri rpu drt first :
  is_unit rpu = false -> 1 <= rr ->
  calculate_reminder_dates ed dp ru 0 ri rpu drt = Ok [first] ->
  calculate_reminder_dates ed dp ru rr ri rpu drt
  = Raise (ValueError ("Invalid repeat unit: " +:+ rpu)).
Proof.
  intros Hu Hrr. unfold calculate_reminder_dates.
  destruct (if (ru =? "WEEK(S)")%string then _ else _) as [fr0|e];
    [|discriminate].
  cbn [bind].
  destruct (getitem _ "hour") as [h|e]; [|discriminate].
  destruct (getitem _ "minute") as [mi|e]; [|discriminate].
  cbn [bind].
  destruct (replace fr0 h mi 0 0) as [fr|e]; [|discriminate].
  cbn [bind]. intros _.
  rewrite (seqZ_cons 1 rr) by lia. cbn [repeat_loop].
  unfold next_reminder. unfold is_unit in Hu.
  destruct (rpu =? "HOUR(S)")%string; [discriminate|].
  destruct (rpu =? "DAY(S)")%string; [discriminate|].
  destruct (rpu =? "WEEK(S)")%string; [discriminate|]. reflexivity.
Qed.

Lemma calculate_reminder_dates_no_repeat ed dp ru rr ri rpu rpu' drt :
  rr <= 0 ->
  calculate_reminder_dates ed dp ru rr ri rpu drt
  = calculate_reminder_dates ed dp ru rr ri rpu' drt.
Proof.
  intros Hrr. unfold calculate_reminder_dates.
  assert (seqZ 1 rr = []) as ->; [|reflexivity].
  unfold seqZ. replace (Z.to_nat rr) with 0%nat by lia. reflexivity.
Qed.

Lemma calculate_end_date_frequency sd md f ts di st q :
  is_unit f = false -> true_div ts md = Ok q ->
  calculate_end_date sd md f ts di st
  = Raise (ValueError ("Invalid dosage frequency: " +:+ f)).
Proof.
  intros Hf Hq. unfold calculate_end_date. rewrite Hq. cbn [bind].
  unfold is_unit in Hf.
  destruct (f =? "HOUR(S)")%string; [discriminate|].
  destruct (f =? "DAY(S)")%string; [discriminate|].
  destruct (f =? "WEEK(S)")%string; [discriminate|]. reflexivity.
Qed.

(** C8, as stated, fails: an unrecognized [repeat_unit] goes unnoticed when
    no repeat is requested, and an unrecognized [dosage_frequency] when the
    division fails first. *)
Lemma unrecognized_units_accepted :
  calculate_reminder_dates (mkdatetime 2025 1 10 0 0 0 0)
    3 "DAY(S)" 0 1 "MONTH(S)" None
  = Ok [mkdatetime 2025 1 7 8 0 0 0]
  /\ calculate_end_date (mkdatetime 2025 1 1 0 0 0 0) 0 "MONTH(S)" 20 1 None
     = Raise ZeroDivisionError.
Proof. vm_compute. split; reflexivity. Qed.

(** C8, amended: ["WEEK(S)"], ["DAY(S)"] and ["(HOUR(S))"] are the reminder
    units recognized; any other string, ["HOUR(S)"] among them, fails with
    the [ValueError] for the reminder unit, and these three never do.  An
    unrecognized [repeat_unit] fails with [ValueError] once a repeat is
    requested and the first reminder could be computed; with
    [repeat_reminders <= 0] the repeat unit is not looked at.  An
    unrecognized [dosage_frequency] fails with [ValueError] whenever the
    division [total_supply / max_dosage] yields a quotient. *)
Theorem unit_tokens ed dp ru rr ri rpu drt :
  (is_reminder_unit ru = false ->
   calculate_reminder_dates ed dp ru rr ri rpu drt
   = Raise (ValueError ("Invalid reminder unit: " +:+ ru)))
  /\ (is_reminder_unit ru = true ->
      not_reminder_unit_error
        (calculate_reminder_dates ed dp ru rr ri rpu drt))
  /\ calculate_reminder_dates ed dp "HOUR(S)" rr ri rpu drt
     = Raise (ValueError "Invalid reminder unit: HOUR(S)")
  /\ (is_unit rpu = false -> 1 <= rr ->
      forall first,
        calculate_reminder_dates ed dp ru 0 ri rpu drt = Ok [first] ->
        calculate_reminder_dates ed dp ru rr ri rpu drt
        = Raise (ValueError ("Invalid repeat unit: " +:+ rpu)))
  /\ (rr <= 0 ->
      forall rpu',
        calculate_reminder_dates ed dp ru rr ri rpu drt
        = calculate_reminder_dates ed dp ru rr ri rpu' drt)
  /\ (forall sd md f ts di st q,
         is_unit f = false -> true_div ts md = Ok q ->
         calculate_end_date sd md f ts di st
         = Raise (ValueError ("Invalid dosage frequency: " +:+ f))).
Proof.
  split; [apply calculate_reminder_dates_unrecognized|].
  split; [apply calculate_reminder_dates_recognized|].
  split; [apply calculate_reminder_dates_unrecognized; reflexivity|].
  split; [intros; eapply calculate_reminder_dates_repeat_unit; eassumption|].
  split; [intros; apply calculate_reminder_dates_no_repeat; assumption|].
  intros; eapply calculate_end_date_frequency; eassumption.
Qed.

Lemma unit_tokens_witness :
  calculate_reminder_dates (mkdatetime 2025 1 10 0 0 0 0)
    3 "MONTH(S)" 2 1 "MONTH(S)" None
  = Raise (ValueError "Invalid reminder unit: MONTH(S)")
  /\ calculate_reminder_dates (mkdatetime 2025 1 10 0 0 0 0)
       3 "DAY(S)" 2 1 "MONTH(S)" None
     = Raise (ValueError "Invalid repeat unit: MONTH(S)")
  /\ calculate_end_date (mkdatetime 2025 1 1 0 0 0 0) 2 "MONTH(S)" 20 1 None
     = Raise (ValueError "Invalid dosage frequency: MONTH(S)").
Proof.
  split; [|split].
  - apply (proj1 (unit_tokens (mkdatetime 2025 1 10 0 0 0 0)
                    3 "MONTH(S)" 2 1 "MONTH(S)" None)).
    reflexivity.
  - apply (proj1 (proj2 (proj2 (proj2
             (unit_tokens (mkdatetime 2025 1 10 0 0 0 0)
                3 "DAY(S)" 2 1 "MONTH(S)" None))))
             eq_refl ltac:(lia) (mkdatetime 2025 1 7 8 0 0 0)).
    vm_compute. reflexivity.
  - apply (proj2 (proj2 (proj2 (proj2 (proj2
             (unit_tokens (mkdatetime 2025 1 10 0 0 0 0)
                3 "DAY(S)" 2 1 "DAY(S)" None)))))
             (mkdatetime 2025 1 1 0 0 0 0) 2 "MONTH(S)" 20 1 None
             (PyFloat.mkfloat 5629499534213120 (-49)) eq_refl).
    vm_compute. reflexivity.
Defined.
End Units.

(** ** Further properties of the calculator, the scheduler and the screens *)

Section TimeLine.
Import calendar datetime.

Lemma total_microseconds_inj x y :
  wf x -> wf y -> total_microseconds x = total_microseconds y -> x = y.
Proof.
  intros Hx Hy Ht.
  pose proof (wf_toordinal x Hx) as Hox. pose proof (wf_toordinal y Hy) as Hoy.
  destruct Hx as (Hdx & ? & ? & ? & ?), Hy as (Hdy & ? & ? & ? & ?).
  unfold total_microseconds in Ht.
  assert (Ho : toordinal x = toordinal y) by lia.
  apply (ymd2ord_inj _ _ _ _ _ _ Hdx Hdy) in Ho.
  destruct x, y; cbn in *. inversion Ho; subst.
  f_equal; lia.
Qed.

Lemma lt_irrefl x : lt x x = false.
Proof.
  unfold lt, _getstate. cbn [_cmp]. rewrite !Z.compare_refl. reflexivity.
Qed.

Lemma cmp_antisym l : forall l', _cmp l' l = CompOpp (_cmp l l').
Proof.
  induction l as [|a l IH]; intros [|b l']; cbn [_cmp]; try reflexivity.
  rewrite (Z.compare_antisym a b).
  destruct (a ?= b); cbn [CompOpp]; auto.
Qed.

Lemma lt_asym x y : lt x y = true -> lt y x = false.
Proof.
  unfold lt. rewrite (cmp_antisym (_getstate x) (_getstate y)).
  destruct (_cmp (_getstate x) (_getstate y)); cbn; congruence.
Qed.

(** The order of timestamps is the order of their instants. *)
Lemma lt_iff_total_microseconds x y :
  wf x -> wf y ->
  lt x y = true <-> total_microseconds x < total_microseconds y.
Proof.
  intros Hx Hy. split; [|apply lt_total_microseconds; assumption].
  intros Hlt.
  destruct (Z.lt_trichotomy (total_microseconds x) (total_microseconds y))
    as [?|[Heq|Hgt]]; [assumption| |].
  - apply total_microseconds_inj in Heq; try assumption. subst y.
    rewrite lt_irrefl in Hlt. discriminate.
  - apply lt_total_microseconds in Hgt; try assumption.
    apply lt_asym in Hlt. congruence.
Qed.

Lemma lt_false_total_microseconds x y :
  wf x -> wf y ->
  lt x y = false <-> total_microseconds y <= total_microseconds x.
Proof.
  intros Hx Hy. pose proof (lt_iff_total_microseconds x y Hx Hy) as H.
  destruct (lt x y).
  - assert (total_microseconds x < total_microseconds y)
      by (apply H; reflexivity).
    split; [discriminate|lia].
  - split; [intros _|reflexivity].
    destruct (Z.lt_ge_cases (total_microseconds x) (total_microseconds y));
      [|lia].
    assert (false = true) by (apply H; assumption). discriminate.
Qed.

(** [self + other] succeeds exactly when the day it arrives at is a day of
    the calendar. *)
Lemma add_Ok_iff d td :
  wf d ->
  (1 <= add_ordinal d td <= _MAXORDINAL -> exists d', add d td = Ok d')
  /\ (~ 1 <= add_ordinal d td <= _MAXORDINAL -> add d td = Raise OverflowError).
Proof.
  intros Hwf. unfold add.
  pose proof (wf_time_seconds d Hwf) as Hs.
  pose proof (wf_toordinal d Hwf) as Ho. unfold _MAXORDINAL in *.
  assert (Hus : 0 <= microsecond d < 1000000)
    by (destruct Hwf as (_ & _ & _ & _ & ?); lia).
  rewrite timedelta_new_small by lia.
  cbn [bind td_days td_seconds td_microseconds].
  unfold timedelta_new. cbv zeta.
  fold (add_seconds d td). fold (add_ordinal d td).
  split; intros Hr.
  - destruct (Z.ltb_spec 999999999 (Z.abs (add_ordinal d td))); [lia|].
    cbn [bind td_days].
    destruct (Z.ltb_spec 0 (add_ordinal d td)); [|lia].
    destruct (Z.leb_spec (add_ordinal d td) 3652059); [|lia].
    cbn [andb]. destruct (_ord2ymd _) as [[? ?] ?]. eexists; reflexivity.
  - destruct (Z.ltb_spec 999999999 (Z.abs (add_ordinal d td))); [reflexivity|].
    cbn [bind td_days].
    destruct (Z.ltb_spec 0 (add_ordinal d td));
      destruct (Z.leb_spec (add_ordinal d td) 3652059);
      cbn [andb]; try reflexivity. lia.
Qed.

Lemma add_ordinal_total d td :
  wf d -> 0 <= td_microseconds td < 1000000 ->
  add_ordinal d td
  = (total_microseconds d + td_total_microseconds td) / 86400000000.
Proof.
  intros Hwf Hus. unfold add_ordinal, add_seconds, total_microseconds,
    td_total_microseconds.
  destruct Hwf as (_ & ? & ? & ? & ?).
  set (o := toordinal d). clearbody o. dlia.
Qed.
End TimeLine.

Section Shift.
Import calendar datetime spec.

Lemma timedelta_new_cases a b c :
  let X := (a * 86400 + b) * 1000000 + c in
  (Z.abs (X / 86400000000) <= 999999999 ->
   exists td, timedelta_new a b c = Ok td
     /\ td_total_microseconds td = X
     /\ 0 <= td_seconds td < 86400 /\ 0 <= td_microseconds td < 1000000)
  /\ (999999999 < Z.abs (X / 86400000000) ->
      timedelta_new a b c = Raise OverflowError).
Proof.
  intros X. unfold timedelta_new. cbv zeta.
  assert (Hd : a + (b + c / 1000000) / 86400 = X / 86400000000)
    by (unfold X; dlia).
  rewrite Hd. split; intros H.
  - destruct (Z.ltb_spec 999999999 (Z.abs (X / 86400000000))); [lia|].
    eexists. split; [reflexivity|].
    unfold td_total_microseconds. cbn [td_days td_seconds td_microseconds].
    unfold X. dlia.
  - destruct (Z.ltb_spec 999999999 (Z.abs (X / 86400000000))); [reflexivity|lia].
Qed.

Lemma wf_in_calendar d : wf d -> in_calendar (total_microseconds d).
Proof.
  intros Hwf. pose proof (wf_toordinal d Hwf) as Ho.
  destruct Hwf as (_ & ? & ? & ? & ?).
  unfold in_calendar, total_microseconds, _MAXORDINAL in *. lia.
Qed.

(** [d + timedelta(a, b, c)]: the sum is computed exactly when its instant
    is in the calendar, and fails with [OverflowError] otherwise. *)
Lemma shift_forward d a b c :
  wf d ->
  let X := (a * 86400 + b) * 1000000 + c in
  (in_calendar (total_microseconds d + X) ->
   exists d', (td <- timedelta_new a b c ;; add d td) = Ok d'
              /\ wf d' /\ total_microseconds d' = total_microseconds d + X)
  /\ (~ in_calendar (total_microseconds d + X) ->
      (td <- timedelta_new a b c ;; add d td) = Raise OverflowError).
Proof.
  intros Hwf X. pose proof (wf_in_calendar d Hwf) as Hd.
  destruct (timedelta_new_cases a b c) as [Hok Hov]. fold X in Hok, Hov.
  unfold in_calendar, _MAXORDINAL in *.
  destruct (Z.le_gt_cases (Z.abs (X / 86400000000)) 999999999) as [Hs|Hb].
  - destruct (Hok Hs) as (td & -> & Ht & Hsec & Hus). cbn [bind].
    destruct (add_Ok_iff d td Hwf) as [Hin Hout].
    rewrite (add_ordinal_total d td Hwf Hus), Ht in Hin, Hout.
    unfold _MAXORDINAL in *.
    split; intros H.
    + destruct Hin as [d' Hd']; [dlia|].
      exists d'. split; [exact Hd'|]. split; [eapply add_wf; eassumption|].
      rewrite (add_total_microseconds _ _ _ Hwf Hd'), Ht. reflexivity.
    + apply Hout. dlia.
  - rewrite (Hov Hb). cbn [bind]. split; [|reflexivity].
    intros H. exfalso. dlia.
Qed.

(** [d - timedelta(a, b, c)], likewise. *)
Lemma shift_backward d a b c :
  wf d ->
  let X := (a * 86400 + b) * 1000000 + c in
  (in_calendar (total_microseconds d - X) ->
   exists d', (td <- timedelta_new a b c ;; sub d td) = Ok d'
              /\ wf d' /\ total_microseconds d' = total_microseconds d - X)
  /\ (~ in_calendar (total_microseconds d - X) ->
      (td <- timedelta_new a b c ;; sub d td) = Raise OverflowError).
Proof.
  intros Hwf X. pose proof (wf_in_calendar d Hwf) as Hd.
  destruct (timedelta_new_cases a b c) as [Hok Hov]. fold X in Hok, Hov.
  destruct (Z.le_gt_cases (Z.abs (X / 86400000000)) 999999999) as [Hs|Hb].
  - destruct (Hok Hs) as (td & -> & Ht & Hsec & Hus). cbn [bind].
    unfold sub, timedelta_neg.
    destruct (shift_forward d (- td_days td) (- td_seconds td)
                (- td_microseconds td) Hwf) as [Hin Hout].
    assert (HX : (- td_days td * 86400 + - td_seconds td) * 1000000
                 + - td_microseconds td = - X)
      by (unfold td_total_microseconds in Ht; lia).
    rewrite HX in Hin, Hout.
    replace (total_microseconds d + - X) with (total_microseconds d - X)
      in Hin, Hout by lia.
    split; assumption.
  - rewrite (Hov Hb). cbn [bind]. split; [|reflexivity].
    intros H. exfalso. unfold in_calendar, _MAXORDINAL in *. dlia.
Qed.

Lemma duration_eq u k :
  is_unit u = true ->
  exists a b, duration u k = timedelta_new a b 0
    /\ (a * 86400 + b) * 1000000 + 0 = k * unit_microseconds u.
Proof.
  intros Hu. destruct (is_unit_cases u Hu) as [->|[->| ->]].
  - exists 0, (k * 3600). split; [reflexivity|].
    change (unit_microseconds "HOUR(S)") with 3600000000. lia.
  - exists k, 0. split; [reflexivity|].
    change (unit_microseconds "DAY(S)") with 86400000000. lia.
  - exists (k * 7), 0. split; [reflexivity|].
    change (unit_microseconds "WEEK(S)") with 604800000000. lia.
Qed.

(** Adding [k] units: computed exactly when the instant reached is in the
    calendar. *)
Lemma add_duration_cases d u k :
  wf d -> is_unit u = true ->
  let t := total_microseconds d + k * unit_microseconds u in
  (in_calendar t ->
   exists d', (td <- duration u k ;; add d td) = Ok d'
              /\ wf d' /\ total_microseconds d' = t)
  /\ (~ in_calendar t ->
      (td <- duration u k ;; add d td) = Raise OverflowError).
Proof.
  intros Hwf Hu t.
  destruct (duration_eq u k Hu) as (a & b & -> & HX).
  pose proof (shift_forward d a b 0 Hwf) as H. cbv zeta in H.
  rewrite HX in H. exact H.
Qed.
End Shift.

Section EndDateExtras.
Import calendar datetime PyFloat spec MedicationReminderCalculator.

Lemma additional_doses_nonneg ts md n :
  additional_doses ts md = Ok n -> 0 <= n.
Proof.
  unfold additional_doses. destruct (true_div ts md) as [q|e]; [|discriminate].
  cbn [bind]. intros [= <-]. destruct (Z.ltb_spec 0 (ceil q)); lia.
Qed.

(** X1: below [2 ^ 53] the end date lies exactly
    [(ceil (total_supply / max_dosage) - 1) * dosage_interval] units after
    the anchor; minute, second and microsecond are the anchor's, and so is
    the hour unless dosing is by the hour. *)
Theorem calculate_end_date_elapsed sd md f ts di st r :
  is_unit f = true -> 0 < md < 2 ^ 53 -> 0 < ts < 2 ^ 53 ->
  wf (anchor f sd st) ->
  calculate_end_date sd md f ts di st = Ok r ->
  wf r
  /\ total_microseconds r
     = total_microseconds (anchor f sd st)
       + (exact_ceil ts md - 1) * di * unit_microseconds f
  /\ minute r = minute (anchor f sd st)
  /\ second r = second (anchor f sd st)
  /\ microsecond r = microsecond (anchor f sd st)
  /\ (f <> "HOUR(S)" -> hour r = hour (anchor f sd st)).
Proof.
  intros Hf Hmd Hts Hwf Hr.
  rewrite calculate_end_date_exact in Hr by assumption.
  destruct (add_duration _ _ _ _ Hwf Hf Hr) as (? & ? & ? & ? & ? & ? & _).
  auto 10.
Qed.

Lemma calculate_end_date_elapsed_witness :
  let start := mkdatetime 2025 1 1 0 0 0 0 in
  let r := mkdatetime 2025 1 28 0 0 0 0 in
  is_unit "DAY(S)" = true /\ 0 < 3 < 2 ^ 53 /\ 0 < 30 < 2 ^ 53
  /\ wf (anchor "DAY(S)" start None)
  /\ calculate_end_date start 3 "DAY(S)" 30 3 None = Ok r
  /\ total_microseconds r
     = total_microseconds start + (exact_ceil 30 3 - 1) * 3 * 86400000000.
Proof.
  assert (Hwf : wf (anchor "DAY(S)" (mkdatetime 2025 1 1 0 0 0 0) None))
    by (vm_compute; intuition congruence).
  assert (Hr : calculate_end_date (mkdatetime 2025 1 1 0 0 0 0) 3 "DAY(S)"
                 30 3 None = Ok (mkdatetime 2025 1 28 0 0 0 0))
    by (vm_compute; reflexivity).
  split; [reflexivity|]. split; [lia|]. split; [lia|].
  split; [exact Hwf|]. split; [exact Hr|].
  exact (proj1 (proj2 (calculate_end_date_elapsed
                         (mkdatetime 2025 1 1 0 0 0 0) 3 "DAY(S)" 30 3 None _
                         eq_refl ltac:(lia) ltac:(lia) Hwf Hr))).
Defined.

(** X2: with [dosage_interval >= 0] the end date is never before the
    anchor, whatever [max_dosage] and [total_supply] are: the count of
    doses after the first is never negative. *)
Theorem calculate_end_date_not_before_anchor sd md f ts di st r :
  0 <= di -> wf (anchor f sd st) ->
  calculate_end_date sd md f ts di st = Ok r ->
  lt r (anchor f sd st) = false.
Proof.
  intros Hdi Hwf Hr.
  assert (Hf : is_unit f = true).
  { destruct (is_unit f) eqn:Hu; [reflexivity|exfalso].
    revert Hr. unfold calculate_end_date, is_unit in *.
    destruct (true_div ts md); [|discriminate]. cbn [bind].
    destruct (f =? "HOUR(S)")%string; [discriminate|].
    destruct (f =? "DAY(S)")%string; [discriminate|].
    destruct (f =? "WEEK(S)")%string; discriminate. }
  rewrite calculate_end_date_unfold in Hr by assumption.
  destruct (additional_doses ts md) as [n|e] eqn:Hn; [|discriminate].
  cbn [bind] in Hr. apply additional_doses_nonneg in Hn.
  destruct (add_duration _ _ _ _ Hwf Hf Hr) as (Hwr & Ht & _).
  apply lt_false_total_microseconds; try assumption.
  rewrite Ht.
  assert (0 < unit_microseconds f)
    by (unfold unit_microseconds;
        destruct (f =? "HOUR(S)")%string;
        [|destruct (f =? "DAY(S)")%string]; lia).
  nia.
Qed.

Lemma calculate_end_date_not_before_anchor_witness :
  let start := mkdatetime 2025 1 1 0 0 0 0 in
  0 <= 1 /\ wf (anchor "DAY(S)" start None)
  /\ calculate_end_date start (-2) "DAY(S)" 20 1 None = Ok start
  /\ lt start (anchor "DAY(S)" start None) = false.
Proof.
  assert (Hwf : wf (anchor "DAY(S)" (mkdatetime 2025 1 1 0 0 0 0) None))
    by (vm_compute; intuition congruence).
  assert (Hr : calculate_end_date (mkdatetime 2025 1 1 0 0 0 0) (-2) "DAY(S)"
                 20 1 None = Ok (mkdatetime 2025 1 1 0 0 0 0))
    by (vm_compute; reflexivity).
  split; [lia|]. split; [exact Hwf|]. split; [exact Hr|].
  exact (calculate_end_date_not_before_anchor
           (mkdatetime 2025 1 1 0 0 0 0) (-2) "DAY(S)" 20 1 None _
           ltac:(lia) Hwf Hr).
Defined.

(** X3: below [2 ^ 53] and with a recognized frequency, the end date is
    computed exactly when its instant is in the calendar, that is no later
    than the end of year 9999; otherwise the call fails with
    [OverflowError], and with nothing else. *)
Theorem calculate_end_date_range sd md f ts di st :
  is_unit f = true -> 0 < md < 2 ^ 53 -> 0 < ts < 2 ^ 53 ->
  wf (anchor f sd st) ->
  let t := total_microseconds (anchor f sd st)
           + (exact_ceil ts md - 1) * di * unit_microseconds f in
  (in_calendar t -> exists r, calculate_end_date sd md f ts di st = Ok r)
  /\ (~ in_calendar t ->
      calculate_end_date sd md f ts di st = Raise OverflowError).
Proof.
  intros Hf Hmd Hts Hwf t.
  rewrite calculate_end_date_exact by assumption.
  destruct (add_duration_cases (anchor f sd st) f
              ((exact_ceil ts md - 1) * di) Hwf Hf) as [Hin Hout].
  split; intros H.
  - destruct (Hin H) as (r & Hr & _). exists r. exact Hr.
  - apply Hout, H.
Qed.

Lemma calculate_end_date_range_witness :
  let start := mkdatetime 9999 12 1 0 0 0 0 in
  is_unit "DAY(S)" = true /\ 0 < 1 < 2 ^ 53 /\ 0 < 40 < 2 ^ 53
  /\ wf (anchor "DAY(S)" start None)
  /\ ~ in_calendar (total_microseconds (anchor "DAY(S)" start None)
                    + (exact_ceil 40 1 - 1) * 1 * unit_microseconds "DAY(S)")
  /\ calculate_end_date start 1 "DAY(S)" 40 1 None = Raise OverflowError.
Proof.
  assert (Hwf : wf (anchor "DAY(S)" (mkdatetime 9999 12 1 0 0 0 0) None))
    by (vm_compute; intuition congruence).
  assert (Hout : ~ in_calendar
                   (total_microseconds
                      (anchor "DAY(S)" (mkdatetime 9999 12 1 0 0 0 0) None)
                    + (exact_ceil 40 1 - 1) * 1 * unit_microseconds "DAY(S)"))
    by (vm_compute; intros [_ H]; discriminate H).
  split; [reflexivity|]. split; [lia|]. split; [lia|].
  split; [exact Hwf|]. split; [exact Hout|].
  exact (proj2 (calculate_end_date_range
                  (mkdatetime 9999 12 1 0 0 0 0) 1 "DAY(S)" 40 1 None
                  eq_refl ltac:(lia) ltac:(lia) Hwf) Hout).
Defined.
End EndDateExtras.

Section ReminderExtras.
Import calendar datetime isotext PyFloat spec MedicationReminderCalculator.

Lemma calculate_reminder_dates_unfold ed dp ru rr ri rpu drt :
  calculate_reminder_dates ed dp ru rr ri rpu drt
  = (fr0 <- prior_date ed dp ru ;;
     h <- getitem (reminder_time drt) "hour" ;;
     mi <- getitem (reminder_time drt) "minute" ;;
     first <- replace fr0 h mi 0 0 ;;
     repeat_loop first ri rpu (seqZ 1 rr) [first]).
Proof. reflexivity. Qed.

Lemma prior_date_cases ed dp ru :
  wf ed -> is_reminder_unit ru = true ->
  let t := total_microseconds ed - dp * reminder_unit_microseconds ru in
  (in_calendar t ->
   exists d, prior_date ed dp ru = Ok d /\ wf d /\ total_microseconds d = t)
  /\ (~ in_calendar t -> prior_date ed dp ru = Raise OverflowError).
Proof.
  intros Hwf Hru t. unfold prior_date.
  destruct (is_reminder_unit_cases ru Hru) as [->|[->| ->]].
  - pose proof (shift_backward ed (dp * 7) 0 0 Hwf) as H. cbv zeta in H.
    replace ((dp * 7 * 86400 + 0) * 1000000 + 0)
      with (dp * reminder_unit_microseconds "WEEK(S)") in H
      by (change (reminder_unit_microseconds "WEEK(S)") with 604800000000; lia).
    exact H.
  - pose proof (shift_backward ed dp 0 0 Hwf) as H. cbv zeta in H.
    replace ((dp * 86400 + 0) * 1000000 + 0)
      with (dp * reminder_unit_microseconds "DAY(S)") in H
      by (change (reminder_unit_microseconds "DAY(S)") with 86400000000; lia).
    exact H.
  - pose proof (shift_backward ed 0 (dp * 3600) 0 Hwf) as H. cbv zeta in H.
    replace ((0 * 86400 + dp * 3600) * 1000000 + 0)
      with (dp * reminder_unit_microseconds "(HOUR(S))") in H
      by (change (reminder_unit_microseconds "(HOUR(S))") with 3600000000; lia).
    exact H.
Qed.

Lemma total_microseconds_midnight d :
  wf d -> midnight (total_microseconds d) = toordinal d * 86400000000.
Proof.
  intros (_ & ? & ? & ? & ?). unfold midnight, total_microseconds.
  set (o := toordinal d). clearbody o. dlia.
Qed.

(** [replace] keeps the day and sets the time. *)
Lemma replace_total d h mi :
  wf d -> 0 <= h <= 23 -> 0 <= mi <= 59 ->
  exists d', replace d h mi 0 0 = Ok d' /\ wf d'
    /\ total_microseconds d'
       = midnight (total_microseconds d) + (h * 3600 + mi * 60) * 1000000.
Proof.
  intros Hwf Hh Hmi. rewrite (total_microseconds_midnight d Hwf).
  unfold replace.
  assert (Hw' : wf (mkdatetime (year d) (month d) (day d) h mi 0 0)).
  { destruct Hwf as (Hd & _). split; [exact Hd|]. cbn. lia. }
  pose proof (datetime_new_wf _ Hw') as Hnew. cbn in Hnew.
  eexists. split; [exact Hnew|]. split; [exact Hw'|].
  unfold total_microseconds, toordinal. cbn. lia.
Qed.

Lemma replace_Ok_total d h mi d' :
  wf d -> replace d h mi 0 0 = Ok d' ->
  0 <= h <= 23 /\ 0 <= mi <= 59
  /\ total_microseconds d'
     = midnight (total_microseconds d) + (h * 3600 + mi * 60) * 1000000.
Proof.
  intros Hwf Hr. pose proof Hr as Hr'.
  apply replace_Ok in Hr' as (Hw' & Hh & Hmi & _).
  assert (0 <= h <= 23 /\ 0 <= mi <= 59) as [Hh' Hmi']
    by (destruct Hw' as (_ & ? & ? & _); lia).
  destruct (replace_total d h mi Hwf Hh' Hmi') as (d'' & Hr'' & _ & Ht).
  assert (d'' = d') by congruence. subst. auto.
Qed.

(** Where the first reminder lies. *)
Lemma calculate_reminder_dates_first ed dp ru rr ri rpu drt l :
  wf ed -> is_reminder_unit ru = true ->
  calculate_reminder_dates ed dp ru rr ri rpu drt = Ok l ->
  exists first,
    l !! 0%nat = Some first
    /\ in_calendar (total_microseconds ed - dp * reminder_unit_microseconds ru)
    /\ total_microseconds first
       = midnight (total_microseconds ed
                   - dp * reminder_unit_microseconds ru)
         + (hour first * 3600 + minute first * 60) * 1000000.
Proof.
  intros Hwf Hru Hcalc.
  destruct (calculate_reminder_dates_Ok _ _ _ _ _ _ _ _ Hcalc)
    as (first & _ & _ & _ & _ & _ & H0 & _ & _).
  exists first. split; [exact H0|].
  rewrite calculate_reminder_dates_unfold in Hcalc.
  destruct (prior_date_cases ed dp ru Hwf Hru) as [Hin Hout].
  destruct (prior_date ed dp ru) as [fr0|e] eqn:Hp; [|discriminate].
  cbn [bind] in Hcalc.
  assert (Hc : in_calendar
                 (total_microseconds ed - dp * reminder_unit_microseconds ru)).
  { destruct (Z.le_gt_cases 86400000000
                (total_microseconds ed - dp * reminder_unit_microseconds ru));
      destruct (Z.lt_ge_cases
                  (total_microseconds ed - dp * reminder_unit_microseconds ru)
                  ((_MAXORDINAL + 1) * 86400000000));
      try (split; assumption);
      exfalso; (assert (Hno : Ok fr0 = Raise OverflowError)
                 by (apply Hout; unfold in_calendar; lia)); discriminate. }
  split; [exact Hc|].
  destruct (Hin Hc) as (d & [= <-] & Hwd & Htd).
  destruct (getitem _ "hour") as [h|e]; [|discriminate].
  destruct (getitem _ "minute") as [mi|e]; [|discriminate].
  cbn [bind] in Hcalc.
  destruct (replace fr0 h mi 0 0) as [fr|e] eqn:Hr; [|discriminate].
  cbn [bind] in Hcalc.
  apply repeat_loop_Ok in Hcalc as (ds & -> & _).
  injection H0 as <-.
  destruct (replace_Ok_total _ _ _ _ Hwd Hr) as (_ & _ & Ht).
  apply replace_Ok in Hr as (_ & <- & <- & _).
  rewrite Ht, Htd. reflexivity.
Qed.
End ReminderExtras.

Section ReminderExtras2.
Import calendar datetime isotext PyFloat spec MedicationReminderCalculator.



(** X5: when the time prior amounts to a day or more, the first reminder is
    strictly before the end date. *)
Theorem calculate_reminder_dates_first_before_end ed dp ru rr ri rpu drt l
  first :
  wf ed -> is_reminder_unit ru = true ->
  86400000000 <= dp * reminder_unit_microseconds ru ->
  calculate_reminder_dates ed dp ru rr ri rpu drt = Ok l ->
  l !! 0%nat = Some first ->
  lt first ed = true.
Proof.
  intros Hwf Hru Hdp Hcalc H0.
  destruct (calculate_reminder_dates_first _ _ _ _ _ _ _ _ Hwf Hru Hcalc)
    as (first' & H0' & Hc & Ht).
  assert (first' = first) by congruence. subst first'.
  destruct (calculate_reminder_dates_Ok _ _ _ _ _ _ _ _ Hcalc)
    as (first' & Hwf' & _ & _ & Hs & Hus & H0'' & _ & _).
  assert (first' = first) by congruence. subst first'.
  apply lt_total_microseconds; try assumption.
  rewrite Ht. unfold midnight.
  destruct Hwf' as (_ & ? & ? & _).
  set (t := total_microseconds ed - dp * reminder_unit_microseconds ru) in *.
  assert (t / 86400000000 * 86400000000 <= t) by dlia.
  lia.
Qed.

Lemma calculate_reminder_dates_first_before_end_witness :
  let ed := mkdatetime 2025 1 10 0 0 0 0 in
  let first := mkdatetime 2025 1 9 8 0 0 0 in
  wf ed /\ is_reminder_unit "(HOUR(S))" = true
  /\ 86400000000 <= 24 * reminder_unit_microseconds "(HOUR(S))"
  /\ calculate_reminder_dates ed 24 "(HOUR(S))" 0 1 "DAY(S)" None = Ok [first]
  /\ [first] !! 0%nat = Some first
  /\ lt first ed = true.
Proof.
  assert (Hwf : wf (mkdatetime 2025 1 10 0 0 0 0))
    by (vm_compute; intuition congruence).
  assert (Hc : calculate_reminder_dates (mkdatetime 2025 1 10 0 0 0 0)
                 24 "(HOUR(S))" 0 1 "DAY(S)" None
               = Ok [mkdatetime 2025 1 9 8 0 0 0])
    by (vm_compute; reflexivity).
  assert (Hdp : 86400000000 <= 24 * reminder_unit_microseconds "(HOUR(S))")
    by (vm_compute; discriminate).
  split; [exact Hwf|]. split; [reflexivity|]. split; [exact Hdp|].
  split; [exact Hc|]. split; [reflexivity|].
  exact (calculate_reminder_dates_first_before_end
           (mkdatetime 2025 1 10 0 0 0 0) 24 "(HOUR(S))" 0 1 "DAY(S)" None
           _ _ Hwf eq_refl Hdp Hc eq_refl).
Defined.

(** X6: consecutive reminders are [repeat_intervals] units apart, whatever
    the sign of [repeat_intervals]: with 0 every reminder repeats the
    first, with a negative interval the schedule runs backwards. *)
Theorem calculate_reminder_dates_spacing ed dp ru rr ri rpu drt l
  (i j : nat) x y :
  calculate_reminder_dates ed dp ru rr ri rpu drt = Ok l ->
  l !! i = Some x -> l !! j = Some y ->
  total_microseconds y
  = total_microseconds x
    + (Z.of_nat j - Z.of_nat i) * ri * unit_microseconds rpu
  /\ (ri = 0 -> x = y)
  /\ (ri < 0 -> (i < j)%nat -> lt y x = true).
Proof.
  intros Hcalc Hx Hy.
  destruct (calculate_reminder_dates_Ok _ _ _ _ _ _ _ _ Hcalc)
    as (first & _ & _ & _ & _ & _ & H0 & _ & _).
  destruct (schedule_element _ _ _ _ _ _ _ _ _ _ _ Hcalc H0 Hx)
    as (Hwx & Htx & _).
  destruct (schedule_element _ _ _ _ _ _ _ _ _ _ _ Hcalc H0 Hy)
    as (Hwy & Hty & _).
  split; [lia|]. split.
  - intros ->. apply total_microseconds_inj; try assumption. lia.
  - intros Hri Hij. apply lt_total_microseconds; try assumption.
    assert (0 < unit_microseconds rpu)
      by (unfold unit_microseconds;
          destruct (rpu =? "HOUR(S)")%string;
          [|destruct (rpu =? "DAY(S)")%string]; lia).
    assert (Hp : ri * unit_microseconds rpu < 0)
      by (apply Z.mul_neg_pos; lia).
    assert (Hd : (Z.of_nat j - Z.of_nat i) * (ri * unit_microseconds rpu) < 0)
      by (apply Z.mul_pos_neg; lia).
    lia.
Qed.

Lemma calculate_reminder_dates_spacing_witness :
  let s := [mkdatetime 2025 1 7 8 0 0 0; mkdatetime 2025 1 5 8 0 0 0;
            mkdatetime 2025 1 3 8 0 0 0] in
  calculate_reminder_dates (mkdatetime 2025 1 10 0 0 0 0)
    3 "DAY(S)" 2 (-2) "DAY(S)" None = Ok s
  /\ s !! 0%nat = Some (mkdatetime 2025 1 7 8 0 0 0)
  /\ s !! 2%nat = Some (mkdatetime 2025 1 3 8 0 0 0)
  /\ lt (mkdatetime 2025 1 3 8 0 0 0) (mkdatetime 2025 1 7 8 0 0 0) = true.
Proof.
  assert (Hc : calculate_reminder_dates (mkdatetime 2025 1 10 0 0 0 0)
                 3 "DAY(S)" 2 (-2) "DAY(S)" None
               = Ok [mkdatetime 2025 1 7 8 0 0 0; mkdatetime 2025 1 5 8 0 0 0;
                     mkdatetime 2025 1 3 8 0 0 0])
    by (vm_compute; reflexivity).
  split; [exact Hc|]. split; [reflexivity|]. split; [reflexivity|].
  exact (proj2 (proj2 (calculate_reminder_dates_spacing _ _ _ _ _ _ _ _
                         0%nat 2%nat _ _ Hc eq_refl eq_refl))
           ltac:(lia) ltac:(lia)).
Defined.
End ReminderExtras2.

Section ReminderExtras3.
Import calendar datetime isotext PyFloat spec MedicationReminderCalculator.




Lemma in_calendar_dec t : {in_calendar t} + {~ in_calendar t}.
Proof.
  unfold in_calendar.
  destruct (Z_le_dec 86400000000 t);
    destruct (Z_lt_dec t ((_MAXORDINAL + 1) * 86400000000));
    [left; lia|right; lia|right; lia|right; lia].
Defined.

Lemma next_reminder_cases first ri rpu i :
  wf first -> is_unit rpu = true ->
  let t := total_microseconds first + i * ri * unit_microseconds rpu in
  (in_calendar t -> exists d, next_reminder first ri rpu i = Ok d)
  /\ (~ in_calendar t -> next_reminder first ri rpu i = Raise OverflowError).
Proof.
  intros Hwf Hu t.
  assert (Hn : next_reminder first ri rpu i
               = (td <- duration rpu (i * ri) ;; add first td)).
  { unfold next_reminder, duration.
    destruct (is_unit_cases rpu Hu) as [->|[->| ->]]; reflexivity. }
  rewrite Hn.
  destruct (add_duration_cases first rpu (i * ri) Hwf Hu) as [Hin Hout].
  split; intros H.
  - destruct (Hin H) as (d & Hd & _). exists d. exact Hd.
  - apply Hout, H.
Qed.

Lemma repeat_loop_cases first ri rpu :
  wf first -> is_unit rpu = true ->
  forall range_ acc,
    (Forall (fun i => in_calendar
                        (total_microseconds first
                         + i * ri * unit_microseconds rpu)) range_ ->
     exists l, repeat_loop first ri rpu range_ acc = Ok l)
    /\ (~ Forall (fun i => in_calendar
                             (total_microseconds first
                              + i * ri * unit_microseconds rpu)) range_ ->
        repeat_loop first ri rpu range_ acc = Raise OverflowError).
Proof.
  intros Hwf Hu. induction range_ as [|i range_ IH]; intros acc.
  - split; [intros _; eexists; reflexivity|].
    intros H. exfalso. apply H. constructor.
  - cbn [repeat_loop].
    destruct (next_reminder_cases first ri rpu i Hwf Hu) as [Hin Hout].
    split.
    + intros H. inversion H as [|? ? Hi Hrest]; subst.
      destruct (Hin Hi) as (d & ->). cbn [bind].
      apply (IH (acc ++ [d])), Hrest.
    + intros H.
      destruct (in_calendar_dec
                  (total_microseconds first + i * ri * unit_microseconds rpu))
        as [Hi|Hi].
      * destruct (Hin Hi) as (d & ->). cbn [bind].
        apply (IH (acc ++ [d])). intros Hrest. apply H.
        constructor; assumption.
      * rewrite (Hout Hi). reflexivity.
Qed.
End ReminderExtras3.

Section ReminderExtras4.
Import calendar datetime isotext PyFloat spec MedicationReminderCalculator.

Lemma unit_microseconds_pos u : 0 < unit_microseconds u.
Proof.
  unfold unit_microseconds.
  destruct (u =? "HOUR(S)")%string; [|destruct (u =? "DAY(S)")%string]; lia.
Qed.

Lemma midnight_in_calendar t tod :
  in_calendar t -> 0 <= tod < 86400000000 -> in_calendar (midnight t + tod).
Proof. unfold in_calendar, midnight, _MAXORDINAL. intros Ht Htod. dlia. Qed.

(** The schedule is computed exactly when its first day and its last
    reminder are in the calendar. *)
Lemma calculate_reminder_dates_cases ed dp ru rr ri rpu drt h mi :
  wf ed -> is_reminder_unit ru = true -> is_unit rpu = true ->
  reminder_time drt !! "hour" = Some h ->
  reminder_time drt !! "minute" = Some mi ->
  0 <= h <= 23 -> 0 <= mi <= 59 -> 0 <= rr -> 0 <= ri ->
  let t0 := total_microseconds ed - dp * reminder_unit_microseconds ru in
  let tn := midnight t0 + (h * 3600 + mi * 60) * 1000000
            + rr * ri * unit_microseconds rpu in
  (in_calendar t0 /\ in_calendar tn ->
   exists l, calculate_reminder_dates ed dp ru rr ri rpu drt = Ok l)
  /\ (~ (in_calendar t0 /\ in_calendar tn) ->
      calculate_reminder_dates ed dp ru rr ri rpu drt = Raise OverflowError).
Proof.
  intros Hwf Hru Hu Hh Hmi Hhr Hmir Hrr Hri t0 tn.
  rewrite calculate_reminder_dates_unfold.
  destruct (prior_date_cases ed dp ru Hwf Hru) as [Hin Hout]. fold t0 in Hin, Hout.
  unfold getitem. rewrite Hh, Hmi.
  pose proof (unit_microseconds_pos rpu) as HU.
  destruct (in_calendar_dec t0) as [H0|H0].
  - destruct (Hin H0) as (fr0 & -> & Hw0 & Ht0). cbn [bind].
    destruct (replace_total fr0 h mi Hw0 Hhr Hmir) as (first & -> & Hwf1 & Ht1).
    cbn [bind]. rewrite Ht0 in Ht1.
    destruct (repeat_loop_cases first ri rpu Hwf1 Hu (seqZ 1 rr) [first])
      as [Hall Hsome].
    assert (Hfirst : in_calendar (total_microseconds first)).
    { rewrite Ht1. apply midnight_in_calendar; [assumption|lia]. }
    assert (Htn : tn = total_microseconds first
                       + rr * ri * unit_microseconds rpu)
      by (unfold tn; rewrite Ht1; reflexivity).
    split.
    + intros [_ Hn]. apply Hall. apply Forall_forall. intros i Hi.
      apply elem_of_seqZ in Hi.
      rewrite Htn in Hn. unfold in_calendar in *.
      assert (0 <= i * ri * unit_microseconds rpu
              <= rr * ri * unit_microseconds rpu) by nia.
      lia.
    + intros Hno. apply Hsome. intros Hall'. apply Hno. split; [assumption|].
      rewrite Htn.
      destruct (Z.eq_dec rr 0) as [->|Hne].
      * rewrite !Z.mul_0_l, Z.add_0_r. exact Hfirst.
      * rewrite Forall_forall in Hall'. apply (Hall' rr).
        apply elem_of_seqZ. lia.
  - rewrite (Hout H0). cbn [bind]. split; [|reflexivity].
    intros [H _]. contradiction.
Qed.

(** X8: with recognized units, a complete reminder time and non-negative
    counts, the schedule is computed exactly when the day
    [duration_prior] units before the end date and the last reminder are in
    the calendar; otherwise the call fails with [OverflowError]. *)
Theorem calculate_reminder_dates_range ed dp ru rr ri rpu drt h mi :
  wf ed -> is_reminder_unit ru = true -> is_unit rpu = true ->
  reminder_time drt !! "hour" = Some h ->
  reminder_time drt !! "minute" = Some mi ->
  0 <= h <= 23 -> 0 <= mi <= 59 -> 0 <= rr -> 0 <= ri ->
  let t0 := total_microseconds ed - dp * reminder_unit_microseconds ru in
  let tn := midnight t0 + (h * 3600 + mi * 60) * 1000000
            + rr * ri * unit_microseconds rpu in
  (in_calendar t0 /\ in_calendar tn ->
   exists l, calculate_reminder_dates ed dp ru rr ri rpu drt = Ok l)
  /\ (~ (in_calendar t0 /\ in_calendar tn) ->
      calculate_reminder_dates ed dp ru rr ri rpu drt = Raise OverflowError).
Proof.
  intros Hwf Hru Hu Hh Hmi Hhr Hmir Hrr Hri.
  exact (calculate_reminder_dates_cases ed dp ru rr ri rpu drt h mi
           Hwf Hru Hu Hh Hmi Hhr Hmir Hrr Hri).
Qed.

Lemma calculate_reminder_dates_range_witness :
  let ed := mkdatetime 9999 12 30 0 0 0 0 in
  wf ed /\ is_reminder_unit "DAY(S)" = true /\ is_unit "DAY(S)" = true
  /\ reminder_time None !! "hour" = Some 8
  /\ reminder_time None !! "minute" = Some 0
  /\ calculate_reminder_dates ed 1 "DAY(S)" 3 1 "DAY(S)" None
     = Raise OverflowError.
Proof.
  assert (Hwf : wf (mkdatetime 9999 12 30 0 0 0 0))
    by (vm_compute; intuition congruence).
  split; [exact Hwf|]. split; [reflexivity|]. split; [reflexivity|].
  split; [reflexivity|]. split; [reflexivity|].
  apply (proj2 (calculate_reminder_dates_range
                  (mkdatetime 9999 12 30 0 0 0 0) 1 "DAY(S)" 3 1 "DAY(S)"
                  None 8 0 Hwf eq_refl eq_refl eq_refl eq_refl
                  ltac:(lia) ltac:(lia) ltac:(lia) ltac:(lia))).
  vm_compute. intros [_ [_ H]]. discriminate H.
Defined.
End ReminderExtras4.

Section ProcessExtras.
Import calendar datetime isotext PyFloat spec MedicationReminderCalculator.

(** X9: when [process_medication_reminders] fails, the error is the one of
    the calculator; the heap is untouched if the end date could not be
    computed, and otherwise only [end_date] of the record was assigned:
    its [reminder_dates] keep their old value. *)
Theorem process_medication_reminders_failure l drt (h h' : heap) m e :
  h !! l = Some m ->
  process_medication_reminders l drt h = (h', Raise e) ->
  (calculate_end_date (models.start_date m) (models.max_dosage m)
     (models.dosage_frequency m) (models.total_supply m)
     (models.dosage_interval m) (models.start_time m) = Raise e
   /\ h' = h)
  \/ (exists ed,
         calculate_end_date (models.start_date m) (models.max_dosage m)
           (models.dosage_frequency m) (models.total_supply m)
           (models.dosage_interval m) (models.start_time m) = Ok ed
         /\ calculate_reminder_dates ed (models.duration_prior m)
              (models.reminder_unit m) (models.repeat_reminders m)
              (models.repeat_intervals m) (models.repeat_unit m) drt
            = Raise e
         /\ h' = <[l := models.set_end_date m ed]> h
         /\ models.reminder_dates (models.set_end_date m ed)
            = models.reminder_dates m).
Proof.
  intros Hm. unfold process_medication_reminders. rewrite Hm.
  destruct (calculate_end_date _ _ _ _ _ _) as [ed|err].
  - destruct (calculate_reminder_dates _ _ _ _ _ _ _) as [rd|err] eqn:Hrd;
      [discriminate|].
    intros [= <- <-]. right. exists ed. cbn in Hrd. auto.
  - intros [= <- <-]. left. auto.
Qed.

Lemma process_medication_reminders_failure_witness :
  let m := models.mkMedication None 1 "Amoxicillin" 1 1 None 2 1 "DAY(S)" 20
             (mkdatetime 2025 1 1 0 0 0 0) None None 3 "HOUR(S)" 2 1 "DAY(S)"
             None None in
  let e := ValueError "Invalid reminder unit: HOUR(S)" in
  ({[1%positive := m]} : heap) !! 1%positive = Some m
  /\ process_medication_reminders 1%positive None {[1%positive := m]}
     = ({[1%positive :=
            models.set_end_date m (mkdatetime 2025 1 10 0 0 0 0)]},
        Raise e)
  /\ ((calculate_end_date (mkdatetime 2025 1 1 0 0 0 0) 2 "DAY(S)" 20 1 None
       = Raise e
       /\ ({[1%positive :=
               models.set_end_date m (mkdatetime 2025 1 10 0 0 0 0)]} : heap)
          = {[1%positive := m]})
      \/ exists ed,
          calculate_end_date (mkdatetime 2025 1 1 0 0 0 0) 2 "DAY(S)" 20 1 None
          = Ok ed
          /\ calculate_reminder_dates ed 3 "HOUR(S)" 2 1 "DAY(S)" None
             = Raise e
          /\ ({[1%positive :=
                  models.set_end_date m (mkdatetime 2025 1 10 0 0 0 0)]}
              : heap)
             = <[1%positive := models.set_end_date m ed]> {[1%positive := m]}
          /\ models.reminder_dates (models.set_end_date m ed)
             = models.reminder_dates m).
Proof.
  intros m e.
  assert (H : process_medication_reminders 1%positive None {[1%positive := m]}
              = ({[1%positive :=
                     models.set_end_date m (mkdatetime 2025 1 10 0 0 0 0)]},
                 Raise e))
    by (vm_compute; reflexivity).
  split; [apply lookup_singleton_eq|]. split; [exact H|].
  exact (process_medication_reminders_failure 1%positive None _ _ m e
           (lookup_singleton_eq _ _) H).
Defined.

(** X10: processing again what was processed changes nothing: the second
    call returns the same dictionary and leaves the heap as it is. *)
Theorem process_medication_reminders_idempotent l drt (h h' : heap) m r :
  h !! l = Some m ->
  process_medication_reminders l drt h = (h', Ok r) ->
  process_medication_reminders l drt h' = (h', Ok r).
Proof.
  intros Hm. unfold process_medication_reminders at 1. rewrite Hm.
  destruct (calculate_end_date _ _ _ _ _ _) as [ed|err] eqn:Hed;
    [|discriminate].
  destruct (calculate_reminder_dates _ _ _ _ _ _ _) as [rd|err] eqn:Hrd;
    [|discriminate].
  intros [= <- <-].
  unfold process_medication_reminders. cbv zeta. unfold heap, ref in *.
  rewrite lookup_insert_eq.
  destruct m; cbn in *. rewrite Hed, Hrd. cbn.
  rewrite !insert_insert_eq. reflexivity.
Qed.

Lemma process_medication_reminders_idempotent_witness :
  let r := mkprocessed 1%positive (mkdatetime 2025 1 10 0 0 0 0)
             [mkdatetime 2025 1 7 8 0 0 0; mkdatetime 2025 1 8 8 0 0 0;
              mkdatetime 2025 1 9 8 0 0 0] in
  ({[1%positive := sample_medication]} : heap) !! 1%positive
  = Some sample_medication
  /\ process_medication_reminders 1%positive None
       {[1%positive := sample_medication]}
     = ({[1%positive := sample_processed]}, Ok r)
  /\ process_medication_reminders 1%positive None
       {[1%positive := sample_processed]}
     = ({[1%positive := sample_processed]}, Ok r).
Proof.
  intros r.
  assert (H : process_medication_reminders 1%positive None
                {[1%positive := sample_medication]}
              = ({[1%positive := sample_processed]}, Ok r))
    by (vm_compute; reflexivity).
  split; [apply lookup_singleton_eq|]. split; [exact H|].
  exact (process_medication_reminders_idempotent 1%positive None _ _
           sample_medication r (lookup_singleton_eq _ _) H).
Defined.

(** X11: what is stored on the record can be read back: the text stored in
    [reminder_dates] deserializes to the schedule returned, one string per
    reminder, and the stored [end_date] is the first argument from which
    that schedule was computed. *)
Theorem process_medication_reminders_stored l drt (h h' : heap) m r :
  h !! l = Some m ->
  process_medication_reminders l drt h = (h', Ok r) ->
  exists m' text,
    h' !! l = Some m'
    /\ models.reminder_dates m' = Some text
    /\ deserialize_reminder_dates text = Ok (reminder_dates r)
    /\ length text = length (reminder_dates r)
    /\ models.end_date m' = Some (end_date r)
    /\ calculate_reminder_dates (end_date r) (models.duration_prior m)
         (models.reminder_unit m) (models.repeat_reminders m)
         (models.repeat_intervals m) (models.repeat_unit m) drt
       = Ok (reminder_dates r).
Proof.
  intros Hm. unfold process_medication_reminders. rewrite Hm.
  destruct (calculate_end_date _ _ _ _ _ _) as [ed|err]; [|discriminate].
  destruct (calculate_reminder_dates _ _ _ _ _ _ _) as [rd|err] eqn:Hrd;
    [|discriminate].
  intros [= <- <-]. cbn in Hrd.
  unfold heap, ref in *.
  eexists _, _. split; [apply lookup_insert_eq|].
  cbn [models.reminder_dates models.set_reminder_dates models.end_date
       models.set_end_date reminder_dates end_date].
  split; [reflexivity|]. split.
  - apply mapM_fromisoformat_isoformat.
    eapply calculate_reminder_dates_wf, Hrd.
  - split; [apply length_map|]. split; [reflexivity|exact Hrd].
Qed.

Lemma process_medication_reminders_stored_witness :
  let r := mkprocessed 1%positive (mkdatetime 2025 1 10 0 0 0 0)
             [mkdatetime 2025 1 7 8 0 0 0; mkdatetime 2025 1 8 8 0 0 0;
              mkdatetime 2025 1 9 8 0 0 0] in
  ({[1%positive := sample_medication]} : heap) !! 1%positive
  = Some sample_medication
  /\ process_medication_reminders 1%positive None
       {[1%positive := sample_medication]}
     = ({[1%positive := sample_processed]}, Ok r)
  /\ exists m' text,
      ({[1%positive := sample_processed]} : heap) !! 1%positive = Some m'
      /\ models.reminder_dates m' = Some text
      /\ deserialize_reminder_dates text = Ok (reminder_dates r)
      /\ length text = length (reminder_dates r)
      /\ models.end_date m' = Some (end_date r)
      /\ calculate_reminder_dates (end_date r) 3 "DAY(S)" 2 1 "DAY(S)" None
         = Ok (reminder_dates r).
Proof.
  intros r.
  assert (H : process_medication_reminders 1%positive None
                {[1%positive := sample_medication]}
              = ({[1%positive := sample_processed]}, Ok r))
    by (vm_compute; reflexivity).
  split; [apply lookup_singleton_eq|]. split; [exact H|].
  exact (process_medication_reminders_stored 1%positive None _ _
           sample_medication r (lookup_singleton_eq _ _) H).
Defined.
End ProcessExtras.

Section FormDomain.
Import calendar datetime isotext PyFloat spec MedicationReminderCalculator.

Lemma year_total_microseconds d :
  wf d -> 2025 <= year d <= 2039 ->
  739252 * 86400000000 <= total_microseconds d < 744730 * 86400000000.
Proof.
  intros Hwf Hy.
  pose proof (day_of_year_bounds _ _ _ (proj1 Hwf)) as Hdoy.
  pose proof (days_before_year_mono 2025 (year d) ltac:(lia)) as H1.
  pose proof (days_before_year_mono (year d + 1) 2040 ltac:(lia)) as H2.
  rewrite days_before_year_succ in H2.
  change (_days_before_year 2025) with 739251 in H1.
  change (_days_before_year 2040) with 744729 in H2.
  destruct Hwf as (_ & ? & ? & ? & ?).
  unfold total_microseconds, toordinal, _ymd2ord. lia.
Qed.

Lemma exact_ceil_le a b : 0 < a -> 1 <= b -> exact_ceil a b <= a.
Proof. intros Ha Hb. unfold exact_ceil. Z.div_mod_to_equations. nia. Qed.

Lemma form_end_date m :
  form_input m ->
  exists ed,
    calculate_end_date (models.start_date m) (models.max_dosage m)
      (models.dosage_frequency m) (models.total_supply m)
      (models.dosage_interval m) (models.start_time m) = Ok ed
    /\ wf ed
    /\ 739252 * 86400000000 <= total_microseconds ed
       < 761362 * 86400000000.
Proof.
  intros (Hmd & Hdi & Hf & Hts & Hsd & Hsy & Hst & _).
  set (a := anchor (models.dosage_frequency m) (models.start_date m)
              (models.start_time m)).
  assert (Ha : wf a /\ 2025 <= year a <= 2039).
  { unfold a, anchor. destruct (models.start_time m) as [t|]; [|auto].
    destruct (_ =? _)%string; auto. }
  destruct Ha as [Hwa Hya].
  pose proof (year_total_microseconds a Hwa Hya) as Hta.
  assert (Hts' : 0 < models.total_supply m <= 100) by lia.
  assert (Hmd53 : 0 < models.max_dosage m < 2 ^ 53)
    by (change (2 ^ 53) with 9007199254740992; lia).
  assert (Hts53 : 0 < models.total_supply m < 2 ^ 53)
    by (change (2 ^ 53) with 9007199254740992; lia).
  pose proof (exact_ceil_pos (models.total_supply m) (models.max_dosage m)
                ltac:(lia) ltac:(lia)) as Hc1.
  pose proof (exact_ceil_le (models.total_supply m) (models.max_dosage m)
                ltac:(lia) ltac:(lia)) as Hc2.
  set (c := exact_ceil (models.total_supply m) (models.max_dosage m)) in *.
  assert (Hn : 0 <= (c - 1) * models.dosage_interval m <= 99 * 24) by nia.
  assert (HU : 0 < unit_microseconds (models.dosage_frequency m)
               <= 604800000000).
  { unfold unit_microseconds.
    destruct (_ =? "HOUR(S)")%string; [|destruct (_ =? "DAY(S)")%string]; lia. }
  assert (He : 0 <= (c - 1) * models.dosage_interval m
                    * unit_microseconds (models.dosage_frequency m)
               <= 99 * 24 * 604800000000) by nia.
  rewrite calculate_end_date_exact by assumption. fold a c.
  destruct (add_duration_cases a (models.dosage_frequency m)
              ((c - 1) * models.dosage_interval m) Hwa Hf) as [Hin _].
  destruct Hin as (ed & Hed & Hwe & Hte).
  { unfold in_calendar, _MAXORDINAL. lia. }
  exists ed. split; [exact Hed|].
  split; [exact Hwe|]. lia.
Qed.

(** X12: every medication that the add-prescription form can submit is
    processed, with a schedule of [repeat_reminders + 1] reminders, when
    its reminder unit is ["DAY(S)"] or ["WEEK(S)"]; with ["HOUR(S)"], the
    third unit that the form offers, processing fails with [ValueError]
    after the end date was assigned. *)
Theorem process_medication_reminders_form l (h : heap) m :
  form_input m -> h !! l = Some m ->
  (models.reminder_unit m <> "HOUR(S)" ->
   exists h' r,
     process_medication_reminders l None h = (h', Ok r)
     /\ Z.of_nat (length (reminder_dates r)) = models.repeat_reminders m + 1)
  /\ (models.reminder_unit m = "HOUR(S)" ->
      exists ed,
        process_medication_reminders l None h
        = (<[l := models.set_end_date m ed]> h,
           Raise (ValueError "Invalid reminder unit: HOUR(S)"))).
Proof.
  intros Hform Hm.
  destruct (form_end_date m Hform) as (ed & Hed & Hwe & Hte).
  destruct Hform as (_ & _ & _ & _ & _ & _ & _ & Hdp & Hru & Hrr & Hri & Hrpu).
  unfold process_medication_reminders. rewrite Hm, Hed. cbv zeta.
  cbn [models.duration_prior models.reminder_unit models.repeat_reminders
       models.repeat_intervals models.repeat_unit models.set_end_date].
  split.
  - intros Hne.
    assert (Hru' : is_reminder_unit (models.reminder_unit m) = true).
    { destruct (is_unit_cases _ Hru) as [?|[->| ->]];
        [contradiction|reflexivity|reflexivity]. }
    assert (HU' : 0 < reminder_unit_microseconds (models.reminder_unit m)
                  <= 604800000000).
    { unfold reminder_unit_microseconds.
      destruct (_ =? "WEEK(S)")%string; [|destruct (_ =? "DAY(S)")%string];
        lia. }
    assert (HU : 0 < unit_microseconds (models.repeat_unit m)
                 <= 604800000000).
    { unfold unit_microseconds.
      destruct (_ =? "HOUR(S)")%string; [|destruct (_ =? "DAY(S)")%string];
        lia. }
    destruct (calculate_reminder_dates_cases ed (models.duration_prior m)
                (models.reminder_unit m) (models.repeat_reminders m)
                (models.repeat_intervals m) (models.repeat_unit m) None 8 0
                Hwe Hru' Hrpu eq_refl eq_refl ltac:(lia) ltac:(lia)
                ltac:(lia) ltac:(lia)) as [Hin _].
    destruct Hin as [rd Hrd].
    { assert (0 <= models.duration_prior m
                   * reminder_unit_microseconds (models.reminder_unit m)
              <= 10 * 604800000000) by nia.
      assert (0 <= models.repeat_reminders m * models.repeat_intervals m
              <= 48) by nia.
      assert (0 <= models.repeat_reminders m * models.repeat_intervals m
                   * unit_microseconds (models.repeat_unit m)
              <= 48 * 604800000000) by nia.
      unfold in_calendar, midnight, _MAXORDINAL. split; dlia. }
    rewrite Hrd. eexists _, _. split; [reflexivity|].
    cbn [reminder_dates].
    destruct (calculate_reminder_dates_Ok _ _ _ _ _ _ _ _ Hrd)
      as (_ & _ & _ & _ & _ & _ & _ & Hlen & _).
    rewrite Hlen. lia.
  - intros Heq. exists ed. rewrite Heq.
    rewrite calculate_reminder_dates_unrecognized by reflexivity.
    reflexivity.
Qed.
Lemma process_medication_reminders_form_witness :
  let m := models.mkMedication None 1 "Amoxicillin" 1 1 None 2 1 "DAY(S)" 30
             (mkdatetime 2025 1 1 0 0 0 0) None None 3 "DAY(S)" 2 1 "DAY(S)"
             None None in
  let h : heap := {[1%positive := m]} in
  form_input m /\ h !! 1%positive = Some m
  /\ (models.reminder_unit m <> "HOUR(S)" ->
      exists h' r,
        process_medication_reminders 1%positive None h = (h', Ok r)
        /\ Z.of_nat (length (reminder_dates r))
           = models.repeat_reminders m + 1).
Proof.
  intros m h.
  assert (Hf : form_input m) by (vm_compute; intuition congruence).
  assert (Hl : h !! 1%positive = Some m) by apply lookup_singleton_eq.
  split; [exact Hf|]. split; [exact Hl|].
  exact (proj1 (process_medication_reminders_form 1%positive h m Hf Hl)).
Defined.
End FormDomain.

Section Notifications.
Import calendar datetime isotext spec MedicationReminderCalculator notifications.




Lemma all_future_weaken clock n n' m m' added :
  (m <= n)%nat -> (n' <= m')%nat ->
  all_future clock n n' added -> all_future clock m m' added.
Proof.
  intros H1 H2 H. unfold all_future in *.
  eapply Forall_impl; [exact H|].
  intros d (k & Hk & Hg). exists k. split; [lia|exact Hg].
Qed.

Lemma schedule_effect clock name : forall dates s,
  exists added,
    jobs (fst (schedule_medication_reminders clock dates name s))
    = jobs s ++ added
    /\ (readings s
        <= readings (fst (schedule_medication_reminders clock dates name s)))%nat
    /\ all_future clock (readings s)
         (readings (fst (schedule_medication_reminders clock dates name s)))
         added.
Proof.
  induction dates as [|date dates IH]; intros s;
    cbn [schedule_medication_reminders].
  - exists []. cbn. rewrite app_nil_r. repeat split; [lia|constructor].
  - destruct (fromisoformat date) as [d|e].
    + unfold now. destruct (gt d (clock (readings s))) eqn:Hg.
      * destruct (IH (add_job d (mkscheduler (jobs s) (S (readings s)))))
          as (added & Hj & Hr & Ha).
        cbn [add_job jobs readings] in *.
        exists (d :: added). rewrite Hj, <- app_assoc.
        split; [reflexivity|]. split; [lia|].
        constructor.
        -- exists (readings s). split; [lia|exact Hg].
        -- eapply all_future_weaken; [| |exact Ha]; lia.
      * destruct (IH (mkscheduler (jobs s) (S (readings s))))
          as (added & Hj & Hr & Ha).
        cbn [jobs readings] in *.
        exists added. split; [exact Hj|]. split; [lia|].
        eapply all_future_weaken; [| |exact Ha]; lia.
    + exists []. cbn. rewrite app_nil_r. repeat split; [lia|constructor].
Qed.
End Notifications.

Section Notifications2.
Import calendar datetime isotext spec MedicationReminderCalculator notifications.







Lemma load_loop_effect clock : forall meds s,
  exists added,
    jobs (fst (load_loop clock meds s)) = jobs s ++ added
    /\ (readings s <= readings (fst (load_loop clock meds s)))%nat
    /\ all_future clock (readings s) (readings (fst (load_loop clock meds s)))
         added.
Proof.
  induction meds as [|med meds IH]; intros s; cbn [load_loop].
  - exists []. cbn. rewrite app_nil_r. repeat split; [lia|constructor].
  - destruct (med !! "reminder_dates") as [v|]; [|apply IH].
    destruct (truthy v); [|apply IH].
    destruct (getitem med "med_name") as [name|e].
    + destruct (schedule_effect clock (name_of name) (iterate v) s)
        as (added & Hj & Hr & Ha).
      destruct (schedule_medication_reminders clock (iterate v)
                  (name_of name) s) as [s1 [u|e]]; cbn [fst] in *.
      * destruct (IH s1) as (added' & Hj' & Hr' & Ha').
        exists (added ++ added'). rewrite Hj', Hj, <- app_assoc.
        split; [reflexivity|]. split; [lia|].
        apply Forall_app. split.
        -- eapply all_future_weaken; [| |exact Ha]; lia.
        -- eapply all_future_weaken; [| |exact Ha']; lia.
      * exists added. auto.
    + exists []. cbn. rewrite app_nil_r. repeat split; [lia|constructor].
Qed.

(** X16: [load_all_reminders] leaves the scheduler alone when the
    medications cannot be retrieved; otherwise it starts from no job at
    all, so that afterwards every pending job is a reminder that was later
    than the clock during this very call, also when the call failed on the
    way. *)
Theorem load_all_reminders_replaces clock user_medications s s' r :
  load_all_reminders clock user_medications s = (s', r) ->
  (forall e, user_medications = Raise e -> s' = s /\ r = Raise e)
  /\ (forall meds, user_medications = Ok meds ->
                   all_future clock (readings s) (readings s') (jobs s')).
Proof.
  intros H. split.
  - intros e ->. cbn in H. injection H as <- <-. auto.
  - intros meds ->. cbn [load_all_reminders] in H.
    destruct (load_loop_effect clock meds (cancel_all_reminders s))
      as (added & Hj & _ & Ha).
    rewrite H in Hj, Ha. cbn [fst cancel_all_reminders jobs readings app] in *.
    rewrite Hj. exact Ha.
Qed.

Lemma load_all_reminders_replaces_witness :
  let clock := fun _ : nat => mkdatetime 2025 1 8 0 0 0 0 in
  let med : gmap string value :=
    <["med_name" := VStr "Amoxicillin"]>
      (<["reminder_dates" :=
           VList ["2025-01-07T08:00:00"; "2025-01-09T08:00:00"]]> ∅) in
  let s := mkscheduler [mkdatetime 2024 12 31 8 0 0 0] 0 in
  let s' := mkscheduler [mkdatetime 2025 1 9 8 0 0 0] 2 in
  load_all_reminders clock (Ok [med; ∅]) s = (s', Ok tt)
  /\ all_future clock (readings s) (readings s') (jobs s').
Proof.
  intros clock med s s'.
  assert (H : load_all_reminders clock (Ok [med; ∅]) s = (s', Ok tt))
    by (vm_compute; reflexivity).
  split; [exact H|].
  exact (proj2 (load_all_reminders_replaces clock _ s s' _ H) _ eq_refl).
Defined.
End Notifications2.

Section CalendarScreen.
Import calendar datetime calendar_screen.

Lemma days_in_month_bounds y m :
  1 <= m <= 12 -> 28 <= _days_in_month y m <= 31.
Proof.
  intros Hm. unfold _days_in_month.
  destruct (month_cases m Hm) as [->|[->|[->|[->|[->|[->|[->|[->|[->|[->|[->| ->]]]]]]]]]]];
    destruct (_is_leap y); cbn; lia.
Qed.

Lemma weekday_bounds d : 0 <= weekday d <= 6.
Proof. unfold weekday. dlia. Qed.

Lemma first_of_month_wf y m :
  MINYEAR <= y <= MAXYEAR -> 1 <= m <= 12 -> wf (mkdatetime y m 1 0 0 0 0).
Proof.
  intros Hy Hm. pose proof (days_in_month_bounds y m Hm).
  unfold wf, valid_date; cbn. lia.
Qed.

Lemma datetime_new_first y m :
  MINYEAR <= y <= MAXYEAR -> 1 <= m <= 12 ->
  datetime_new y m 1 0 0 0 0 = Ok (mkdatetime y m 1 0 0 0 0).
Proof.
  intros Hy Hm.
  exact (datetime_new_wf (mkdatetime y m 1 0 0 0 0)
           (first_of_month_wf y m Hy Hm)).
Qed.

Lemma populate_calendar_eq today s :
  wf (current_date s) ->
  let y := year (current_date s) in
  let m := month (current_date s) in
  let w := weekday (mkdatetime y m 1 0 0 0 0) in
  populate_calendar today s
  = (mkscreen (current_date s)
       ((map (fun _ => EmptyLabel) (seqZ 0 w)
         ++ map (day_button today y m) (seqZ 1 (_days_in_month y m)))
        ++ map (fun _ => EmptyLabel)
             (seqZ 0 (42 - (w + _days_in_month y m)))), Ok tt).
Proof.
  intros Hwf y m w. destruct Hwf as ((Hy & Hm & _) & _).
  unfold populate_calendar. fold y m.
  rewrite (datetime_new_first y m) by assumption.
  unfold monthrange, in_range.
  rewrite (proj2 (Z.leb_le 1 m)), (proj2 (Z.leb_le m 12)) by lia.
  cbn [andb negb app]. reflexivity.
Qed.

Lemma populate_calendar_length today s :
  wf (current_date s) ->
  length (calendar_grid (fst (populate_calendar today s))) = 42%nat.
Proof.
  intros Hwf. rewrite (populate_calendar_eq today s Hwf).
  cbn [fst calendar_grid].
  destruct Hwf as ((Hy & Hm & _) & _).
  pose proof (days_in_month_bounds (year (current_date s)) _ Hm).
  pose proof (weekday_bounds
                (mkdatetime (year (current_date s)) (month (current_date s))
                   1 0 0 0 0)).
  rewrite !length_app, !length_map, !length_seqZ. lia.
Qed.

(** X17: the calendar of a month always has 42 cells: after as many blank
    cells as the weekday of the first of the month (Monday is 0) come the
    buttons of the days 1 to the last of the month, each in the column of
    its own weekday, and blank cells fill the rest. *)
Theorem populate_calendar_grid today s :
  wf (current_date s) ->
  let y := year (current_date s) in
  let m := month (current_date s) in
  let w := weekday (mkdatetime y m 1 0 0 0 0) in
  exists grid,
    populate_calendar today s = (mkscreen (current_date s) grid, Ok tt)
    /\ length grid = 42%nat
    /\ (forall d, 1 <= d <= _days_in_month y m ->
          grid !! Z.to_nat (w + d - 1) = Some (day_button today y m d)
          /\ (w + d - 1) mod 7 = weekday (mkdatetime y m d 0 0 0 0))
    /\ (forall i, 0 <= i < w \/ w + _days_in_month y m <= i < 42 ->
          grid !! Z.to_nat i = Some EmptyLabel).
Proof.
  intros Hwf y m w. pose proof (populate_calendar_eq today s Hwf) as Heq.
  cbv zeta in Heq. fold y m w in Heq.
  destruct Hwf as ((Hy & Hm & _) & _). fold y m in Hy, Hm.
  pose proof (days_in_month_bounds y m Hm) as Hn.
  pose proof (weekday_bounds (mkdatetime y m 1 0 0 0 0)) as Hw. fold w in Hw.
  eexists. split; [exact Heq|].
  set (A := map (fun _ => EmptyLabel) (seqZ 0 w)).
  set (B := map (day_button today y m) (seqZ 1 (_days_in_month y m))).
  set (C := map (fun _ => EmptyLabel)
              (seqZ 0 (42 - (w + _days_in_month y m)))).
  assert (HA : length A = Z.to_nat w)
    by (unfold A; rewrite length_map, length_seqZ; reflexivity).
  assert (HB : length B = Z.to_nat (_days_in_month y m))
    by (unfold B; rewrite length_map, length_seqZ; reflexivity).
  assert (HC : length C = Z.to_nat (42 - (w + _days_in_month y m)))
    by (unfold C; rewrite length_map, length_seqZ; reflexivity).
  split; [rewrite !length_app, HA, HB, HC; lia|]. split.
  - intros d Hd. split.
    + rewrite lookup_app_l by (rewrite length_app, HA, HB; lia).
      rewrite lookup_app_r by (rewrite HA; lia).
      rewrite HA. unfold B. rewrite list_lookup_fmap.
      replace (Z.to_nat (w + d - 1) - Z.to_nat w)%nat
        with (Z.to_nat (d - 1)) by lia.
      rewrite (lookup_seqZ_lt 1 (_days_in_month y m) (Z.to_nat (d - 1)))
        by lia.
      cbn. do 2 f_equal. lia.
    + unfold w, weekday, toordinal, _ymd2ord. cbn [year month day].
      generalize (_days_before_year y + _days_before_month y m).
      intros n. dlia.
  - intros i [Hi|Hi].
    + rewrite lookup_app_l by (rewrite length_app, HA, HB; lia).
      rewrite lookup_app_l by (rewrite HA; lia).
      unfold A. rewrite list_lookup_fmap.
      rewrite (lookup_seqZ_lt 0 w (Z.to_nat i)) by lia. reflexivity.
    + rewrite lookup_app_r by (rewrite length_app, HA, HB; lia).
      rewrite length_app, HA, HB. unfold C. rewrite list_lookup_fmap.
      rewrite lookup_seqZ_lt by lia. reflexivity.
Qed.

Lemma populate_calendar_grid_witness :
  let s := mkscreen (mkdatetime 2025 2 14 9 30 0 0) [] in
  let today := mkdatetime 2025 2 10 12 0 0 0 in
  wf (current_date s)
  /\ exists grid,
      populate_calendar today s = (mkscreen (current_date s) grid, Ok tt)
      /\ length grid = 42%nat
      /\ (forall d, 1 <= d <= _days_in_month 2025 2 ->
            grid !! Z.to_nat (weekday (mkdatetime 2025 2 1 0 0 0 0) + d - 1)
            = Some (day_button today 2025 2 d)
            /\ (weekday (mkdatetime 2025 2 1 0 0 0 0) + d - 1) mod 7
               = weekday (mkdatetime 2025 2 d 0 0 0 0))
      /\ (forall i, 0 <= i < weekday (mkdatetime 2025 2 1 0 0 0 0)
                    \/ weekday (mkdatetime 2025 2 1 0 0 0 0)
                       + _days_in_month 2025 2 <= i < 42 ->
            grid !! Z.to_nat i = Some EmptyLabel).
Proof.
  intros s today.
  assert (Hwf : wf (current_date s)) by (vm_compute; intuition congruence).
  split; [exact Hwf|].
  exact (populate_calendar_grid today s Hwf).
Defined.

(** The months counted from January of year 0. *)
Lemma month_index_inj y m y' m' :
  1 <= m <= 12 -> 1 <= m' <= 12 ->
  12 * y + m = 12 * y' + m' -> y = y' /\ m = m'.
Proof. lia. Qed.

Lemma change_month_step today direction s :
  wf (current_date s) ->
  direction = 1 \/ direction = -1 ->
  let y := year (current_date s) in
  let m := month (current_date s) in
  exists y' m',
    12 * y' + m' = 12 * y + m + direction /\ 1 <= m' <= 12
    /\ change_month today direction s
       = match datetime_new y' m' 1 0 0 0 0 with
         | Raise e => (s, Raise e)
         | Ok d => populate_calendar today (mkscreen d (calendar_grid s))
         end.
Proof.
  intros ((Hy & Hm & _) & _) Hdir y m. fold y m in Hy, Hm.
  unfold change_month. fold y m.
  destruct (Z.ltb_spec (m + direction) 1).
  - exists (y - 1), 12. repeat split; lia.
  - destruct (Z.ltb_spec 12 (m + direction)).
    + exists (y + 1), 1. repeat split; lia.
    + exists y, (m + direction). repeat split; lia.
Qed.

(** X18: one step forward or backward shows the first day, at midnight, of
    the next or the previous month, with a full grid of 42 cells; from
    December 9999 forward and from January of year 1 backward the step
    fails with a [ValueError] and leaves the screen as it was. *)
Theorem change_month_adjacent today direction s s' r :
  wf (current_date s) ->
  direction = 1 \/ direction = -1 ->
  change_month today direction s = (s', r) ->
  let index := 12 * year (current_date s) + month (current_date s) in
  if in_range (12 * MINYEAR + 1) (index + direction) (12 * MAXYEAR + 12)
  then r = Ok tt
       /\ (exists y' m',
             current_date s' = mkdatetime y' m' 1 0 0 0 0
             /\ 1 <= m' <= 12 /\ 12 * y' + m' = index + direction)
       /\ length (calendar_grid s') = 42%nat
  else s' = s /\ is_ValueError r = true.
Proof.
  intros Hwf Hdir Hch index.
  destruct (change_month_step today direction s Hwf Hdir)
    as (y' & m' & Hidx & Hm' & Heq).
  rewrite Hch in Heq. unfold index.
  destruct Hwf as ((Hy & Hm & _) & _).
  unfold in_range, MINYEAR, MAXYEAR in *.
  destruct (Z.leb_spec (12 * 1 + 1)
              (12 * year (current_date s) + month (current_date s)
               + direction));
    [destruct (Z.leb_spec
                 (12 * year (current_date s) + month (current_date s)
                  + direction) (12 * 9999 + 12))|]; cbn [andb].
  - assert (Hy' : 1 <= y' <= 9999) by lia.
    pose proof (first_of_month_wf y' m' Hy' Hm') as Hwf'.
    rewrite (datetime_new_first y' m') in Heq by (unfold MINYEAR, MAXYEAR; lia).
    pose proof (populate_calendar_length today
                  (mkscreen (mkdatetime y' m' 1 0 0 0 0) (calendar_grid s))
                  Hwf') as Hlen.
    rewrite <- Heq in Hlen. cbn [fst] in Hlen.
    pose proof (populate_calendar_eq today
                  (mkscreen (mkdatetime y' m' 1 0 0 0 0) (calendar_grid s))
                  Hwf') as Hpop.
    cbv zeta in Hpop. rewrite <- Heq in Hpop.
    injection Hpop as Hs' ->. split; [reflexivity|]. split; [|exact Hlen].
    exists y', m'. rewrite Hs'. cbn [current_date]. auto.
  - assert (Hy' : y' = 10000) by lia. subst y'.
    unfold datetime_new, in_range in Heq. cbn in Heq.
    injection Heq as -> ->. auto.
  - assert (Hy' : y' = 0) by lia. subst y'.
    unfold datetime_new, in_range in Heq. cbn in Heq.
    injection Heq as -> ->. auto.
Qed.

Lemma change_month_adjacent_witness :
  let s := mkscreen (mkdatetime 2025 12 14 9 30 0 0) [] in
  let today := mkdatetime 2025 2 10 12 0 0 0 in
  let s' := fst (change_month today 1 s) in
  wf (current_date s)
  /\ change_month today 1 s = (s', Ok tt)
  /\ current_date s' = mkdatetime 2026 1 1 0 0 0 0
  /\ length (calendar_grid s') = 42%nat.
Proof.
  intros s today s'.
  assert (Hwf : wf (current_date s)) by (vm_compute; intuition congruence).
  assert (Hch : change_month today 1 s = (s', Ok tt))
    by (vm_compute; reflexivity).
  split; [exact Hwf|]. split; [exact Hch|]. split; [vm_compute; reflexivity|].
  exact (proj2 (proj2 (change_month_adjacent today 1 s s' (Ok tt) Hwf
                         (or_introl eq_refl) Hch))).
Defined.

(** X19: a step forward followed by a step backward, when the first does
    not fail, shows the month the screen started from, and so does a step
    backward followed by a step forward. *)
Theorem change_month_there_and_back today direction s s1 :
  wf (current_date s) ->
  direction = 1 \/ direction = -1 ->
  change_month today direction s = (s1, Ok tt) ->
  exists s2,
    change_month today (- direction) s1 = (s2, Ok tt)
    /\ current_date s2
       = mkdatetime (year (current_date s)) (month (current_date s)) 1 0 0 0 0
    /\ s2 = fst (populate_calendar today
                   (mkscreen (current_date s2) (calendar_grid s))).
Proof.
  intros Hwf Hdir Hch.
  destruct (change_month_step today direction s Hwf Hdir)
    as (y1 & m1 & Hidx1 & Hm1 & Heq1).
  rewrite Hch in Heq1.
  destruct (datetime_new y1 m1 1 0 0 0 0) as [d1|e] eqn:Hd1;
    [|discriminate].
  destruct (datetime_new_Ok _ _ _ _ _ _ _ _ Hd1) as (-> & Hwf1).
  pose proof (populate_calendar_eq today
                (mkscreen (mkdatetime y1 m1 1 0 0 0 0) (calendar_grid s)) Hwf1)
    as Hpop1.
  cbv zeta in Hpop1. cbn [current_date year month] in Hpop1.
  rewrite Hpop1 in Heq1. injection Heq1 as Hs1.
  assert (Hwf1' : wf (current_date s1)) by (rewrite Hs1; exact Hwf1).
  assert (Hdir' : - direction = 1 \/ - direction = -1) by lia.
  destruct (change_month_step today (- direction) s1 Hwf1' Hdir')
    as (y2 & m2 & Hidx2 & Hm2 & Heq2).
  rewrite Hs1 in Hidx2. cbn [current_date year month] in Hidx2.
  destruct Hwf as ((Hy & Hm & _) & _).
  destruct (month_index_inj y2 m2 (year (current_date s))
              (month (current_date s)) Hm2 Hm ltac:(lia)) as (-> & ->).
  pose proof (first_of_month_wf _ _ Hy Hm) as Hwf2.
  rewrite (datetime_new_first _ _ Hy Hm) in Heq2.
  pose proof (populate_calendar_eq today
                (mkscreen (mkdatetime (year (current_date s))
                             (month (current_date s)) 1 0 0 0 0)
                   (calendar_grid s1)) Hwf2) as Hpop2.
  cbv zeta in Hpop2. cbn [current_date year month] in Hpop2.
  eexists. split; [rewrite Heq2; exact Hpop2|].
  cbn [current_date]. split; [reflexivity|].
  rewrite (populate_calendar_eq today
             (mkscreen (mkdatetime (year (current_date s))
                          (month (current_date s)) 1 0 0 0 0)
                (calendar_grid s)) Hwf2).
  reflexivity.
Qed.

Lemma change_month_there_and_back_witness :
  let s := mkscreen (mkdatetime 2025 1 14 9 30 0 0) [] in
  let today := mkdatetime 2025 2 10 12 0 0 0 in
  let s1 := fst (change_month today (-1) s) in
  wf (current_date s)
  /\ change_month today (-1) s = (s1, Ok tt)
  /\ exists s2,
      change_month today (- -1) s1 = (s2, Ok tt)
      /\ current_date s2 = mkdatetime 2025 1 1 0 0 0 0
      /\ s2 = fst (populate_calendar today
                     (mkscreen (current_date s2) (calendar_grid s))).
Proof.
  intros s today s1.
  assert (Hwf : wf (current_date s)) by (vm_compute; intuition congruence).
  assert (H : change_month today (-1) s = (s1, Ok tt))
    by (vm_compute; reflexivity).
  split; [exact Hwf|]. split; [exact H|].
  exact (change_month_there_and_back today (-1) s s1 Hwf
           (or_intror eq_refl) H).
Defined.
End CalendarScreen.

Section Clock12.
Import clock12.

(** X20: an hour of the form (1 to 12, with AM or PM in either case) gives
    an hour of the day between 0 and 23, which the medication screen shows
    again as the same hour and the same period. *)
Theorem hour_of_day_shown ampm_text hour :
  1 <= hour <= 12 ->
  upper ampm_text = "AM"%string \/ upper ampm_text = "PM"%string ->
  0 <= hour_of_day ampm_text hour <= 23
  /\ hour_12 (hour_of_day ampm_text hour) = hour
  /\ period (hour_of_day ampm_text hour) = upper ampm_text.
Proof.
  intros Hh Hp. unfold hour_of_day, hour_12, period.
  destruct Hp as [-> | ->]; cbn [String.eqb Ascii.eqb Bool.eqb andb];
    destruct (Z.eqb_spec hour 12); cbn [negb andb].
  - subst. repeat split; (lia || reflexivity).
  - destruct (Z.eqb_spec (hour mod 12) 0); [dlia|].
    destruct (Z.ltb_spec hour 12); [|lia].
    repeat split; try lia. apply Z.mod_small. lia.
  - subst. repeat split; (lia || reflexivity).
  - destruct (Z.eqb_spec ((hour + 12) mod 12) 0); [dlia|].
    destruct (Z.ltb_spec (hour + 12) 12); [lia|].
    repeat split; try lia. dlia.
Qed.

Lemma hour_of_day_shown_witness :
  1 <= 12 <= 12
  /\ (upper "am" = "AM"%string \/ upper "am" = "PM"%string)
  /\ 0 <= hour_of_day "am" 12 <= 23
  /\ hour_12 (hour_of_day "am" 12) = 12
  /\ period (hour_of_day "am" 12) = upper "am".
Proof.
  split; [lia|]. split; [left; reflexivity|].
  exact (hour_of_day_shown "am" 12 ltac:(lia) (or_introl eq_refl)).
Defined.

(** X21: the hour and the period shown for an hour of the day are an hour
    between 1 and 12 with AM or PM, and entering them in the form gives the
    hour of the day back. *)
Theorem hour_of_day_period hour :
  0 <= hour <= 23 ->
  1 <= hour_12 hour <= 12
  /\ hour_of_day (period hour) (hour_12 hour) = hour.
Proof.
  intros Hh. unfold hour_of_day, hour_12, period.
  destruct (Z.ltb_spec hour 12);
    change (upper "AM") with "AM"%string;
    change (upper "PM") with "PM"%string;
    change ("AM" =? "PM")%string with false;
    change ("PM" =? "AM")%string with false;
    change ("AM" =? "AM")%string with true;
    change ("PM" =? "PM")%string with true;
    cbn [andb];
    destruct (Z.eqb_spec (hour mod 12) 0);
    repeat match goal with
    | |- context [?a =? ?b] => destruct (Z.eqb_spec a b)
    end; cbn [negb andb]; dlia.
Qed.

Lemma hour_of_day_period_witness :
  0 <= 0 <= 23
  /\ 1 <= hour_12 0 <= 12
  /\ hour_of_day (period 0) (hour_12 0) = 0.
Proof.
  split; [lia|]. exact (hour_of_day_period 0 ltac:(lia)).
Defined.
End Clock12.
